(** * LLM router: classifier, routing engine and router service

    A shallow embedding of the TypeScript sources
      - [src/lib/types/index.ts]                      (module [Types])
      - [src/lib/routing/routing-rules.ts]            (module [RoutingRules])
      - [src/lib/models/model-registry.ts]            (module [ModelRegistry])
      - [src/lib/models/client-factory.ts]            (module [ClientFactory])
      - [src/lib/classification/heuristic-classifier.ts],
        [model-classifier.ts], [hybrid-classifier.ts] (module [Classification])
      - [src/lib/routing/routing-engine.ts]           (module [Engine])
      - [src/lib/routing/router-service.ts]           (module [Service])
      - [src/lib/models/base-client.ts]               (module [BaseClient])
      - [src/app/api/route/route.ts]                  (module [Api])

    Conventions of the embedding.
      - A JavaScript [number] is an exact rational ([Q]); numeric results are
        compared with [==].  Division by zero, which JavaScript answers with
        [Infinity] or [NaN], is [0] in [Q]; [scores_defined] says when the
        scoring of the engine is free of it.
      - [Math.pow], [Math.log], [Math.sqrt] and the number formatters are not
        rational functions: they are the members of the class [JSRuntime].
      - A JavaScript string is a [string]; one character stands for one UTF-16
        code unit (the 8-bit range is enough for every literal of the sources).
      - An object used as a dictionary is an association list in insertion
        order, which is the order [Object.keys]/[Object.entries] enumerate.
        Indexing such an object also finds the names it inherits from
        [Object.prototype] ([JS.inherited]); [Object.prototype] is taken
        with its standard properties.
      - A [throw] is the left injection of a sum; mutable module state
        (the registry), instance state (logs, metrics) and the remote
        backends are threaded through the monad [M].
      - Console and logger output is not modelled. *)

From Stdlib Require Import QArith Qminmax Qround ZArith String Ascii List Bool Lia Lqa.
From Stdlib Require Import Sorted Permutation.
Import ListNotations.

Local Open Scope string_scope.
Local Open Scope Q_scope.

(* ===================================================================== *)
(** ** JavaScript built-ins used by the sources *)
(* ===================================================================== *)

Module JS.

(** [s.includes(sub)] *)
Fixpoint includes (s sub : string) : bool :=
  if String.prefix sub s then true
  else match s with
       | EmptyString => false
       | String _ s' => includes s' sub
       end.

Definition lower_ascii (c : ascii) : ascii :=
  let n := nat_of_ascii c in
  if ((65 <=? n) && (n <=? 90))%nat then ascii_of_nat (n + 32) else c.

(** [s.toLowerCase()] on the ASCII letters *)
Fixpoint toLowerCase (s : string) : string :=
  match s with
  | EmptyString => EmptyString
  | String c s' => String (lower_ascii c) (toLowerCase s')
  end.

Definition upper_ascii (c : ascii) : ascii :=
  let n := nat_of_ascii c in
  if ((97 <=? n) && (n <=? 122))%nat then ascii_of_nat (n - 32) else c.

(** [s.toUpperCase()] on the ASCII letters *)
Fixpoint toUpperCase (s : string) : string :=
  match s with
  | EmptyString => EmptyString
  | String c s' => String (upper_ascii c) (toUpperCase s')
  end.

(** the double-quote character *)
Definition dq : string := String (ascii_of_nat 34) EmptyString.

(** the line-feed character *)
Definition LF : ascii := ascii_of_nat 10.
Definition nl : string := String LF EmptyString.

(** [s.lastIndexOf(c, pos)] for a one-character search string: the greatest
    index [i <= pos] with [s[i] = c], or [-1].  The scan runs left to
    right from index [i] and remembers the last hit in [acc]. *)
Fixpoint lastIndexOf_aux (s : string) (c : ascii) (pos i : nat) (acc : Z) : Z :=
  match s with
  | EmptyString => acc
  | String d s' =>
      if (pos <? i)%nat then acc
      else lastIndexOf_aux s' c pos (S i)
             (if Ascii.eqb d c then Z.of_nat i else acc)
  end.

Definition lastIndexOf (s : string) (c : ascii) (pos : nat) : Z :=
  lastIndexOf_aux s c pos 0 (-1)%Z.

(** [s.substring(0, n)] for [0 <= n] *)
Definition substring0 (s : string) (n : Z) : string :=
  String.substring 0 (Z.to_nat n) s.

(** [Math.max(...xs, d)] and [Math.min(...xs, d)] *)
Definition max_with (d : Q) (xs : list Q) : Q := fold_left Qmax xs d.
Definition min_with (d : Q) (xs : list Q) : Q := fold_left Qmin xs d.

(** [Math.max(...xs)] and [Math.min(...xs)] on a non-empty array; the
    sources only spread arrays that contain the element being scored. *)
Definition Math_max (xs : list Q) : Q :=
  match xs with
  | [] => 0
  | x :: r => max_with x r
  end.

Definition Math_min (xs : list Q) : Q :=
  match xs with
  | [] => 0
  | x :: r => min_with x r
  end.

(** [Math.ceil(n / 4)] on a length *)
Definition ceil_div4 (n : nat) : Z := ((Z.of_nat n + 3) / 4)%Z.

(** [Math.round(x)]: nearest integer, halves upwards *)
Definition Math_round (x : Q) : Z := Qfloor (x + (1 # 2)).

(** [x || d] on numbers: [0] is falsy *)
Definition or_num (x d : Q) : Q := if Qeq_bool x 0 then d else x.

(** [o || d] and [o ?? d] on an optional number *)
Definition or_opt (o : option Q) (d : Q) : Q :=
  match o with
  | Some x => or_num x d
  | None => d
  end.

(** [s || d] on strings: the empty string is falsy *)
Definition or_str (s d : string) : string :=
  match s with
  | EmptyString => d
  | _ => s
  end.

Definition Qgtb (x y : Q) : bool := negb (Qle_bool x y).
Definition Qltb (x y : Q) : bool := negb (Qle_bool y x).
Definition Qgeb (x y : Q) : bool := Qle_bool y x.

(** [xs.sort((a, b) => key(b) - key(a))]: the sort is stable
    (ECMAScript 2019), so equal keys keep their order. *)
Section Sort.
Context {A : Type} (key : A -> Q).

Fixpoint insert_desc (x : A) (l : list A) : list A :=
  match l with
  | [] => [x]
  | y :: r => if Qgtb (key y) (key x) then y :: insert_desc x r
              else x :: y :: r
  end.

Definition sort_desc (l : list A) : list A := fold_right insert_desc [] l.
End Sort.

(** [xs.slice(-n)] for [n > 0]: the last [n] elements *)
Definition slice_last {A : Type} (n : nat) (l : list A) : list A :=
  skipn (length l - n) l.

(** [xs.find(p)] *)
Definition find {A : Type} (p : A -> bool) (l : list A) : option A :=
  List.find p l.

(** The property names an object literal inherits from [Object.prototype].
    Each is bound to a function, and [__proto__] to [Object.prototype]
    itself: truthy values that have none of the fields of a model. *)
Definition Object_prototype_keys : list string :=
  ["constructor"; "__defineGetter__"; "__defineSetter__"; "hasOwnProperty";
   "__lookupGetter__"; "__lookupSetter__"; "isPrototypeOf";
   "propertyIsEnumerable"; "toString"; "valueOf"; "__proto__";
   "toLocaleString"].

Definition inherited (name : string) : bool :=
  existsb (String.eqb name) Object_prototype_keys.

(** a number that may be [NaN] *)
Inductive Num :=
| Finite (q : Q)
| NaN.

(** [xs.join(sep)] *)
Fixpoint join (sep : string) (l : list string) : string :=
  match l with
  | [] => ""
  | [x] => x
  | x :: r => x ++ sep ++ join sep r
  end.

End JS.

(** Numeric library functions that leave the rationals, and the number
    formatters of the reasoning strings. *)
Class JSRuntime : Type := {
  Math_pow : Q -> Q -> Q;
  Math_log : Q -> Q;
  Math_sqrt : Q -> Q;
  toFixed : Q -> nat -> string;
  toStr : Q -> string;
  toLocaleString : Q -> string;
  (** [JSON.parse] of the first brace-delimited block of a reply, read at
      the fields [category], [confidence] and [reasoning]; the left
      injection is the message of the error raised when there is no such
      block, it does not parse, or the fields are not a string, a number
      and a string. *)
  JSON_fields : string -> string + (string * Q * string)
}.

(* ===================================================================== *)
(** ** [src/lib/types/index.ts] *)
(* ===================================================================== *)

Module Types.

Inductive Provider := OPENAI | ANTHROPIC | GOOGLE | HUGGINGFACE.

Inductive PromptType :=
  CODE | SUMMARIZE | QA | CREATIVE | MATH_REASONING | UNKNOWN.

Inductive PriorityPreset := BALANCED | QUALITY | COST | LATENCY.

Definition PromptType_eqb (a b : PromptType) : bool :=
  match a, b with
  | CODE, CODE | SUMMARIZE, SUMMARIZE | QA, QA | CREATIVE, CREATIVE
  | MATH_REASONING, MATH_REASONING | UNKNOWN, UNKNOWN => true
  | _, _ => false
  end.

(** the string value of the enum member *)
Definition PromptType_str (t : PromptType) : string :=
  match t with
  | CODE => "code" | SUMMARIZE => "summarize" | QA => "qa"
  | CREATIVE => "creative" | MATH_REASONING => "math_reasoning"
  | UNKNOWN => "unknown"
  end.

(** enumeration order of the members *)
Definition all_PromptType : list PromptType :=
  [CODE; SUMMARIZE; QA; CREATIVE; MATH_REASONING; UNKNOWN].

Record Weights := { quality : Q; cost : Q; latency : Q }.

(** [DEFAULT_PRIORITY_WEIGHTS]: declared by the types module; the routing
    engine does not read it. *)
Definition DEFAULT_PRIORITY_WEIGHTS (p : PriorityPreset) : Weights :=
  match p with
  | BALANCED => {| quality := 0.45; cost := 0.30; latency := 0.25 |}
  | QUALITY => {| quality := 0.65; cost := 0.15; latency := 0.20 |}
  | COST => {| quality := 0.30; cost := 0.50; latency := 0.20 |}
  | LATENCY => {| quality := 0.30; cost := 0.20; latency := 0.50 |}
  end.

Record PromptTypeInfo := {
  estimatedOutputTokens : Q;
  keywords : list string;
  examples : list string
}.

Definition PROMPT_TYPE_MAPPING (t : PromptType) : PromptTypeInfo :=
  match t with
  | CODE =>
      {| estimatedOutputTokens := 500;
         keywords := ["write"; "code"; "function"; "class"; "algorithm";
                      "program"; "script"];
         examples := ["Write a Python function to...";
                      "Create a React component...";
                      "Implement an algorithm..."] |}
  | SUMMARIZE =>
      {| estimatedOutputTokens := 300;
         keywords := ["summarize"; "summary"; "brief"; "overview"; "tl;dr";
                      "key points"];
         examples := ["Summarize this article...";
                      "Give me a brief overview...";
                      "What are the key points..."] |}
  | QA =>
      {| estimatedOutputTokens := 200;
         keywords := ["what is"; "how to"; "explain"; "why"; "when"; "where";
                      "question"; "hello"; "hi"; "how are you";
                      "how do you do"; "greeting"; "conversation"];
         examples := ["What is the difference between...";
                      "How to implement..."; "Explain the concept of...";
                      "Hello, how are you?"; "Hi there!"] |}
  | CREATIVE =>
      {| estimatedOutputTokens := 400;
         keywords := ["write"; "story"; "poem"; "creative"; "imagine";
                      "describe"; "narrative"];
         examples := ["Write a story about..."; "Create a poem...";
                      "Describe a scene..."] |}
  | MATH_REASONING =>
      {| estimatedOutputTokens := 600;
         keywords := ["calculate"; "solve"; "equation"; "mathematical";
                      "math"; "algebra"; "geometry"; "calculus";
                      "statistics"; "probability"; "proof"; "theorem";
                      "formula"; "cos"; "sin"; "tan"; "log"; "ln";
                      "derivative"; "integral"; "matrix"; "vector"; "sqrt";
                      "exp"; "pi"; "="; "+"; "-"; "*"; "/"; "^"; "x"; "y";
                      "z"];
         examples := ["Solve this equation...";
                      "Calculate the derivative..."; "Prove that...";
                      "Find the probability of...";
                      "solve 1 = cos2(x) + sin2(x)";
                      "Divide: z = (5 - i) / (2 + 3i)"] |}
  | UNKNOWN =>
      {| estimatedOutputTokens := 300; keywords := []; examples := [] |}
  end.

(** [ModelConfig] restricted to the stored fields ([BaseModelConfig]) *)
Record BaseModelConfig := {
  provider : Provider;
  modelName : string;
  contextWindowTokens : Z;
  priceInputPerMillion : Q;
  priceOutputPerMillion : Q;
  latencyP50Seconds : Q;
  supportsJson : bool;
  supportsFunctionCalling : bool;
  supportsVision : bool;
  qualityPriorByType : list (PromptType * Q);
  rpmLimit : option Z;
  concurrentLimit : option Z;
  notes : option string;
  isAvailable : option bool
}.

(** [ModelConfig]: the stored fields and the derived ones *)
Record ModelConfig := {
  base : BaseModelConfig;
  contextWindow : Z;
  inputCostPer1kTokens : Q;
  outputCostPer1kTokens : Q;
  latencyMs : Q;
  capabilities : list PromptType;
  qualityPriors : PromptType -> Q;
  throughputTps : Q;
  mc_isAvailable : bool
}.

Record RoutingRequest := {
  rq_prompt : string;
  rq_promptType : option PromptType;
  rq_priorityPreset : PriorityPreset;
  rq_userId : option string;
  rq_sessionId : option string
}.

Record Alternative := {
  alt_modelName : string;
  alt_score : Q;
  alt_reason : string;
  alt_provider : Provider;
  alt_qualityScore : Q;
  alt_costPer1kTokens : Q;
  alt_latencyMs : Q
}.

Record RoutingDecision := {
  selectedModel : string;
  rd_provider : Provider;
  rd_promptType : PromptType;
  rd_confidence : Q;
  reasoning : string;
  fallbackModel : option string;
  estimatedCost : Q;
  estimatedLatency : Q;
  rd_score : Q;
  priorityWeights : Weights;
  alternatives : list Alternative
}.

Record ModelResponse := {
  content : string;
  mr_modelName : string;
  mr_provider : Provider;
  usage_inputTokens : Q;
  usage_outputTokens : Q;
  usage_costUsd : Q;
  mr_latency : Q
}.

Record RequestLog := {
  log_id : string;
  log_prompt : string;
  log_promptType : PromptType;
  log_selectedModel : string;
  log_provider : Provider;
  log_costUsd : Q;
  log_latencyMs : Z;
  log_qualityScore : option Q;
  log_classificationMethod : string;
  log_classificationConfidence : Q;
  log_priorityPreset : PriorityPreset;
  log_timestamp : Z;
  log_userId : option string;
  log_sessionId : option string;
  log_error : option string
}.

End Types.
Import Types.

(* ===================================================================== *)
(** ** [src/lib/routing/routing-rules.ts] *)
(* ===================================================================== *)

Module RoutingRules.

(** [PRIORITY_WEIGHTS] *)
Definition PRIORITY_WEIGHTS (p : PriorityPreset) : Weights :=
  match p with
  | BALANCED => {| quality := 0.45; cost := 0.30; latency := 0.25 |}
  | QUALITY => {| quality := 0.70; cost := 0.20; latency := 0.10 |}
  | COST => {| quality := 0.20; cost := 0.70; latency := 0.10 |}
  | LATENCY => {| quality := 0.20; cost := 0.10; latency := 0.70 |}
  end.

Definition getPriorityWeights : PriorityPreset -> Weights := PRIORITY_WEIGHTS.

End RoutingRules.
Import RoutingRules.

(* ===================================================================== *)
(** ** [src/lib/models/model-registry.ts] *)
(* ===================================================================== *)

Module ModelRegistry.

(** [Record<string, BaseModelConfig>], in insertion order *)
Definition Registry := list (string * BaseModelConfig).

Definition all_types (c s q cr m u : Q) : list (PromptType * Q) :=
  [(CODE, c); (SUMMARIZE, s); (QA, q); (CREATIVE, cr);
   (MATH_REASONING, m); (UNKNOWN, u)].

(** the initial value of the module constant [MODEL_REGISTRY] *)
Definition MODEL_REGISTRY : Registry :=
  [ ("claude-3-7-sonnet-20250219",
     {| provider := ANTHROPIC;
        modelName := "claude-3-7-sonnet-20250219";
        contextWindowTokens := 200000;
        priceInputPerMillion := 3.0;
        priceOutputPerMillion := 15.0;
        latencyP50Seconds := 1.34;
        supportsJson := true;
        supportsFunctionCalling := true;
        supportsVision := true;
        qualityPriorByType := all_types 0.98 0.95 0.96 0.98 0.95 0.92;
        rpmLimit := Some 50%Z;
        concurrentLimit := Some 3%Z;
        notes := Some "Highest quality for creative writing and code generation, slower but excellent results";
        isAvailable := Some true |});
    ("gpt-5",
     {| provider := OPENAI;
        modelName := "gpt-5";
        contextWindowTokens := 400000;
        priceInputPerMillion := 1.25;
        priceOutputPerMillion := 10.0;
        latencyP50Seconds := 7.52;
        supportsJson := true;
        supportsFunctionCalling := true;
        supportsVision := true;
        qualityPriorByType := all_types 0.99 0.96 0.99 0.97 0.99 0.94;
        rpmLimit := Some 30%Z;
        concurrentLimit := Some 2%Z;
        notes := Some "Highest quality for Q&A, reasoning and math, very slow but most capable";
        isAvailable := Some true |});
    ("gemini-1.5-flash",
     {| provider := GOOGLE;
        modelName := "gemini-1.5-flash";
        contextWindowTokens := 1050000;
        priceInputPerMillion := 0.30;
        priceOutputPerMillion := 2.50;
        latencyP50Seconds := 0.45;
        supportsJson := true;
        supportsFunctionCalling := true;
        supportsVision := true;
        qualityPriorByType := all_types 0.85 0.88 0.86 0.84 0.82 0.85;
        rpmLimit := Some 80%Z;
        concurrentLimit := Some 10%Z;
        notes := Some "Excellent cost-performance ratio, huge context window, fast responses";
        isAvailable := Some true |});
    ("gpt-4o-mini",
     {| provider := OPENAI;
        modelName := "gpt-4o-mini";
        contextWindowTokens := 128000;
        priceInputPerMillion := 0.15;
        priceOutputPerMillion := 0.60;
        latencyP50Seconds := 0.46;
        supportsJson := true;
        supportsFunctionCalling := true;
        supportsVision := false;
        qualityPriorByType := all_types 0.82 0.80 0.81 0.79 0.75 0.85;
        rpmLimit := Some 200%Z;
        concurrentLimit := Some 25%Z;
        notes := Some "Cost-effective model, great for classification and simple tasks, good speed";
        isAvailable := Some true |});
    ("gpt-oss-20b",
     {| provider := HUGGINGFACE;
        modelName := "openai/gpt-oss-20b:fireworks-ai";
        contextWindowTokens := 128000;
        priceInputPerMillion := 0.0;
        priceOutputPerMillion := 0.0;
        latencyP50Seconds := 0.8;
        supportsJson := true;
        supportsFunctionCalling := true;
        supportsVision := false;
        qualityPriorByType := all_types 0.78 0.82 0.80 0.75 0.70 0.85;
        rpmLimit := Some 1000%Z;
        concurrentLimit := Some 50%Z;
        notes := Some "Free Hugging Face model via router, excellent for cost-effective tasks";
        isAvailable := Some true |}) ].

(** [MODEL_REGISTRY[name]] at the own properties of the registry *)
Fixpoint lookup (reg : Registry) (name : string) : option BaseModelConfig :=
  match reg with
  | [] => None
  | (k, c) :: r => if String.eqb k name then Some c else lookup r name
  end.

(** [MODEL_REGISTRY[name]] is no entry but a value inherited from
    [Object.prototype]: the name is no key and one of the inherited names *)
Definition inherits (reg : Registry) (name : string) : bool :=
  match lookup reg name with
  | Some _ => false
  | None => JS.inherited name
  end.

(** [Object.keys(MODEL_REGISTRY)] *)
Definition keys (reg : Registry) : list string := map fst reg.

(** [Object.values(MODEL_REGISTRY)]: one value per key *)
Definition values (reg : Registry) : list BaseModelConfig := map snd reg.

(** [model.qualityPriorByType[t]] *)
Fixpoint prior (ps : list (PromptType * Q)) (t : PromptType) : option Q :=
  match ps with
  | [] => None
  | (u, q) :: r => if PromptType_eqb u t then Some q else prior r t
  end.

Definition computeDerivedProperties (model : BaseModelConfig) : ModelConfig :=
  {| base := model;
     contextWindow := contextWindowTokens model;
     inputCostPer1kTokens := priceInputPerMillion model / 1000;
     outputCostPer1kTokens := priceOutputPerMillion model / 1000;
     latencyMs := latencyP50Seconds model * 1000;
     capabilities := map fst (qualityPriorByType model);
     qualityPriors :=
       fun t => JS.or_opt (prior (qualityPriorByType model) t) 0.5;
     throughputTps :=
       inject_Z (JS.Math_round (1000 / latencyP50Seconds model));
     mc_isAvailable :=
       match isAvailable model with Some b => b | None => true end |}.

(** [getModelByName], for a name that is not inherited from
    [Object.prototype]; the callers pass keys and provider model names *)
Definition getModelByName (reg : Registry) (name : string)
  : option ModelConfig :=
  option_map computeDerivedProperties (lookup reg name).

Definition set_isAvailable (c : BaseModelConfig) (b : bool)
  : BaseModelConfig :=
  {| provider := provider c;
     modelName := modelName c;
     contextWindowTokens := contextWindowTokens c;
     priceInputPerMillion := priceInputPerMillion c;
     priceOutputPerMillion := priceOutputPerMillion c;
     latencyP50Seconds := latencyP50Seconds c;
     supportsJson := supportsJson c;
     supportsFunctionCalling := supportsFunctionCalling c;
     supportsVision := supportsVision c;
     qualityPriorByType := qualityPriorByType c;
     rpmLimit := rpmLimit c;
     concurrentLimit := concurrentLimit c;
     notes := notes c;
     isAvailable := Some b |}.

(** [MODEL_REGISTRY[name].isAvailable = b] for a present key *)
Fixpoint assign (reg : Registry) (name : string) (b : bool) : Registry :=
  match reg with
  | [] => []
  | (k, c) :: r =>
      if String.eqb k name then (k, set_isAvailable c b) :: r
      else (k, c) :: assign r name b
  end.

(** The registry together with the place where availability is persisted
    ([localStorage] in the browser, [global.modelAvailabilityCache] on the
    server): a write-only log of [(name, flag)] updates. *)
Record Store := {
  entries : Registry;
  availabilityCache : list (string * bool)
}.

Definition initial_store : Store :=
  {| entries := MODEL_REGISTRY; availabilityCache := [] |}.

(** The test [if (MODEL_REGISTRY[modelName])] also succeeds on an inherited
    name: the flag is then written on the inherited value, which is no
    entry, and the update is persisted like any other.  (For [__proto__]
    that value is [Object.prototype]; the entries of [MODEL_REGISTRY] all
    carry a flag of their own, which hides an inherited one.) *)
Definition updateModelAvailability (name : string) (b : bool) (st : Store)
  : Store :=
  match lookup (entries st) name with
  | Some _ =>
      {| entries := assign (entries st) name b;
         availabilityCache := availabilityCache st ++ [(name, b)] |}
  | None =>
      if JS.inherited name
      then {| entries := entries st;
              availabilityCache := availabilityCache st ++ [(name, b)] |}
      else st
  end.

Definition resetAllModelAvailability (st : Store) : Store :=
  {| entries :=
       fold_left (fun reg name => assign reg name true)
                 (keys (entries st)) (entries st);
     availabilityCache := availabilityCache st |}.

End ModelRegistry.
Import ModelRegistry.

(* ===================================================================== *)
(** ** [src/lib/models/client-factory.ts] *)
(* ===================================================================== *)

(** A thrown value: an [Error] object with its message, a string, or
    anything else. *)
Inductive Thrown :=
| ErrorObj (message : string)
| ThrownString (s : string)
| ThrownOther.

Module ClientFactory.

(** A backend client, identified by the two fields the router reads. *)
Record Client := { cl_provider : Provider; cl_modelName : string }.

(** [Map<string, BaseModelClient>] *)
Definition Cache := list (string * Client).

Fixpoint cache_get (c : Cache) (name : string) : option Client :=
  match c with
  | [] => None
  | (k, v) :: r => if String.eqb k name then Some v else cache_get r name
  end.

Fixpoint cache_set (c : Cache) (name : string) (v : Client) : Cache :=
  match c with
  | [] => [(name, v)]
  | (k, w) :: r =>
      if String.eqb k name then (k, v) :: r else (k, w) :: cache_set r name v
  end.

Definition createClient (cfg : BaseModelConfig) : Thrown + Client :=
  if JS.includes (modelName cfg) ":" && JS.includes (modelName cfg) "fireworks-ai"
  then inr {| cl_provider := HUGGINGFACE; cl_modelName := modelName cfg |}
  else match provider cfg with
       | OPENAI => inr {| cl_provider := OPENAI; cl_modelName := modelName cfg |}
       | ANTHROPIC =>
           inr {| cl_provider := ANTHROPIC; cl_modelName := modelName cfg |}
       | GOOGLE => inr {| cl_provider := GOOGLE; cl_modelName := modelName cfg |}
       | HUGGINGFACE => inl (ErrorObj "Unknown provider: huggingface")
       end.

(** resolution by registry key, then by provider model name *)
Definition resolve (reg : Registry) (name : string)
  : option (string * BaseModelConfig) :=
  match lookup reg name with
  | Some cfg => Some (name, cfg)
  | None => JS.find (fun kc => String.eqb (modelName (snd kc)) name) reg
  end.

(** the [TypeError] of [modelConfig.modelName.includes(':')] for a
    [modelConfig] without [modelName] *)
Definition includes_of_undefined : Thrown :=
  ErrorObj "Cannot read properties of undefined (reading 'includes')".

(** For an inherited name [MODEL_REGISTRY[resolvedKey]] is truthy, so the
    search by provider model name is skipped and [createClient] receives a
    value without [modelName]. *)
Definition getClient (reg : Registry) (name : string) (c : Cache)
  : (Thrown + Client) * Cache :=
  match cache_get c name with
  | Some cl => (inr cl, c)
  | None =>
      if inherits reg name then (inl includes_of_undefined, c)
      else
        match resolve reg name with
        | None => (inl (ErrorObj ("Unknown model: " ++ name)), c)
        | Some (EmptyString, _) =>
            (inl (ErrorObj ("Unknown model: " ++ name)), c)
        | Some (resolvedKey, cfg) =>
            match createClient cfg with
            | inl e => (inl e, c)
            | inr cl =>
                (inr cl,
                 cache_set (cache_set c resolvedKey cl) (modelName cfg) cl)
            end
        end
  end.

End ClientFactory.
Import ClientFactory.

(* ===================================================================== *)
(** ** The world outside the router, the mutable state, the monad *)
(* ===================================================================== *)

(** [GenerationOptions], at the fields the router and the classifier set *)
Record GenerationOptions := {
  maxTokens : option Q;
  temperature : option Q;
  timeoutMs : option Q;
  systemPrompt : option string
}.

(** [src/config/env.ts]: the two settings the core reads *)
Record ServerEnv := {
  CLASSIFICATION_CONFIDENCE_THRESHOLD : Q;
  REQUEST_TIMEOUT_MS : Q
}.

(** What the router cannot decide: where it runs ([typeof window]), what the
    environment parses to, how the [n]-th backend invocation answers, the
    clock and the random part of request ids.  [processEnv] is the outcome
    of [envSchema.parse(process.env)]: the settings, or the error thrown
    when a required variable is missing or a value is out of range.  The
    module [config/env] runs the same parse while it loads, so its dynamic
    import fails with that error too. *)
Class World : Type := {
  isServer : bool;
  processEnv : Thrown + ServerEnv;
  generateResponse :
    nat -> Client -> string -> GenerationOptions -> Thrown + ModelResponse;
  Date_now : nat -> Z;
  Math_random_id : nat -> string
}.

Record BackendCall := {
  call_client : Client;
  call_prompt : string;
  call_options : GenerationOptions
}.

(** [RoutingMetrics], at the fields [routeRequest] updates *)
Record RoutingMetrics := {
  totalRequests : nat;
  promptTypeDistribution : PromptType -> nat
}.

Record State := {
  store : Store;
  clients : Cache;
  calls : list BackendCall;
  requestLogs : list RequestLog;
  metrics : RoutingMetrics;
  clock : nat
}.

Definition initializeMetrics : RoutingMetrics :=
  {| totalRequests := 0; promptTypeDistribution := fun _ => 0%nat |}.

Definition initial_state : State :=
  {| store := initial_store; clients := []; calls := []; requestLogs := [];
     metrics := initializeMetrics; clock := 0 |}.

Definition with_store (s : State) (x : Store) : State :=
  {| store := x; clients := clients s; calls := calls s;
     requestLogs := requestLogs s; metrics := metrics s; clock := clock s |}.

Definition with_clients (s : State) (x : Cache) : State :=
  {| store := store s; clients := x; calls := calls s;
     requestLogs := requestLogs s; metrics := metrics s; clock := clock s |}.

Definition with_calls (s : State) (x : list BackendCall) : State :=
  {| store := store s; clients := clients s; calls := x;
     requestLogs := requestLogs s; metrics := metrics s; clock := clock s |}.

Definition with_requestLogs (s : State) (x : list RequestLog) : State :=
  {| store := store s; clients := clients s; calls := calls s;
     requestLogs := x; metrics := metrics s; clock := clock s |}.

Definition with_metrics (s : State) (x : RoutingMetrics) : State :=
  {| store := store s; clients := clients s; calls := calls s;
     requestLogs := requestLogs s; metrics := x; clock := clock s |}.

Definition with_clock (s : State) (x : nat) : State :=
  {| store := store s; clients := clients s; calls := calls s;
     requestLogs := requestLogs s; metrics := metrics s; clock := x |}.

(** Computations that read and write the state and may throw; what was
    written before a throw stays written. *)
Definition M (A : Type) : Type := State -> (Thrown + A) * State.

Definition ret {A} (x : A) : M A := fun s => (inr x, s).

Definition bind {A B} (m : M A) (k : A -> M B) : M B :=
  fun s => match m s with
           | (inl e, s') => (inl e, s')
           | (inr x, s') => k x s'
           end.

Definition throw {A} (e : Thrown) : M A := fun s => (inl e, s).

Definition try_catch {A} (m : M A) (h : Thrown -> M A) : M A :=
  fun s => match m s with
           | (inl e, s') => h e s'
           | (inr x, s') => (inr x, s')
           end.

Definition gets {A} (f : State -> A) : M A := fun s => (inr (f s), s).

Definition modify (f : State -> State) : M unit := fun s => (inr tt, f s).

Definition lift {A} (r : Thrown + A) : M A := fun s => (r, s).

Declare Scope router_scope.
Delimit Scope router_scope with router.
Notation "x <- m ;; k" := (bind m (fun x => k))
  (at level 61, m at next level, right associativity) : router_scope.
Notation "m ;;; k" := (bind m (fun _ => k))
  (at level 61, right associativity) : router_scope.
Local Open Scope router_scope.

(** [error instanceof Error ? error.message : d] *)
Definition message_or (e : Thrown) (d : string) : string :=
  match e with
  | ErrorObj m => m
  | _ => d
  end.

Section Effects.
Context {W : World}.

(** [Date.now()] / [new Date()] *)
Definition now : M Z :=
  fun s => (inr (Date_now (clock s)), with_clock s (S (clock s))).

(** [getServerEnv()] *)
Definition getServerEnv : Thrown + ServerEnv :=
  if isServer then processEnv
  else inl (ErrorObj "getServerEnv() can only be called on the server side").

(** [modelClientFactory.getClient(name)] *)
Definition factory_getClient (name : string) : M Client :=
  fun s =>
    let '(r, c) := getClient (entries (store s)) name (clients s) in
    (r, with_clients s c).

(** [client.generateResponse(prompt, options)]; the invocation is recorded
    in [calls]. *)
Definition client_generateResponse (cl : Client) (prompt : string)
           (options : GenerationOptions) : M ModelResponse :=
  fun s =>
    (generateResponse (length (calls s)) cl prompt options,
     with_calls s (calls s ++ [{| call_client := cl; call_prompt := prompt;
                                  call_options := options |}])).
End Effects.

(* ===================================================================== *)
(** ** [src/lib/classification/] *)
(* ===================================================================== *)

Module Classification.

Inductive Method := heuristic | model | hybrid.

Definition Method_str (m : Method) : string :=
  match m with
  | heuristic => "heuristic" | model => "model" | hybrid => "hybrid"
  end.

(* ------------------------------------------------------------------- *)
(** *** [heuristic-classifier.ts] *)

Record ScoreEntry := { se_score : Q; matchedKeywords : list string }.

(** [Record<PromptType, { score, matchedKeywords }>], in key order *)
Definition Scores := list (PromptType * ScoreEntry).

Record BestMatch := {
  bm_promptType : PromptType;
  bm_score : Q;
  bm_matchedKeywords : list string
}.

Record HeuristicClassificationResult := {
  h_promptType : PromptType;
  h_confidence : Q;
  h_matchedKeywords : list string;
  h_keywordCount : nat;
  h_totalKeywords : nat;
  h_reasoning : string
}.

Definition Qnat (n : nat) : Q := inject_Z (Z.of_nat n).

Definition calculateKeywordScore (matched allKeywords : list string) : Q :=
  if (length allKeywords =? 0)%nat then 0
  else
    let matchRatio := Qnat (length matched) / Qnat (length allKeywords) in
    let exactMatches :=
      length (filter (fun keyword => existsb (String.eqb keyword) allKeywords)
                     matched) in
    let exactMatchBonus := Qnat exactMatches * 0.1 in
    Qmin 1.0 (matchRatio + exactMatchBonus).

Definition zero_entry : ScoreEntry :=
  {| se_score := 0; matchedKeywords := [] |}.

Definition initial_scores : Scores :=
  map (fun t => (t, zero_entry)) all_PromptType.

(** [scores[t] = e] *)
Definition set_score (sc : Scores) (t : PromptType) (e : ScoreEntry)
  : Scores :=
  map (fun ue => if PromptType_eqb (fst ue) t then (fst ue, e) else ue) sc.

(** the keywords of [t] found in the lower-cased prompt *)
Definition matched_in (promptLower : string) (t : PromptType) : list string :=
  filter (fun keyword => JS.includes promptLower (JS.toLowerCase keyword))
         (keywords (PROMPT_TYPE_MAPPING t)).

(** the [forEach] over [Object.entries(this.promptTypeMapping)] *)
Definition compute_scores (promptLower : string) : Scores :=
  fold_left
    (fun sc t =>
       if PromptType_eqb t UNKNOWN then sc
       else
         let matched := matched_in promptLower t in
         set_score sc t
           {| se_score :=
                calculateKeywordScore matched (keywords (PROMPT_TYPE_MAPPING t));
              matchedKeywords := matched |})
    all_PromptType initial_scores.

Definition findBestMatch (scores : Scores) : BestMatch :=
  fold_left
    (fun bestMatch td =>
       if PromptType_eqb (fst td) UNKNOWN then bestMatch
       else if JS.Qgtb (se_score (snd td)) (bm_score bestMatch)
            then {| bm_promptType := fst td;
                    bm_score := se_score (snd td);
                    bm_matchedKeywords := matchedKeywords (snd td) |}
            else bestMatch)
    scores
    {| bm_promptType := UNKNOWN; bm_score := 0; bm_matchedKeywords := [] |}.

(** the scores of the competitors of [t] *)
Definition otherScores (t : PromptType) (scores : Scores) : list Q :=
  map (fun td => se_score (snd td))
      (filter (fun td => negb (PromptType_eqb (fst td) t)
                         && negb (PromptType_eqb (fst td) UNKNOWN))
              scores).

Definition calculateConfidence (bestMatch : BestMatch) (scores : Scores) : Q :=
  let bestScore := bm_score bestMatch in
  if Qeq_bool bestScore 0 then 0.1
  else
    let maxOtherScore :=
      JS.max_with 0 (otherScores (bm_promptType bestMatch) scores) in
    let scoreDifference := bestScore - maxOtherScore in
    let confidence := bestScore in
    let confidence :=
      if JS.Qgtb scoreDifference 0.3 then confidence + 0.2 else confidence in
    let confidence :=
      if JS.Qgtb scoreDifference 0.5 then confidence + 0.1 else confidence in
    Qmin 0.9 confidence.

Definition shouldUseHeuristic (confidence : Q) : bool :=
  JS.Qgeb confidence 0.7.

Section WithRuntime.
Context {R : JSRuntime}.

Definition generateReasoning (bestMatch : BestMatch) (scores : Scores)
  : string :=
  if Qeq_bool (bm_score bestMatch) 0
  then "No keywords matched any prompt type"
  else
    let promptTypeName :=
      if PromptType_eqb (bm_promptType bestMatch) UNKNOWN then "Unknown"
      else PromptType_str (bm_promptType bestMatch) in
    let keywordList := JS.join ", " (bm_matchedKeywords bestMatch) in
    let reasoning :=
      "Classified as " ++ promptTypeName ++ " with score "
        ++ toFixed (bm_score bestMatch) 2 ++ ". "
        ++ "Matched keywords: " ++ keywordList in
    let competitors :=
      JS.sort_desc (fun td : PromptType * ScoreEntry => se_score (snd td))
        (filter (fun td => JS.Qgtb (se_score (snd td)) 0)
           (filter (fun td =>
                      negb (PromptType_eqb (fst td) (bm_promptType bestMatch))
                      && negb (PromptType_eqb (fst td) UNKNOWN))
                   scores)) in
    match competitors with
    | topCompetitor :: _ =>
        reasoning ++ " Top competitor: "
          ++ PromptType_str (fst topCompetitor) ++ " ("
          ++ toFixed (se_score (snd topCompetitor)) 2 ++ ")"
    | [] => reasoning
    end.

(** [HeuristicClassifier.classify]; its two clock readings only feed the
    logger. *)
Definition heuristic_classify (prompt : string)
  : HeuristicClassificationResult :=
  let promptLower := JS.toLowerCase prompt in
  let scores := compute_scores promptLower in
  let bestMatch := findBestMatch scores in
  let confidence := calculateConfidence bestMatch scores in
  {| h_promptType := bm_promptType bestMatch;
     h_confidence := confidence;
     h_matchedKeywords := bm_matchedKeywords bestMatch;
     h_keywordCount := length (bm_matchedKeywords bestMatch);
     h_totalKeywords :=
       length (keywords (PROMPT_TYPE_MAPPING (bm_promptType bestMatch)));
     h_reasoning := generateReasoning bestMatch scores |}.

End WithRuntime.

(* ------------------------------------------------------------------- *)
(** *** [model-classifier.ts] *)

Record ModelClassificationResult := {
  m_promptType : PromptType;
  m_confidence : Q;
  m_modelUsed : string;
  m_responseTime : Z;
  m_reasoning : string;
  m_rawResponse : string
}.

(** the constructor's default argument *)
Definition classificationModel : string := "gpt-4o-mini".

Definition createClassificationPrompt (prompt : string) : string :=
  "Please classify the following prompt into one of these categories:"
    ++ JS.nl ++ JS.nl
    ++ "1. CODE - Programming, algorithms, technical implementation" ++ JS.nl
    ++ "2. SUMMARIZE - Summarization, brief overview, key points" ++ JS.nl
    ++ "3. QA - Questions, explanations, how-to, what-is" ++ JS.nl
    ++ "4. CREATIVE - Creative writing, stories, poems, imaginative content"
    ++ JS.nl ++ JS.nl
    ++ "Prompt to classify:" ++ JS.nl
    ++ JS.dq ++ prompt ++ JS.dq ++ JS.nl ++ JS.nl
    ++ "Respond in this exact JSON format:" ++ JS.nl
    ++ "{" ++ JS.nl
    ++ "  " ++ JS.dq ++ "category" ++ JS.dq ++ ": "
    ++ JS.dq ++ "CODE|SUMMARIZE|QA|CREATIVE" ++ JS.dq ++ "," ++ JS.nl
    ++ "  " ++ JS.dq ++ "confidence" ++ JS.dq ++ ": 0.85," ++ JS.nl
    ++ "  " ++ JS.dq ++ "reasoning" ++ JS.dq ++ ": "
    ++ JS.dq ++ "Brief explanation of why this category was chosen" ++ JS.dq
    ++ JS.nl
    ++ "}" ++ JS.nl ++ JS.nl
    ++ "Only respond with the JSON, no additional text.".

Definition mapCategoryToPromptType (category : string) : PromptType :=
  let categoryUpper := JS.toUpperCase category in
  if String.eqb categoryUpper "CODE" then CODE
  else if String.eqb categoryUpper "SUMMARIZE" then SUMMARIZE
  else if String.eqb categoryUpper "QA" then QA
  else if String.eqb categoryUpper "CREATIVE" then CREATIVE
  else UNKNOWN.

Definition is_empty (s : string) : bool :=
  match s with EmptyString => true | _ => false end.

Section WithRuntime.
Context {R : JSRuntime}.

Definition parseClassificationResponse (response : string)
  : PromptType * Q * string :=
  match JSON_fields response with
  | inl msg => (UNKNOWN, 0.1, "Failed to parse response: " ++ msg)
  | inr (category, confidence, reasoning) =>
      if is_empty category || Qeq_bool confidence 0 || is_empty reasoning
      then (UNKNOWN, 0.1,
            "Failed to parse response: Invalid response format")
      else (mapCategoryToPromptType category,
            Qmax 0 (Qmin 1 confidence),
            reasoning)
  end.

Context {W : World}.

(** [ModelClassifier.classify] *)
Definition model_classify (prompt : string) : M ModelClassificationResult :=
  startTime <- now ;;
  try_catch
    (client <- factory_getClient classificationModel ;;
     let classificationPrompt := createClassificationPrompt prompt in
     response <- client_generateResponse client classificationPrompt
       {| maxTokens := Some 200;
          temperature := Some 0.1;
          timeoutMs := None;
          systemPrompt := Some "You are a prompt classification expert. Analyze the given prompt and classify it into one of the specified categories." |} ;;
     endTime <- now ;;
     let responseTime := (endTime - startTime)%Z in
     let parsedResult := parseClassificationResponse (content response) in
     ret {| m_promptType := fst (fst parsedResult);
            m_confidence := snd (fst parsedResult);
            m_modelUsed := classificationModel;
            m_responseTime := responseTime;
            m_reasoning := snd parsedResult;
            m_rawResponse := content response |})
    (fun error =>
       throw (ErrorObj ("Classification failed: "
                          ++ message_or error "Unknown error"))).

End WithRuntime.

(* ------------------------------------------------------------------- *)
(** *** [hybrid-classifier.ts] *)

Record HybridClassificationResult := {
  promptType : PromptType;
  confidence : Q;
  method : Method;
  heuristicResult : HeuristicClassificationResult;
  modelResult : option ModelClassificationResult;
  finalMethod : string;
  hy_reasoning : string;
  totalTime : Z
}.

Record Combined := {
  c_promptType : PromptType;
  c_confidence : Q;
  c_method : Method;
  c_reasoning : string
}.

Section Hybrid.
Context {R : JSRuntime}.

Definition combineResults (h : HeuristicClassificationResult)
           (m : ModelClassificationResult) : Combined :=
  if PromptType_eqb (h_promptType h) (m_promptType m) then
    let maxConfidence := Qmax (h_confidence h) (m_confidence m) in
    let method :=
      if Qeq_bool maxConfidence (h_confidence h) then heuristic else model in
    {| c_promptType := h_promptType h;
       c_confidence := maxConfidence;
       c_method := method;
       c_reasoning :=
         "Both methods agree on " ++ PromptType_str (h_promptType h)
           ++ ". Using " ++ Method_str method ++ " result with confidence "
           ++ toFixed maxConfidence 2 ++ "." |}
  else
    let confidenceDifference := m_confidence m - h_confidence h in
    if JS.Qgtb confidenceDifference 0.2 then
      {| c_promptType := m_promptType m;
         c_confidence := m_confidence m;
         c_method := model;
         c_reasoning :=
           "Methods disagree. Model is " ++ toFixed confidenceDifference 2
             ++ " more confident, using model result: "
             ++ PromptType_str (m_promptType m) ++ "." |}
    else if JS.Qgtb confidenceDifference 0 then
      {| c_promptType := m_promptType m;
         c_confidence := m_confidence m;
         c_method := model;
         c_reasoning :=
           "Methods disagree but model is slightly more confident. Using model result: "
             ++ PromptType_str (m_promptType m) ++ "." |}
    else
      {| c_promptType := h_promptType h;
         c_confidence := h_confidence h;
         c_method := heuristic;
         c_reasoning :=
           "Methods disagree. Heuristic is more confident, using heuristic result: "
             ++ PromptType_str (h_promptType h) ++ "." |}.

Context {W : World}.

(** the constructor's value of [this.confidenceThreshold] *)
Definition confidenceThreshold_default : Q := 0.6.

Definition getConfidenceThreshold : M Q :=
  if isServer
  then env <- lift getServerEnv ;;
       ret (CLASSIFICATION_CONFIDENCE_THRESHOLD env)
  else ret confidenceThreshold_default.

(** [HybridClassifier.classify] *)
Definition classify (prompt : string) : M HybridClassificationResult :=
  startTime <- now ;;
  try_catch
    (confidenceThreshold <- getConfidenceThreshold ;;
     let h := heuristic_classify prompt in
     if shouldUseHeuristic (h_confidence h) then
       endTime <- now ;;
       ret {| promptType := h_promptType h;
              confidence := h_confidence h;
              method := heuristic;
              heuristicResult := h;
              modelResult := None;
              finalMethod := "heuristic_only";
              hy_reasoning :=
                "Heuristic classification confident enough ("
                  ++ toFixed (h_confidence h) 2 ++ " >= "
                  ++ toStr confidenceThreshold ++ ")";
              totalTime := (endTime - startTime)%Z |}
     else
       m <- model_classify prompt ;;
       let finalResult := combineResults h m in
       endTime <- now ;;
       ret {| promptType := c_promptType finalResult;
              confidence := c_confidence finalResult;
              method := c_method finalResult;
              heuristicResult := h;
              modelResult := Some m;
              finalMethod := Method_str (c_method finalResult);
              hy_reasoning := c_reasoning finalResult;
              totalTime := (endTime - startTime)%Z |})
    (fun error =>
       let h := heuristic_classify prompt in
       endTime <- now ;;
       ret {| promptType := h_promptType h;
              confidence := Qmax 0.1 (h_confidence h * 0.5);
              method := heuristic;
              heuristicResult := h;
              modelResult := None;
              finalMethod := "heuristic_fallback";
              hy_reasoning :=
                "Classification failed, using heuristic fallback: "
                  ++ message_or error "Unknown error";
              totalTime := (endTime - startTime)%Z |}).

End Hybrid.

End Classification.
Import Classification.

(* ===================================================================== *)
(** ** [src/lib/routing/routing-engine.ts] *)
(* ===================================================================== *)

Module Engine.

(** [ModelConfig & { score: number }] *)
Record Scored := { sm_config : ModelConfig; score : Q }.

Definition name_of (m : ModelConfig) : string := modelName (base m).

(** [capabilities.includes(promptType)] *)
Definition supports (m : ModelConfig) (t : PromptType) : bool :=
  existsb (PromptType_eqb t) (capabilities m).

(** [getAvailableModels]: the loop over [Object.entries(MODEL_REGISTRY)] *)
Definition getAvailableModels (reg : Registry) (promptType : PromptType)
           (estimatedTokens : Z) : list ModelConfig :=
  fold_left
    (fun models key =>
       match getModelByName reg key with
       | None => models
       | Some config =>
           if supports config promptType then
             if (estimatedTokens <=? contextWindow config)%Z then
               if mc_isAvailable config then (models ++ [config])%list
               else models
             else models
           else models
       end)
    (keys reg) [].

(** the premium models of the quality regime *)
Definition premium (m : ModelConfig) : bool :=
  JS.includes (name_of m) "claude" || JS.includes (name_of m) "gpt-5".

Definition updateMetrics (promptType : PromptType) (m : RoutingMetrics)
  : RoutingMetrics :=
  {| totalRequests := S (totalRequests m);
     promptTypeDistribution :=
       fun t => if PromptType_eqb t promptType
                then S (promptTypeDistribution m t)
                else promptTypeDistribution m t |}.

Definition estimateCost (m : ModelConfig) (estimatedTokens : Z) : Q :=
  let inputCost := (inject_Z estimatedTokens / 1000) * inputCostPer1kTokens m in
  let outputCost :=
    (inject_Z estimatedTokens * 0.3 / 1000) * outputCostPer1kTokens m in
  inputCost + outputCost.

Definition calculateConfidence (selectedModel : Scored)
           (scoredModels : list Scored) : Q :=
  if (length scoredModels =? 1)%nat then 1.0
  else
    let selectedScore := JS.or_num (score selectedModel) 0 in
    let secondBestScore :=
      JS.or_opt (option_map score (nth_error scoredModels 1)) 0 in
    if Qeq_bool secondBestScore 0 then 1.0
    else
      let scoreDifference := selectedScore - secondBestScore in
      let maxScore := Qmax selectedScore secondBestScore in
      Qmin 1.0 (0.5 + (scoreDifference / maxScore) * 0.5).

Section WithRuntime.
Context {R : JSRuntime}.

(** the body of the [map] callback of [scoreModels] *)
Definition score_of (models : list ModelConfig) (weights : Weights)
           (promptType : PromptType) (estimatedTokens : Z)
           (m : ModelConfig) : Q :=
  let score := 0 in
  (* quality *)
  let qualityScore := JS.or_num (qualityPriors m promptType) 0.5 in
  let effectiveQualityScore :=
    if JS.Qgtb (quality weights) 0.5 then
      let e := Math_pow qualityScore 0.3 in
      if JS.Qgtb qualityScore 0.9 then e + 0.1 else e
    else qualityScore in
  let qualityContribution := effectiveQualityScore * quality weights in
  let score := score + qualityContribution in
  (* cost *)
  let costs := map inputCostPer1kTokens models in
  let maxCost := JS.Math_max costs in
  let minCost := JS.Math_min costs in
  let costScore :=
    if JS.Qgtb maxCost 0 then
      if JS.Qgtb (cost weights) 0.4 then
        1 - (inputCostPer1kTokens m / maxCost)
      else if Qeq_bool (inputCostPer1kTokens m) 0 then 0.6
      else
        let normalizedCost :=
          (inputCostPer1kTokens m - minCost) / (maxCost - minCost) in
        let c := 1 - Math_log (1 + normalizedCost * 2) / Math_log 3 in
        if JS.Qgtb (quality weights) 0.6 then
          if premium m then Qmax c 0.6 else Qmax c 0.4
        else c
    else 0.5 in
  let costContribution := costScore * cost weights in
  let score := score + costContribution in
  (* latency *)
  let maxLatency := JS.Math_max (map latencyMs models) in
  let latencyScore := 1 - (latencyMs m / maxLatency) in
  let latencyScore :=
    if JS.Qgtb (quality weights) 0.6 then
      if premium m then Math_sqrt latencyScore else latencyScore
    else latencyScore in
  let latencyContribution := latencyScore * latency weights in
  let score := score + latencyContribution in
  (* context window *)
  let score :=
    if (1000 <? estimatedTokens)%Z then
      score + Qmin 0.1 (inject_Z (contextWindow m - estimatedTokens) / 10000)
    else score in
  (* throughput *)
  let maxThroughput := JS.Math_max (map throughputTps models) in
  let throughputScore := (throughputTps m / maxThroughput) * 0.05 in
  score + throughputScore.

(** [scoreModels]; the routing rules it receives are not read. *)
Definition scoreModels (models : list ModelConfig)
           (priorityPreset : PriorityPreset) (promptType : PromptType)
           (estimatedTokens : Z) : list Scored :=
  let weights := getPriorityWeights priorityPreset in
  JS.sort_desc score
    (map (fun m =>
            {| sm_config := m;
               score := score_of models weights promptType estimatedTokens m |})
         models).

Definition generateReasoning (selectedModel : ModelConfig)
           (promptType : PromptType) (priorityPreset : PriorityPreset)
  : string :=
  let weights := getPriorityWeights priorityPreset in
  let primary :=
    if JS.Qgtb (quality weights) (cost weights)
       && JS.Qgtb (quality weights) (latency weights)
    then "Selected for highest quality ("
           ++ toFixed (qualityPriors selectedModel promptType * 100) 1 ++ "%)"
    else if JS.Qgtb (cost weights) (quality weights)
            && JS.Qgtb (cost weights) (latency weights)
    then "Selected for lowest cost ($"
           ++ toStr (inputCostPer1kTokens selectedModel) ++ "/1K tokens)"
    else if JS.Qgtb (latency weights) (quality weights)
            && JS.Qgtb (latency weights) (cost weights)
    then "Selected for fastest response ("
           ++ toStr (latencyMs selectedModel) ++ "ms)"
    else "Selected for balanced performance" in
  let context :=
    if (100000 <? contextWindow selectedModel)%Z
    then ["Large context window ("
            ++ toFixed (inject_Z (contextWindow selectedModel) / 1000) 0
            ++ "K tokens)"]
    else [] in
  JS.join ". "
    (primary
       :: List.app context
            ["Throughput: " ++ toStr (throughputTps selectedModel) ++ " TPS"]).

Definition generateAlternativeReasoning (alternativeModel selectedModel
             : ModelConfig) (promptType : PromptType) : string :=
  let altQuality := JS.or_num (qualityPriors alternativeModel promptType) 0 in
  let selectedQuality := JS.or_num (qualityPriors selectedModel promptType) 0 in
  let q :=
    if JS.Qgtb altQuality selectedQuality
    then "Higher quality (" ++ toFixed (altQuality * 100) 1 ++ "% vs "
           ++ toFixed (selectedQuality * 100) 1 ++ "%)"
    else if Qeq_bool altQuality selectedQuality
    then "Equal quality (" ++ toFixed (altQuality * 100) 1 ++ "%)"
    else "Quality: " ++ toFixed (altQuality * 100) 1 ++ "%" in
  let c :=
    if JS.Qltb (inputCostPer1kTokens alternativeModel)
               (inputCostPer1kTokens selectedModel)
    then "Lower cost ($" ++ toFixed (inputCostPer1kTokens alternativeModel) 4
           ++ "/1K tokens)"
    else if Qeq_bool (inputCostPer1kTokens alternativeModel) 0
    then "Free model"
    else "Cost: $" ++ toFixed (inputCostPer1kTokens alternativeModel) 4
           ++ "/1K tokens" in
  let l :=
    if JS.Qltb (latencyMs alternativeModel) (latencyMs selectedModel)
    then "Faster (" ++ toStr (latencyMs alternativeModel) ++ "ms)"
    else "Latency: " ++ toStr (latencyMs alternativeModel) ++ "ms" in
  let s :=
    if (contextWindow selectedModel <? contextWindow alternativeModel)%Z
    then ["Larger context ("
            ++ toLocaleString (inject_Z (contextWindow alternativeModel))
            ++ " tokens)"]
    else [] in
  JS.join " • " (q :: c :: l :: s).

(** the decision [routeRequest] assembles from a non-empty ranking *)
Definition decide (selectedModel : Scored) (scoredModels : list Scored)
           (promptType : PromptType) (priorityPreset : PriorityPreset)
           (estimatedTokens : Z) : RoutingDecision :=
  let fallback :=
    JS.find (fun m => negb (String.eqb (name_of (sm_config m))
                                       (name_of (sm_config selectedModel)))
                      && mc_isAvailable (sm_config m))
            scoredModels in
  let smartAlternatives :=
    map (fun m =>
           {| alt_modelName := name_of (sm_config m);
              alt_score := JS.or_num (score m) 0;
              alt_reason :=
                generateAlternativeReasoning (sm_config m)
                  (sm_config selectedModel) promptType;
              alt_provider := provider (base (sm_config m));
              alt_qualityScore :=
                JS.or_num (qualityPriors (sm_config m) promptType) 0;
              alt_costPer1kTokens := inputCostPer1kTokens (sm_config m);
              alt_latencyMs := latencyMs (sm_config m) |})
        (firstn 4 (filter (fun m => mc_isAvailable (sm_config m))
                          (tl scoredModels))) in
  {| selectedModel := name_of (sm_config selectedModel);
     rd_provider := provider (base (sm_config selectedModel));
     rd_promptType := promptType;
     fallbackModel := option_map (fun m => name_of (sm_config m)) fallback;
     reasoning :=
       generateReasoning (sm_config selectedModel) promptType priorityPreset;
     rd_confidence := calculateConfidence selectedModel scoredModels;
     estimatedCost := estimateCost (sm_config selectedModel) estimatedTokens;
     estimatedLatency := latencyMs (sm_config selectedModel);
     rd_score := JS.or_num (score selectedModel) 0;
     priorityWeights := getPriorityWeights priorityPreset;
     alternatives := smartAlternatives |}.

(** [RoutingEngine.routeRequest] *)
Definition routeRequest (request : RoutingRequest) : M RoutingDecision :=
  match rq_promptType request with
  | None => throw (ErrorObj "Prompt type is required for routing")
  | Some promptType =>
      modify (fun s => with_metrics s (updateMetrics promptType (metrics s))) ;;;
      let estimatedTokens := JS.ceil_div4 (String.length (rq_prompt request)) in
      reg <- gets (fun s => entries (store s)) ;;
      let availableModels :=
        getAvailableModels reg promptType estimatedTokens in
      match availableModels with
      | [] =>
          throw (ErrorObj ("No available models for prompt type: "
                             ++ PromptType_str promptType))
      | _ :: _ =>
          match scoreModels availableModels (rq_priorityPreset request)
                            promptType estimatedTokens with
          | selectedModel :: rest =>
              ret (decide selectedModel (selectedModel :: rest) promptType
                          (rq_priorityPreset request) estimatedTokens)
          | [] =>
              (* reading [scoredModels[0].modelName] of an empty ranking *)
              throw (ErrorObj "Cannot read properties of undefined")
          end
      end
  end.

End WithRuntime.

(** [RoutingEngine.markModelUnavailable] *)
Definition markModelUnavailable (name : string) : M unit :=
  modify (fun s => with_store s (updateModelAvailability name false (store s))).

(** [RoutingEngine.calculateCostSavings] *)
Definition mostExpensiveModel (reg : Registry) (promptType : PromptType)
  : option ModelConfig :=
  hd_error
    (JS.sort_desc (fun m => JS.or_num (inputCostPer1kTokens m) 0)
       (filter (fun m => supports m promptType)
          (flat_map (fun baseConfig =>
                       match getModelByName reg (modelName baseConfig) with
                       | Some m => [m]
                       | None => []
                       end)
                    (values reg)))).

Definition calculateCostSavings (reg : Registry) (actualCost : Q)
           (promptType : PromptType) : Q :=
  match mostExpensiveModel reg promptType with
  | None => 0
  | Some m =>
      let maxCost := (1000 / 1000) * inputCostPer1kTokens m in
      Qmax 0 (maxCost - actualCost)
  end.

End Engine.
Import Engine.

(* ===================================================================== *)
(** ** [src/lib/routing/router-service.ts] *)
(* ===================================================================== *)

Module Service.

Record RouterResponse := {
  response : string;
  modelUsed : string;
  rr_promptType : PromptType;
  classificationConfidence : Q;
  routingDecision : RoutingDecision;
  actualCost : Q;
  actualLatency : Z;
  costSavings : Q;
  timestamp : Z;
  wasTruncated : bool
}.

Definition maxLogs : nat := 1000.

(** the array after [push] and the conditional [slice(-maxLogs)] *)
Definition pushLog (logs : list RequestLog) (log : RequestLog)
  : list RequestLog :=
  let logs' := (logs ++ [log])%list in
  if (maxLogs <? length logs')%nat then JS.slice_last maxLogs logs' else logs'.

Definition logRequest (log : RequestLog) : M unit :=
  modify (fun s => with_requestLogs s (pushLog (requestLogs s) log)).

Definition resetMetrics : M unit :=
  modify (fun s => with_requestLogs (with_metrics s initializeMetrics) []).

Definition getTemperatureForPromptType (t : PromptType) : Q :=
  match t with
  | CODE => 0.1 | SUMMARIZE => 0.3 | QA => 0.2 | CREATIVE => 0.8
  | MATH_REASONING => 0.1 | UNKNOWN => 0.5
  end.

(** the table [limits] of [getMaxOutputTokens] *)
Definition limits (t : PromptType) : option Q :=
  match t with
  | QA => Some 2000 | CREATIVE => Some 2500 | MATH_REASONING => Some 3000
  | CODE => Some 2000 | SUMMARIZE => Some 1500 | UNKNOWN => Some 1500
  end.

Definition getMaxOutputTokens (t : PromptType) : Q :=
  let base := estimatedOutputTokens (PROMPT_TYPE_MAPPING t) in
  match limits t with
  | Some l => l
  | None => Qmax (base * 2) 1500
  end.

(** [calculateActualCost], for a name that is not inherited from
    [Object.prototype]; [routePrompt] passes the provider model name of its
    decision *)
Definition calculateActualCost (reg : Registry) (name : string)
           (inputChars outputChars : nat) : Q :=
  match lookup reg name with
  | None => 0
  | Some modelConfig =>
      let inputTokens := inject_Z (JS.ceil_div4 inputChars) in
      let outputTokens := inject_Z (JS.ceil_div4 outputChars) in
      let inputCost := (inputTokens / 1000000) * priceInputPerMillion modelConfig in
      let outputCost :=
        (outputTokens / 1000000) * priceOutputPerMillion modelConfig in
      inputCost + outputCost
  end.

Definition maxResponseLength : nat := 3000.

(** The truncation block; [routePrompt] and [handleRoutingError] each
    carry a copy of it. *)
Definition truncateResponse (text : string) : string * bool :=
  if (maxResponseLength <? String.length text)%nat then
    let truncationPoint := JS.lastIndexOf text "." maxResponseLength in
    let fallbackPoint := JS.lastIndexOf text JS.LF maxResponseLength in
    let cutPoint :=
      if (fallbackPoint <? truncationPoint)%Z then truncationPoint
      else fallbackPoint in
    if JS.Qgtb (inject_Z cutPoint) (inject_Z (Z.of_nat maxResponseLength) * 0.8)
    then (JS.substring0 text (cutPoint + 1) ++ "...", true)
    else (text, false)
  else (text, false).

(** a [try] whose handler and continuation both see the state left by [m] *)
Definition bind_or {A B} (m : M A) (h : Thrown -> M B) (k : A -> M B) : M B :=
  fun s => match m s with
           | (inl e, s') => h e s'
           | (inr x, s') => k x s'
           end.

Section WithWorld.
Context {R : JSRuntime} {W : World}.

Definition getRequestTimeout : M Q :=
  match getServerEnv with
  | inr env => ret (REQUEST_TIMEOUT_MS env)
  | inl _ => ret 30000
  end.

Definition generateRequestId : M string :=
  t <- now ;;
  n <- gets clock ;;
  ret ("req_" ++ toStr (inject_Z t) ++ "_" ++ Math_random_id n).

(** the options of the fallback invocation *)
Definition fallbackOptions (promptType : PromptType) : GenerationOptions :=
  {| maxTokens := Some (getMaxOutputTokens promptType);
     temperature := Some 0.7;
     timeoutMs := Some 30000;
     systemPrompt := None |}.

(** the message [handleRoutingError] reads off the thrown value *)
Definition errorMessage (error : Thrown) : string :=
  match error with
  | ErrorObj m => m
  | ThrownString s => s
  | ThrownOther => "Unknown error occurred"
  end.

(** the weights written into the decision of a fallback answer *)
Definition fallbackWeights : Weights :=
  {| quality := 0.3; cost := 0.5; latency := 0.2 |}.

Definition handleRoutingError (prompt : string)
           (priorityPreset : PriorityPreset) (error : Thrown)
           (startTime : Z) (userId sessionId : option string)
           (classifiedPromptType : option PromptType)
           (classifiedConfidence : option Q) : M RouterResponse :=
  let errorMessage := errorMessage error in
  let promptType :=
    match classifiedPromptType with Some t => t | None => UNKNOWN end in
  try_catch
    (fallbackClient <- factory_getClient "gpt-4o-mini" ;;
     fallbackResponse <- client_generateResponse fallbackClient prompt
       (fallbackOptions promptType) ;;
     endTime <- now ;;
     let actualLatency := (endTime - startTime)%Z in
     id <- generateRequestId ;;
     logTime <- now ;;
     logRequest
       {| log_id := id;
          log_prompt := prompt;
          log_promptType := promptType;
          log_selectedModel := "gpt-4o-mini";
          log_provider := cl_provider fallbackClient;
          log_costUsd := 0.00015;
          log_latencyMs := actualLatency;
          log_qualityScore := Some 0.5;
          log_classificationMethod := "fallback";
          log_classificationConfidence := JS.or_opt classifiedConfidence 0.5;
          log_priorityPreset := priorityPreset;
          log_timestamp := logTime;
          log_userId := userId;
          log_sessionId := sessionId;
          log_error := Some errorMessage |} ;;;
     let truncated := truncateResponse (content fallbackResponse) in
     time <- now ;;
     ret {| response := fst truncated;
            modelUsed := "gpt-4o-mini (fallback)";
            rr_promptType := promptType;
            classificationConfidence := JS.or_opt classifiedConfidence 0.5;
            routingDecision :=
              {| selectedModel := "gpt-4o-mini";
                 rd_provider := cl_provider fallbackClient;
                 rd_promptType := promptType;
                 reasoning := "Used as fallback due to routing error";
                 rd_confidence := 0.5;
                 fallbackModel := None;
                 estimatedCost := 0.00015;
                 estimatedLatency := inject_Z actualLatency;
                 rd_score := 0.0;
                 priorityWeights := fallbackWeights;
                 alternatives := [] |};
            actualCost := 0.00015;
            actualLatency := actualLatency;
            costSavings := 0;
            timestamp := time;
            wasTruncated := snd truncated |})
    (fun fallbackError =>
       let safeErrorMessage := JS.or_str errorMessage "Unknown routing error" in
       throw (ErrorObj ("Routing failed: " ++ safeErrorMessage))).

(** the options of the first invocation *)
Definition primaryOptions (promptType : PromptType) (timeout : Q)
  : GenerationOptions :=
  {| maxTokens := Some (getMaxOutputTokens promptType);
     temperature := Some (getTemperatureForPromptType promptType);
     timeoutMs := Some timeout;
     systemPrompt := None |}.

(** the [try] block of [routePrompt] after the classification *)
Definition routeClassified (prompt : string)
           (priorityPreset : PriorityPreset) (startTime : Z)
           (userId sessionId : option string)
           (classificationResult : HybridClassificationResult)
  : M RouterResponse :=
  let promptType := promptType classificationResult in
  let classificationConfidence := confidence classificationResult in
  routingDecision <- routeRequest
    {| rq_prompt := prompt;
       rq_promptType := Some promptType;
       rq_priorityPreset := priorityPreset;
       rq_userId := userId;
       rq_sessionId := sessionId |} ;;
  modelClient <- factory_getClient (selectedModel routingDecision) ;;
  modelResponse <-
    try_catch
      (timeout <- getRequestTimeout ;;
       client_generateResponse modelClient prompt
         (primaryOptions promptType timeout))
      (fun error =>
         markModelUnavailable (selectedModel routingDecision) ;;;
         throw error) ;;
  endTime <- now ;;
  let actualLatency := (endTime - startTime)%Z in
  reg <- gets (fun s => entries (store s)) ;;
  let actualCost :=
    calculateActualCost reg (selectedModel routingDecision)
      (String.length prompt) (String.length (content modelResponse)) in
  let costSavings := calculateCostSavings reg actualCost promptType in
  id <- generateRequestId ;;
  logTime <- now ;;
  logRequest
    {| log_id := id;
       log_prompt := prompt;
       log_promptType := promptType;
       log_selectedModel := selectedModel routingDecision;
       log_provider := cl_provider modelClient;
       log_costUsd := actualCost;
       log_latencyMs := actualLatency;
       log_qualityScore := Some (rd_confidence routingDecision);
       log_classificationMethod := Method_str (method classificationResult);
       log_classificationConfidence := classificationConfidence;
       log_priorityPreset := priorityPreset;
       log_timestamp := logTime;
       log_userId := userId;
       log_sessionId := sessionId;
       log_error := None |} ;;;
  let truncated :=
    truncateResponse
      (JS.or_str (content modelResponse) "No response generated") in
  time <- now ;;
  ret {| response := fst truncated;
         modelUsed := selectedModel routingDecision;
         rr_promptType := promptType;
         classificationConfidence := classificationConfidence;
         routingDecision := routingDecision;
         actualCost := actualCost;
         actualLatency := actualLatency;
         costSavings := costSavings;
         timestamp := time;
         wasTruncated := snd truncated |}.

(** [RouterService.routePrompt]: the locals [promptType] and
    [classificationConfidence] start at [UNKNOWN] and [0.5] and are
    overwritten once the classification returns; the handler receives
    their value at the time of the throw. *)
Definition routePrompt (prompt : string) (priorityPreset : PriorityPreset)
           (userId sessionId : option string) : M RouterResponse :=
  startTime <- now ;;
  bind_or (classify prompt)
    (fun error =>
       handleRoutingError prompt priorityPreset error startTime
         userId sessionId (Some UNKNOWN) (Some 0.5))
    (fun classificationResult =>
       try_catch
         (routeClassified prompt priorityPreset startTime userId sessionId
            classificationResult)
         (fun error =>
            handleRoutingError prompt priorityPreset error startTime
              userId sessionId
              (Some (promptType classificationResult))
              (Some (confidence classificationResult)))).

End WithWorld.

End Service.
Import Service.

(* ===================================================================== *)
(** ** Sample runtimes and worlds for the concrete runs *)
(* ===================================================================== *)

Module Samples.

(** the reply of the classification backend in the sample runs *)
Definition classifier_reply : string :=
  "{" ++ JS.dq ++ "category" ++ JS.dq ++ ": "
  ++ JS.dq ++ "SUMMARIZE" ++ JS.dq ++ ", "
  ++ JS.dq ++ "confidence" ++ JS.dq ++ ": 0.9, "
  ++ JS.dq ++ "reasoning" ++ JS.dq ++ ": "
  ++ JS.dq ++ "asks for a summary" ++ JS.dq ++ "}".

(** Stand-ins for the irrational functions and the formatters: the scores
    of the [COST] preset never call them, and the run with the [QUALITY]
    preset is read at its weights only.  [JSON_fields] reads
    [classifier_reply], the one text the runs parse. *)
Definition sample_runtime : JSRuntime :=
  {| Math_pow := fun x _ => x;
     Math_log := fun x => x;
     Math_sqrt := fun x => x;
     toFixed := fun _ _ => "0.00";
     toStr := fun _ => "0";
     toLocaleString := fun _ => "0";
     JSON_fields :=
       fun text =>
         if String.eqb text classifier_reply
         then inr ("SUMMARIZE", 0.9, "asks for a summary")
         else inl "No JSON found in response" |}.

Definition sample_env : ServerEnv :=
  {| CLASSIFICATION_CONFIDENCE_THRESHOLD := 0.6; REQUEST_TIMEOUT_MS := 30000 |}.

Definition reply (cl : Client) (text : string) : ModelResponse :=
  {| content := text;
     mr_modelName := cl_modelName cl;
     mr_provider := cl_provider cl;
     usage_inputTokens := 10;
     usage_outputTokens := 10;
     usage_costUsd := 0;
     mr_latency := 100 |}.

(** the classification call is the one that carries a system prompt; a
    backend that is up answers it with [classifier_reply] *)
Definition answer (cl : Client) (options : GenerationOptions) (text : string)
  : ModelResponse :=
  match systemPrompt options with
  | Some _ => reply cl classifier_reply
  | None => reply cl text
  end.

(** every backend invocation throws *)
Definition world_all_down : World :=
  {| isServer := true;
     processEnv := inr sample_env;
     generateResponse := fun _ _ _ _ => inl (ErrorObj "backend down");
     Date_now := fun n => Z.of_nat (1000 * n);
     Math_random_id := fun _ => "abc" |}.

(** the Hugging Face backend throws, the others answer [text] *)
Definition world_hf_down (text : string) : World :=
  {| isServer := true;
     processEnv := inr sample_env;
     generateResponse :=
       fun _ cl _ options =>
         match cl_provider cl with
         | HUGGINGFACE => inl (ErrorObj "HF router unavailable")
         | _ => inr (answer cl options text)
         end;
     Date_now := fun n => Z.of_nat (1000 * n);
     Math_random_id := fun _ => "abc" |}.

(** every backend answers [text] *)
Definition world_up (text : string) : World :=
  {| isServer := true;
     processEnv := inr sample_env;
     generateResponse := fun _ cl _ options => inr (answer cl options text);
     Date_now := fun n => Z.of_nat (1000 * n);
     Math_random_id := fun _ => "abc" |}.

(** a server whose environment does not validate (no [OPENAI_API_KEY]);
    the message stands for the text of the validation error *)
Definition world_env_invalid : World :=
  {| isServer := true;
     processEnv := inl (ErrorObj "OpenAI API key is required");
     generateResponse := fun _ cl _ options => inr (answer cl options "ok");
     Date_now := fun n => Z.of_nat (1000 * n);
     Math_random_id := fun _ => "abc" |}.

Definition request (prompt : string) (t : PromptType) (p : PriorityPreset)
  : RoutingRequest :=
  {| rq_prompt := prompt; rq_promptType := Some t; rq_priorityPreset := p;
     rq_userId := None; rq_sessionId := None |}.

Definition summarize_prompt : string :=
  "Summarize the key points of machine learning".

Definition code_prompt : string :=
  "Write a function to implement binary search algorithm in python code".

(** a reply of [n] letters, a full stop, and [m] more letters *)
Definition long_text (n m : nat) : string :=
  string_of_list_ascii
    (repeat "a"%char n ++ "."%char :: repeat "a"%char m)%list.

End Samples.
Import Samples.

(* ===================================================================== *)
(** ** The specification's wording, for comparison with the code *)
(* ===================================================================== *)

Module Spec.



(** the categories that compete, in enumeration order *)
Definition categories : list PromptType :=
  [CODE; SUMMARIZE; QA; CREATIVE; MATH_REASONING].

Definition position (t : PromptType) : nat :=
  match t with
  | CODE => 0 | SUMMARIZE => 1 | QA => 2 | CREATIVE => 3
  | MATH_REASONING => 4 | UNKNOWN => 5
  end.

(** keywords of [t] that occur in the prompt, case-insensitively *)
Definition matched (prompt : string) (t : PromptType) : nat :=
  length (filter (fun k => JS.includes (JS.toLowerCase prompt) (JS.toLowerCase k))
                 (keywords (PROMPT_TYPE_MAPPING t))).

Definition totalKeywords (t : PromptType) : nat :=
  length (keywords (PROMPT_TYPE_MAPPING t)).

(** [rawScore = min(1.0, matched / totalKeywords + 0.1 * matched)],
    and [0] for an empty keyword list *)
Definition rawScore (prompt : string) (t : PromptType) : Q :=
  match totalKeywords t with
  | O => 0
  | S _ =>
      Qmin 1 (Qnat (matched prompt t) / Qnat (totalKeywords t)
              + 0.1 * Qnat (matched prompt t))
  end.

(** [t] has the highest score, and is the first such category *)
Definition first_best (r : PromptType -> Q) (t : PromptType) : Prop :=
  In t categories
  /\ (forall u, In u categories -> r u <= r t)
  /\ (forall u, In u categories -> (position u < position t)%nat -> r u < r t).

(** [x] is the score of the runner-up of [t] *)
Definition runner_up (r : PromptType -> Q) (t : PromptType) (x : Q) : Prop :=
  (forall u, In u categories -> u <> t -> r u <= x)
  /\ (exists u, In u categories /\ u <> t /\ x == r u).

(** [+0.2] if the gap exceeds [0.3], a further [+0.1] if it exceeds [0.5] *)
Definition bonus (gap : Q) : Q :=
  (if Qlt_le_dec 0.3 gap then 0.2 else 0)
  + (if Qlt_le_dec 0.5 gap then 0.1 else 0).

(** Truncation as the specification words it, with the text appended after
    the cut as a parameter: [L = 3000], [cut] the later of the last full
    stop and the last line feed at or before [L], and a cut only beyond
    [0.8 * L = 2400]. *)
Definition truncate_spec (suffix text : string) : string * bool :=
  if (String.length text <=? 3000)%nat then (text, false)
  else
    let cut := Z.max (JS.lastIndexOf text "." 3000)
                     (JS.lastIndexOf text JS.LF 3000) in
    if (2400 <? cut)%Z
    then (JS.substring0 text (cut + 1) ++ suffix, true)
    else (text, false).

(** the highest [priceInputPerMillion] among the models whose quality-prior
    table contains the category, per 1000 tokens *)
Definition maxCost (reg : Registry) (t : PromptType) : Q :=
  JS.max_with 0
    (map (fun c => priceInputPerMillion c / 1000)
         (filter (fun c => existsb (PromptType_eqb t)
                                   (map fst (qualityPriorByType c)))
                 (values reg))).

End Spec.
Import Spec.

(* ===================================================================== *)
(** ** Auxiliary notions of the proofs *)
(* ===================================================================== *)

(** the score table of the heuristic classifier, listed by category *)
Definition scores6 (e : PromptType -> ScoreEntry) : Scores :=
  map (fun t => (t, e t)) all_PromptType.

Definition entry (promptLower : string) (t : PromptType) : ScoreEntry :=
  match t with
  | UNKNOWN => zero_entry
  | _ =>
      {| se_score :=
           calculateKeywordScore (matched_in promptLower t)
                                 (keywords (PROMPT_TYPE_MAPPING t));
         matchedKeywords := matched_in promptLower t |}
  end.

(** the three tests of [getAvailableModels] on a registry entry *)
Definition passes (promptType : PromptType) (estimatedTokens : Z)
           (c : BaseModelConfig) : bool :=
  supports (computeDerivedProperties c) promptType
  && (estimatedTokens <=? contextWindowTokens c)%Z
  && match isAvailable c with Some b => b | None => true end.

(** fields of the state that a computation leaves alone *)
Definition keeps {A X} (f : State -> X) (m : M A) : Prop :=
  forall s, f (snd (m s)) = f s.

(** the state after the first clock reading of an operation *)
Definition tick (s : State) : State := with_clock s (S (clock s)).

(** the value [getRequestTimeout] returns *)
Definition requestTimeout {W : World} : Q :=
  match getServerEnv with
  | inr env => REQUEST_TIMEOUT_MS env
  | inl _ => 30000
  end.

(** the failure [handleRoutingError] raises for the error [err] *)
Definition routingFailed (err : Thrown) : Thrown :=
  ErrorObj ("Routing failed: "
              ++ JS.or_str (errorMessage err) "Unknown routing error").

(** the invocation recorded for a call of [cl] with [options] *)
Definition invocation (cl : Client) (prompt : string)
           (options : GenerationOptions) : BackendCall :=
  {| call_client := cl; call_prompt := prompt; call_options := options |}.

(** the request [routePrompt] hands to the engine *)
Definition classifiedRequest (p : string) (pr : PriorityPreset)
           (u sid : option string) (t : PromptType) : RoutingRequest :=
  {| rq_prompt := p; rq_promptType := Some t; rq_priorityPreset := pr;
     rq_userId := u; rq_sessionId := sid |}.

Section Outcomes.
Context {R : JSRuntime} {W : World}.

(** what a successful answer carries: the truncated reply of the selected
    backend, or the truncated reply of the fallback backend *)
Definition answered (p : string) (pr : PriorityPreset) (u sid : option string)
           (reg : Registry) (log : RequestLog) (r : RouterResponse) : Prop :=
  exists n cl o resp,
    generateResponse n cl p o = inr resp
    /\ ((modelUsed r = selectedModel (routingDecision r)
         /\ (response r, wasTruncated r)
            = truncateResponse
                (JS.or_str (content resp) "No response generated")
         /\ actualCost r
            = calculateActualCost reg (selectedModel (routingDecision r))
                (String.length p) (String.length (content resp))
         /\ costSavings r
            = calculateCostSavings reg (actualCost r) (rr_promptType r)
         /\ log_error log = None
         /\ exists c s1 s2,
              entries (store s1) = reg
              /\ routeRequest
                   (classifiedRequest p pr u sid (promptType c)) s1
                 = (inr (routingDecision r), s2))
        \/ (modelUsed r = "gpt-4o-mini (fallback)"
            /\ selectedModel (routingDecision r) = "gpt-4o-mini"
            /\ (response r, wasTruncated r) = truncateResponse (content resp)
            /\ actualCost r = 0.00015
            /\ costSavings r = 0
            /\ log_costUsd log = 0.00015)).

(** the store after a run: untouched, or the selected model name marked *)
Definition marked (p : string) (pr : PriorityPreset) (u sid : option string)
           (s : State) (st' : Store) : Prop :=
  st' = store s
  \/ exists c s1 d s2,
       classify p (tick s) = (inr c, s1)
       /\ store s1 = store s
       /\ routeRequest (classifiedRequest p pr u sid (promptType c)) s1
          = (inr d, s2)
       /\ st' = updateModelAvailability (selectedModel d) false (store s).

(** the operations of the router that do not reset availability *)
Inductive step : State -> State -> Prop :=
| step_mark name s : step s (snd (markModelUnavailable name s))
| step_route req s : step s (snd (routeRequest req s))
| step_prompt p pr u sid s : step s (snd (routePrompt p pr u sid s))
| step_metrics s : step s (snd (resetMetrics s)).

(** the states reached by such operations *)
Inductive runs : State -> State -> Prop :=
| runs_refl s : runs s s
| runs_step s1 s2 s3 : runs s1 s2 -> step s2 s3 -> runs s1 s3.

End Outcomes.

(** the entry at key [k] is flagged unavailable *)
Definition unavailable (reg : Registry) (k : string) : Prop :=
  exists c, lookup reg k = Some c /\ isAvailable c = Some false.

(** no two registry entries share a provider model name *)
Definition names_distinct (reg : Registry) : Prop :=
  forall k1 c1 k2 c2,
    lookup reg k1 = Some c1 -> lookup reg k2 = Some c2 ->
    modelName c1 = modelName c2 -> k1 = k2.

(** Prices are not negative, and the provider model name of an entry is
    the key of an entry with the same price and the same quality priors,
    or is no key at all and the entry is free of charge. *)
Definition well_priced (reg : Registry) : Prop :=
  forall c, In c (values reg) ->
    0 <= priceInputPerMillion c
    /\ 0 <= priceOutputPerMillion c
    /\ match lookup reg (modelName c) with
       | Some c' =>
           priceInputPerMillion c' = priceInputPerMillion c
           /\ qualityPriorByType c' = qualityPriorByType c
       | None => priceInputPerMillion c == 0
       end.

(** The scoring of [models] stays within the finite numbers: every latency
    is positive (so no throughput is [Infinity] and the largest latency is
    not [0]), the largest throughput is positive, no quality prior for the
    category is negative (so [Math.pow] is defined), and the models do not
    all carry one positive price when the cost weight is at most [0.4]
    (the one place that divides by [maxCost - minCost]).  Where it fails
    the source computes with [NaN] or [Infinity], which [Q] does not
    have. *)
Definition scores_defined (models : list ModelConfig) (weights : Weights)
           (promptType : PromptType) : bool :=
  let costs := map inputCostPer1kTokens models in
  forallb (fun m => JS.Qgtb (latencyMs m) 0
                    && Qle_bool 0 (qualityPriors m promptType))
          models
  && JS.Qgtb (JS.Math_max (map throughputTps models)) 0
  && (JS.Qgtb (cost weights) 0.4
      || negb (JS.Qgtb (JS.Math_max costs) 0)
      || negb (Qeq_bool (JS.Math_max costs) (JS.Math_min costs))).

(* ===================================================================== *)
(** ** [src/lib/classification]: the classification call and the
       configured threshold *)
(* ===================================================================== *)

(** the options of the classification call *)
Definition classificationOptions : GenerationOptions :=
  {| maxTokens := Some 200;
     temperature := Some 0.1;
     timeoutMs := None;
     systemPrompt := Some "You are a prompt classification expert. Analyze the given prompt and classify it into one of the specified categories." |}.


(* ===================================================================== *)
(** ** [src/lib/models/model-registry.ts]: the selection, cost and ranking
       helpers *)
(* ===================================================================== *)

Module RegistryQueries.

(** [xs.sort((a, b) => key(a) - key(b))]: stable, ascending *)
Section SortAsc.
Context {A : Type} (key : A -> Q).

Fixpoint insert_asc (x : A) (l : list A) : list A :=
  match l with
  | [] => [x]
  | y :: r => if JS.Qltb (key y) (key x) then y :: insert_asc x r
              else x :: y :: r
  end.

Definition sort_asc (l : list A) : list A := fold_right insert_asc [] l.
End SortAsc.

(** [model.qualityPriorByType[t] !== undefined] *)
Definition lists_type (c : BaseModelConfig) (t : PromptType) : bool :=
  match prior (qualityPriorByType c) t with Some _ => true | None => false end.

(** For an inherited name [model] is truthy and has no prices: the two
    products and their sum are [NaN]. *)
Definition estimateTokenCost (reg : Registry) (name : string)
           (inputTokens outputTokens : Q) : JS.Num :=
  match lookup reg name with
  | None => if JS.inherited name then JS.NaN else JS.Finite 0
  | Some cfg =>
      let inputCost := (inputTokens / 1000000) * priceInputPerMillion cfg in
      let outputCost :=
        (outputTokens / 1000000) * priceOutputPerMillion cfg in
      JS.Finite (inputCost + outputCost)
  end.

Definition rankModelsByCost (reg : Registry) (t : PromptType) : list string :=
  map fst
      (sort_asc (fun e => priceInputPerMillion (snd e)
                          + priceOutputPerMillion (snd e))
         (filter (fun e => lists_type (snd e) t) reg)).

Definition rankModelsByLatency (reg : Registry) (t : PromptType)
  : list string :=
  map fst
      (sort_asc (fun e => latencyP50Seconds (snd e))
         (filter (fun e => lists_type (snd e) t) reg)).

Definition rankModelsByQuality (reg : Registry) (t : PromptType)
  : list string :=
  map fst
      (JS.sort_desc
         (fun e => JS.or_opt (prior (qualityPriorByType (snd e)) t) 0)
         (filter (fun e => lists_type (snd e) t) reg)).

Definition getModelsByContextSize (reg : Registry) (requiredTokens : Z)
  : list string :=
  map fst
      (sort_asc (fun e => inject_Z (contextWindowTokens (snd e)))
         (filter (fun e => (requiredTokens <=? contextWindowTokens (snd e))%Z)
                 reg)).

Definition getFreeModels (reg : Registry) : list string :=
  map fst
      (filter (fun e => Qeq_bool (priceInputPerMillion (snd e)) 0
                        && Qeq_bool (priceOutputPerMillion (snd e)) 0)
              reg).

End RegistryQueries.
Import RegistryQueries.

(* ===================================================================== *)
(** ** [src/lib/routing/router-service.ts]: the analytics views *)
(* ===================================================================== *)

Module ServiceViews.

(** [xs.slice(start)] for an integer [start]: a negative [start] counts
    from the end, [-0] is [0] *)
Definition slice_from {A : Type} (start : Z) (l : list A) : list A :=
  let len := Z.of_nat (length l) in
  let k := if (start <? 0)%Z then Z.max (len + start) 0
           else Z.min start len in
  skipn (Z.to_nat k) l.

(** [getRecentLogs(limit = 50)] for an integer [limit] *)
Definition getRecentLogs (limit : option Z) : M (list RequestLog) :=
  gets (fun s =>
          let limit := match limit with Some n => n | None => 50%Z end in
          rev (slice_from (- limit) (requestLogs s))).

(** [RouterMetrics], at the fields computed from the request logs and the
    counters of the engine *)
Record RouterMetrics := {
  rm_totalRequests : nat;
  rm_promptTypeDistribution : PromptType -> nat;
  rm_totalCostSavings : Q;
  rm_classificationAccuracy : Q
}.

(** [RouterService.getMetrics] *)
Definition getMetrics : M RouterMetrics :=
  gets (fun s =>
          let routingMetrics := metrics s in
          let totalRequests := length (requestLogs s) in
          let successfulClassifications :=
            length (filter (fun log =>
                              JS.Qgtb (log_classificationConfidence log) 0.6)
                           (requestLogs s)) in
          let classificationAccuracy :=
            if (0 <? totalRequests)%nat
            then Qnat successfulClassifications / Qnat totalRequests
            else 0 in
          let totalCostSavings :=
            fold_left (fun sum log => sum + log_costUsd log * 0.2)
                      (requestLogs s) 0 in
          {| rm_totalRequests := totalRequests;
             rm_promptTypeDistribution :=
               promptTypeDistribution routingMetrics;
             rm_totalCostSavings := totalCostSavings;
             rm_classificationAccuracy := classificationAccuracy |}).

End ServiceViews.
Import ServiceViews.

(* ===================================================================== *)
(** ** [src/lib/models/base-client.ts]: the options of a generation *)
(* ===================================================================== *)

Module BaseClient.

(** [GenerationOptions] with all its fields; an absent field is [None] *)
Record ClientOptions := {
  o_maxTokens : option Q;
  o_temperature : option Q;
  o_topP : option Q;
  o_frequencyPenalty : option Q;
  o_presencePenalty : option Q;
  o_stopSequences : option (list string);
  o_systemPrompt : option string;
  o_jsonMode : option bool;
  o_functionCalling : option bool;
  o_timeoutMs : option Q
}.

(** the options the router passes: four of the fields *)
Definition of_generation (o : GenerationOptions) : ClientOptions :=
  {| o_maxTokens := maxTokens o;
     o_temperature := temperature o;
     o_topP := None;
     o_frequencyPenalty := None;
     o_presencePenalty := None;
     o_stopSequences := None;
     o_systemPrompt := systemPrompt o;
     o_jsonMode := None;
     o_functionCalling := None;
     o_timeoutMs := timeoutMs o |}.

Definition defaultOptions : ClientOptions :=
  {| o_maxTokens := Some 1000;
     o_temperature := Some 0.7;
     o_topP := Some 1.0;
     o_frequencyPenalty := Some 0.0;
     o_presencePenalty := Some 0.0;
     o_stopSequences := None;
     o_systemPrompt := None;
     o_jsonMode := None;
     o_functionCalling := None;
     o_timeoutMs := Some 30000 |}.

(** a property of the second object of a spread wins when it is present
    (a property present with the value [undefined] is not modelled) *)
Definition spread {A : Type} (d o : option A) : option A :=
  match o with Some x => Some x | None => d end.

(** [mergeOptions]: [{ ...this.defaultOptions, ...options }] *)
Definition mergeOptions (options : option ClientOptions) : ClientOptions :=
  match options with
  | None => defaultOptions
  | Some o =>
      {| o_maxTokens := spread (o_maxTokens defaultOptions) (o_maxTokens o);
         o_temperature :=
           spread (o_temperature defaultOptions) (o_temperature o);
         o_topP := spread (o_topP defaultOptions) (o_topP o);
         o_frequencyPenalty :=
           spread (o_frequencyPenalty defaultOptions) (o_frequencyPenalty o);
         o_presencePenalty :=
           spread (o_presencePenalty defaultOptions) (o_presencePenalty o);
         o_stopSequences :=
           spread (o_stopSequences defaultOptions) (o_stopSequences o);
         o_systemPrompt :=
           spread (o_systemPrompt defaultOptions) (o_systemPrompt o);
         o_jsonMode := spread (o_jsonMode defaultOptions) (o_jsonMode o);
         o_functionCalling :=
           spread (o_functionCalling defaultOptions) (o_functionCalling o);
         o_timeoutMs := spread (o_timeoutMs defaultOptions) (o_timeoutMs o) |}
  end.

(** [options.x && test(options.x)]: an absent or zero number is falsy *)
Definition truthy_and (x : option Q) (test : Q -> bool) : bool :=
  match x with
  | Some v => negb (Qeq_bool v 0) && test v
  | None => false
  end.

(** [validateOptions] *)
Definition validateOptions (options : ClientOptions) : Thrown + unit :=
  if truthy_and (o_maxTokens options) (fun v => JS.Qltb v 1)
  then inl (ErrorObj "maxTokens must be at least 1")
  else if truthy_and (o_temperature options)
            (fun v => JS.Qltb v 0 || JS.Qgtb v 2)
  then inl (ErrorObj "temperature must be between 0 and 2")
  else if truthy_and (o_topP options) (fun v => JS.Qltb v 0 || JS.Qgtb v 1)
  then inl (ErrorObj "topP must be between 0 and 1")
  else inr tt.

(** the first two statements of [generateResponse] in the OpenAI, Anthropic
    and Google clients *)
Definition prepareOptions (options : option ClientOptions)
  : Thrown + ClientOptions :=
  let mergedOptions := mergeOptions options in
  match validateOptions mergedOptions with
  | inl e => inl e
  | inr _ => inr mergedOptions
  end.

End BaseClient.
Import BaseClient.

(* ===================================================================== *)
(** ** [src/lib/routing/routing-engine.ts]: the best alternative *)
(* ===================================================================== *)

Module Alternative.

(** [RoutingEngine.getBestAlternativeForPromptType] *)
Definition getBestAlternativeForPromptType (reg : Registry)
           (promptType : PromptType) (excludeModel : option string)
  : option Scored :=
  let availableModels :=
    filter (fun m =>
              mc_isAvailable m
              && match excludeModel with
                 | Some x => negb (String.eqb (name_of m) x)
                 | None => true
                 end
              && supports m promptType)
           (flat_map (fun baseConfig =>
                        match getModelByName reg (modelName baseConfig) with
                        | Some m => [m]
                        | None => []
                        end)
                     (values reg)) in
  match availableModels with
  | [] => None
  | _ :: _ =>
      let scoredModels :=
        map (fun m =>
               {| sm_config := m;
                  score :=
                    JS.or_num (qualityPriors m promptType) 0.5 * 0.6
                    + (1 - inputCostPer1kTokens m
                           / JS.Math_max (map inputCostPer1kTokens
                                              availableModels)) * 0.3
                    + (1 - latencyMs m
                           / JS.Math_max (map latencyMs availableModels))
                      * 0.1 |})
            availableModels in
      hd_error (JS.sort_desc score scoredModels)
  end.

End Alternative.
Import Alternative.

(* ===================================================================== *)
(** ** [src/app/api/route/route.ts]: the HTTP handlers *)
(* ===================================================================== *)

Module Api.

(** the [prompt] field of a request body: a string, another truthy value,
    or a falsy or absent one *)
Inductive JsonValue :=
| JString (s : string)
| JTruthyOther
| JFalsy.

(** a parsed body of [POST]; the [priorityPreset] field is absent or one of
    the four presets *)
Record PostBody := {
  b_prompt : JsonValue;
  b_priorityPreset : option PriorityPreset
}.

(** [NextResponse.json(body, { status })] *)
Inductive PostResponse :=
| Ok200 (result : RouterResponse)
| BadRequest400 (error : string)
| ServerError500 (error details : string).

(** [new RouterService()]: an empty log buffer and, with its new engine,
    fresh metrics; the registry and the client factory are module state and
    are shared.  The fields [requestLogs] and [metrics] of the state then
    belong to the instance that serves the request. *)
Definition newRouterService (s : State) : State :=
  with_requestLogs (with_metrics s initializeMetrics) [].

Section WithWorld.
Context {R : JSRuntime} {W : World}.

(** [POST]; [body] is the outcome of [request.json()] *)
Definition POST (body : Thrown + PostBody) (s : State)
  : PostResponse * State :=
  match body with
  | inl e => (ServerError500 "Routing failed" (message_or e "Unknown error"), s)
  | inr b =>
      match b_prompt b with
      | JString (String a r) =>
          let priorityPreset :=
            match b_priorityPreset b with
            | Some p => p
            | None => BALANCED
            end in
          match routePrompt (String a r) priorityPreset None None
                  (newRouterService s) with
          | (inr result, s') => (Ok200 result, s')
          | (inl e, s') =>
              (ServerError500 "Routing failed" (message_or e "Unknown error"), s')
          end
      | _ => (BadRequest400 "Prompt is required and must be a string", s)
      end
  end.

End WithWorld.

Inductive PutResponse :=
| Reset200 (message : string)
| InvalidAction400 (error : string)
| ResetFailed500 (error : string).

(** [PUT]; [action] is the field of the parsed body, when it is a string *)
Definition PUT (body : Thrown + option string) (s : State)
  : PutResponse * State :=
  match body with
  | inl _ => (ResetFailed500 "Failed to reset models", s)
  | inr (Some "reset") =>
      (Reset200 "All models reset to available",
       with_store s (resetAllModelAvailability (store s)))
  | inr _ => (InvalidAction400 "Invalid action", s)
  end.

Record ModelStatus := {
  st_name : string;
  st_modelName : string;
  st_provider : Provider;
  st_isAvailable : bool;
  st_isAvailableRaw : option bool;
  st_notes : option string
}.

(** [GET]: the status list of the response *)
Definition GET (s : State) : list ModelStatus :=
  map (fun e =>
         {| st_name := fst e;
            st_modelName := modelName (snd e);
            st_provider := provider (snd e);
            st_isAvailable :=
              match isAvailable (snd e) with Some b => b | None => true end;
            st_isAvailableRaw := isAvailable (snd e);
            st_notes := notes (snd e) |})
      (entries (store s)).

End Api.
Import Api.

(* ===================================================================== *)
(** ** Basic facts *)
(* ===================================================================== *)

Lemma Qgtb_true x y : JS.Qgtb x y = true <-> y < x.
Proof.
  unfold JS.Qgtb. rewrite negb_true_iff. split; intros H.
  - apply Qnot_le_lt. intros L. apply Qle_bool_iff in L. congruence.
  - destruct (Qle_bool x y) eqn:E; [|reflexivity].
    apply Qle_bool_iff in E. exfalso. eapply Qlt_not_le; eauto.
Qed.

Lemma Qgtb_false x y : JS.Qgtb x y = false <-> x <= y.
Proof.
  unfold JS.Qgtb. rewrite negb_false_iff. apply Qle_bool_iff.
Qed.

Lemma PromptType_eqb_eq a b : PromptType_eqb a b = true <-> a = b.
Proof. destruct a, b; simpl; split; intros H; congruence. Qed.

Lemma PromptType_eqb_neq a b : PromptType_eqb a b = false <-> a <> b.
Proof. destruct a, b; simpl; split; intros H; congruence. Qed.

Lemma filter_all_true {A} (g : A -> bool) (l : list A) :
  (forall x, In x l -> g x = true) -> filter g l = l.
Proof.
  induction l as [|a l IH]; intros H; simpl; [reflexivity|].
  rewrite (H a (or_introl eq_refl)). f_equal. apply IH.
  intros x Hx. apply H. right. exact Hx.
Qed.

Lemma Qnat_nonneg n : 0 <= Qnat n.
Proof. unfold Qnat, Qle. simpl. lia. Qed.

Lemma Qdiv_nonneg a b : 0 <= a -> 0 <= b -> 0 <= a / b.
Proof.
  intros Ha Hb. unfold Qdiv. apply Qmult_le_0_compat; [exact Ha|].
  apply Qinv_le_0_compat. exact Hb.
Qed.

(** *** sorting *)

Lemma insert_desc_In {A} (key : A -> Q) x y l :
  In y (JS.insert_desc key x l) <-> y = x \/ In y l.
Proof.
  induction l as [|a l IH]; simpl.
  - intuition congruence.
  - destruct (JS.Qgtb (key a) (key x)); simpl; rewrite ?IH; intuition congruence.
Qed.

Lemma sort_desc_In {A} (key : A -> Q) y l :
  In y (JS.sort_desc key l) <-> In y l.
Proof.
  induction l as [|a l IH]; simpl; [tauto|].
  rewrite insert_desc_In, IH. intuition congruence.
Qed.

(** *** the last [n] elements *)

Lemma slice_last_all {A} n (l : list A) :
  (length l <= n)%nat -> JS.slice_last n l = l.
Proof.
  intros H. unfold JS.slice_last.
  replace (length l - n)%nat with 0%nat by lia. reflexivity.
Qed.

Lemma slice_last_snoc {A} n (l : list A) x :
  (0 < n)%nat ->
  JS.slice_last n (JS.slice_last n l ++ [x]) = JS.slice_last n (l ++ [x]).
Proof.
  intros Hn. unfold JS.slice_last.
  rewrite !length_app, length_skipn. simpl.
  destruct (Nat.le_gt_cases (length l) n).
  - replace (length l - n)%nat with 0%nat by lia. simpl.
    rewrite Nat.sub_0_r. reflexivity.
  - replace (length l - (length l - n) + 1 - n)%nat with 1%nat by lia.
    replace (length l + 1 - n)%nat with (S (length l - n)) by lia.
    rewrite !skipn_app, length_skipn, skipn_skipn.
    replace (1 - (length l - (length l - n)))%nat with 0%nat by lia.
    replace (S (length l - n) - length l)%nat with 0%nat by lia.
    reflexivity.
Qed.

(* ===================================================================== *)
(** ** The analytics buffer *)
(* ===================================================================== *)

Lemma pushLog_slice logs log :
  pushLog logs log = JS.slice_last maxLogs (logs ++ [log]).
Proof.
  unfold pushLog.
  destruct (Nat.ltb_spec maxLogs (length (logs ++ [log]))); [reflexivity|].
  symmetry. apply slice_last_all. assumption.
Qed.

Lemma fold_pushLog (es : list RequestLog) :
  fold_left pushLog es [] = JS.slice_last maxLogs es.
Proof.
  induction es as [|e es IH] using rev_ind.
  - reflexivity.
  - rewrite fold_left_app. simpl. rewrite IH, pushLog_slice.
    apply slice_last_snoc. unfold maxLogs. lia.
Qed.

Lemma pushLog_length logs log : (length (pushLog logs log) <= maxLogs)%nat.
Proof.
  rewrite pushLog_slice. unfold JS.slice_last. rewrite length_skipn. lia.
Qed.

Lemma logRequest_run log s :
  logRequest log s = (inr tt, with_requestLogs s (pushLog (requestLogs s) log)).
Proof. reflexivity. Qed.

(* ===================================================================== *)
(** ** The heuristic classifier *)
(* ===================================================================== *)

Ltac cases_Qgtb :=
  repeat (cbn [bm_score bm_promptType bm_matchedKeywords];
          match goal with
          | |- context [JS.Qgtb ?a ?b] =>
              lazymatch b with
              | context [JS.Qgtb _ _] => fail
              | _ =>
                  let E := fresh "E" in
                  destruct (JS.Qgtb a b) eqn:E;
                  [apply Qgtb_true in E | apply Qgtb_false in E]
              end
          end).

Section BestMatch.
Variables (e : PromptType -> ScoreEntry) (r : PromptType -> Q).
Hypothesis Hr : forall t, se_score (e t) == r t.
Hypothesis Hpos : forall t, 0 <= r t.

Lemma findBestMatch_zero :
  (forall u, In u categories -> r u == 0) ->
  findBestMatch (scores6 e)
  = {| bm_promptType := UNKNOWN; bm_score := 0; bm_matchedKeywords := [] |}.
Proof.
  intros Hz. unfold findBestMatch, scores6, all_PromptType.
  cbn [map fold_left fst snd PromptType_eqb].
  pose proof (Hr CODE); pose proof (Hr SUMMARIZE); pose proof (Hr QA);
    pose proof (Hr CREATIVE); pose proof (Hr MATH_REASONING).
  pose proof (Hz CODE ltac:(simpl; tauto));
    pose proof (Hz SUMMARIZE ltac:(simpl; tauto));
    pose proof (Hz QA ltac:(simpl; tauto));
    pose proof (Hz CREATIVE ltac:(simpl; tauto));
    pose proof (Hz MATH_REASONING ltac:(simpl; tauto)).
  cases_Qgtb; try reflexivity; exfalso; lra.
Qed.

Lemma findBestMatch_best :
  (exists u, In u categories /\ 0 < r u) ->
  exists t,
    first_best r t
    /\ findBestMatch (scores6 e)
       = {| bm_promptType := t; bm_score := se_score (e t);
            bm_matchedKeywords := matchedKeywords (e t) |}.
Proof.
  intros (u0 & Hin0 & Hu0).
  unfold findBestMatch, scores6, all_PromptType.
  cbn [map fold_left fst snd PromptType_eqb].
  pose proof (Hr CODE); pose proof (Hr SUMMARIZE); pose proof (Hr QA);
    pose proof (Hr CREATIVE); pose proof (Hr MATH_REASONING).
  assert (Hsome : 0 < r CODE \/ 0 < r SUMMARIZE \/ 0 < r QA
                  \/ 0 < r CREATIVE \/ 0 < r MATH_REASONING).
  { simpl in Hin0. intuition (subst; auto). }
  clear u0 Hin0 Hu0.
  cases_Qgtb;
  match goal with
  | |- exists t, _ /\ {| bm_promptType := ?u; bm_score := _;
                        bm_matchedKeywords := _ |} = _ =>
      first [ exfalso; lra
            | exists u; split; [|reflexivity];
              unfold first_best, categories, position; simpl;
              (split; [tauto|]); split; intros v Hv;
              [ | intros Hlt ];
              (destruct Hv as [<-|[<-|[<-|[<-|[<-|[]]]]]]);
              simpl in *; try lia; lra ]
  end.
Qed.

Lemma max4 (a b c d : Q) :
  let m := JS.max_with 0 [a; b; c; d] in
  0 <= m /\ a <= m /\ b <= m /\ c <= m /\ d <= m
  /\ (m == 0 \/ m == a \/ m == b \/ m == c \/ m == d).
Proof.
  unfold JS.max_with. cbn [fold_left].
  destruct (Q.max_spec 0 a) as [[? E1]|[? E1]];
  destruct (Q.max_spec (Qmax 0 a) b) as [[? E2]|[? E2]];
  destruct (Q.max_spec (Qmax (Qmax 0 a) b) c) as [[? E3]|[? E3]];
  destruct (Q.max_spec (Qmax (Qmax (Qmax 0 a) b) c) d) as [[? E4]|[? E4]];
  revert E1 E2 E3 E4;
  generalize dependent (Qmax (Qmax (Qmax (Qmax 0 a) b) c) d); intros m4;
  generalize dependent (Qmax (Qmax (Qmax 0 a) b) c); intros m3;
  generalize dependent (Qmax (Qmax 0 a) b); intros m2;
  generalize dependent (Qmax 0 a); intros m1; intros;
  repeat split; try lra.
  all: first [ left; lra | right; left; lra | right; right; left; lra
             | right; right; right; left; lra
             | right; right; right; right; lra ].
Qed.

Lemma Qmin_09_compat x y : x == y -> Qmin 0.9 x == Qmin 0.9 y.
Proof. intros H. rewrite H. reflexivity. Qed.

Lemma confidence_of_best t :
  first_best r t -> 0 < r t ->
  exists ru,
    runner_up r t ru
    /\ Classification.calculateConfidence
         {| bm_promptType := t; bm_score := se_score (e t);
            bm_matchedKeywords := matchedKeywords (e t) |} (scores6 e)
       == Qmin 0.9 (r t + bonus (r t - ru)).
Proof.
  intros (Hin & Hmax & _) Hpos_t.
  pose proof (Hr CODE) as rC; pose proof (Hr SUMMARIZE) as rS;
    pose proof (Hr QA) as rQ; pose proof (Hr CREATIVE) as rR;
    pose proof (Hr MATH_REASONING) as rM.
  pose proof (Hpos CODE) as pC; pose proof (Hpos SUMMARIZE) as pS;
    pose proof (Hpos QA) as pQ; pose proof (Hpos CREATIVE) as pR;
    pose proof (Hpos MATH_REASONING) as pM.
  unfold Classification.calculateConfidence. cbn [bm_score bm_promptType].
  destruct (Qeq_bool (se_score (e t)) 0) eqn:Ez.
  { apply Qeq_bool_iff in Ez. rewrite (Hr t) in Ez. exfalso. lra. }
  clear Ez Hmax.
  unfold categories in Hin. simpl in Hin.
  destruct Hin as [<-|[<-|[<-|[<-|[<-|[]]]]]];
    unfold otherScores, scores6, all_PromptType;
    cbn [map filter fst snd PromptType_eqb negb andb];
    match goal with
    | |- context [JS.max_with 0 [?a; ?b; ?c; ?d]] =>
        destruct (max4 a b c d) as (m0 & ma & mb & mc & md & mcase);
        exists (JS.max_with 0 [a; b; c; d]);
        generalize dependent (JS.max_with 0 [a; b; c; d]); intros m; intros
    end;
    (split;
     [ split;
       [ intros u Hu Hne; unfold categories in Hu; simpl in Hu;
         destruct Hu as [<-|[<-|[<-|[<-|[<-|[]]]]]]; try congruence; lra
       | destruct mcase as [Hm|[Hm|[Hm|[Hm|Hm]]]];
         first [ exists CODE; split; [simpl; tauto|]; split; [congruence|lra]
               | exists SUMMARIZE; split; [simpl; tauto|];
                 split; [congruence|lra]
               | exists QA; split; [simpl; tauto|]; split; [congruence|lra]
               | exists CREATIVE; split; [simpl; tauto|];
                 split; [congruence|lra]
               | exists MATH_REASONING; split; [simpl; tauto|];
                 split; [congruence|lra] ] ]
     | apply Qmin_09_compat; unfold bonus;
       repeat match goal with
         | |- context [JS.Qgtb ?a ?b] =>
             let E := fresh "E" in
             destruct (JS.Qgtb a b) eqn:E;
             [apply Qgtb_true in E | apply Qgtb_false in E]
         | |- context [Qlt_le_dec ?a ?b] => destruct (Qlt_le_dec a b)
         end; lra ]).
Qed.
End BestMatch.

Lemma exactMatches_all (f : string -> bool) (allKeywords : list string) :
  filter (fun keyword => existsb (String.eqb keyword) allKeywords)
         (filter f allKeywords)
  = filter f allKeywords.
Proof.
  apply filter_all_true. intros x Hx. apply filter_In in Hx as [Hx _].
  apply existsb_exists. exists x. split; [exact Hx|apply String.eqb_refl].
Qed.

Lemma calculateKeywordScore_spec (f : string -> bool) (allKeywords : list string) :
  calculateKeywordScore (filter f allKeywords) allKeywords
  == match length allKeywords with
     | O => 0
     | S _ =>
         Qmin 1 (Qnat (length (filter f allKeywords)) / Qnat (length allKeywords)
                 + 0.1 * Qnat (length (filter f allKeywords)))
     end.
Proof.
  unfold calculateKeywordScore. rewrite exactMatches_all.
  destruct (length allKeywords) as [|n] eqn:E; [reflexivity|].
  cbn [Nat.eqb].
  assert (H1 : 1.0 == 1) by reflexivity.
  rewrite H1. apply Q.min_compat; [reflexivity|]. ring.
Qed.

Lemma compute_scores_eq promptLower :
  compute_scores promptLower = scores6 (entry promptLower).
Proof. reflexivity. Qed.

Lemma entry_rawScore prompt t :
  se_score (entry (JS.toLowerCase prompt) t) == rawScore prompt t.
Proof.
  unfold rawScore, totalKeywords, matched.
  destruct t;
    [ unfold entry; cbn [se_score]; unfold matched_in;
      apply calculateKeywordScore_spec ..
    | cbn [entry PROMPT_TYPE_MAPPING keywords length zero_entry se_score];
      apply Qeq_refl ].
Qed.

Lemma rawScore_nonneg prompt t : 0 <= rawScore prompt t.
Proof.
  unfold rawScore. destruct (totalKeywords t); [apply Qle_refl|].
  apply Q.min_glb; [discriminate|].
  pose proof (Qnat_nonneg (matched prompt t)).
  pose proof (Qdiv_nonneg _ _ H (Qnat_nonneg (S n))).
  generalize dependent (Qnat (matched prompt t) / Qnat (S n)).
  generalize dependent (Qnat (matched prompt t)). intros. lra.
Qed.

Section Heuristic.
Context {R : JSRuntime}.

Lemma heuristic_classify_eq (prompt : string) :
  exists sc bm kc tk rs,
    sc = compute_scores (JS.toLowerCase prompt)
    /\ bm = findBestMatch sc
    /\ heuristic_classify prompt
       = {| h_promptType := bm_promptType bm;
            h_confidence := Classification.calculateConfidence bm sc;
            h_matchedKeywords := bm_matchedKeywords bm;
            h_keywordCount := kc;
            h_totalKeywords := tk;
            h_reasoning := rs |}.
Proof.
  do 5 eexists. split; [reflexivity|]. split; [reflexivity|].
  unfold heuristic_classify. reflexivity.
Qed.

(** C8.  For every prompt the heuristic classifier returns a category [t]
    of the enumeration and a confidence [conf <= 0.9].  If every raw score
    is [0], [t] is [UNKNOWN] and [conf] is [0.1].  Otherwise [t] is the
    first category with the highest raw score and
    [conf = min(0.9, rawScore t + bonus gap)], where [gap] is the lead of
    [t] over the runner-up among the categories other than [UNKNOWN] and
    [bonus] adds [0.2] beyond [0.3] and a further [0.1] beyond [0.5]. *)
Theorem C8_heuristic_confidence (prompt : string) :
  exists t conf,
    h_promptType (heuristic_classify prompt) = t
    /\ h_confidence (heuristic_classify prompt) = conf
    /\ In t all_PromptType
    /\ conf <= 0.9
    /\ ((forall u, In u categories -> rawScore prompt u == 0) ->
        t = UNKNOWN /\ conf == 0.1)
    /\ ((exists u, In u categories /\ 0 < rawScore prompt u) ->
        first_best (rawScore prompt) t
        /\ exists ru,
             runner_up (rawScore prompt) t ru
             /\ conf == Qmin 0.9 (rawScore prompt t
                                  + bonus (rawScore prompt t - ru))).
Proof.
  destruct (heuristic_classify_eq prompt)
    as (sc & bm & kc & tk & rs & Hsc & Hbm & ->).
  cbn [h_promptType h_confidence].
  rewrite compute_scores_eq in Hsc.
  exists (bm_promptType bm), (Classification.calculateConfidence bm sc).
  split; [reflexivity|]. split; [reflexivity|].
  split. { destruct (bm_promptType bm); simpl; tauto. }
  split.
  { unfold Classification.calculateConfidence.
    destruct (Qeq_bool (bm_score bm) 0); [discriminate|]. apply Q.le_min_l. }
  subst sc. split.
  - intros Hz.
    rewrite (findBestMatch_zero _ _ (entry_rawScore prompt) Hz) in Hbm.
    subst bm. split; reflexivity.
  - intros Hsome.
    destruct (findBestMatch_best _ _ (entry_rawScore prompt) Hsome)
      as (t & Hbest & Hfb).
    rewrite Hfb in Hbm. subst bm. cbn [bm_promptType].
    split; [exact Hbest|].
    assert (Hpos : 0 < rawScore prompt t).
    { destruct Hsome as (u & Hu & Hpu). destruct Hbest as (_ & Hmax & _).
      eapply Qlt_le_trans; [exact Hpu|apply Hmax; exact Hu]. }
    exact (confidence_of_best _ _ (entry_rawScore prompt)
             (rawScore_nonneg prompt) t Hbest Hpos).
Qed.
End Heuristic.

(* ===================================================================== *)
(** ** What a computation leaves alone *)
(* ===================================================================== *)

Section Keeps.
Context {W : World}.

Lemma keeps_ret {A X} (f : State -> X) (x : A) : keeps f (ret x).
Proof. intros s. reflexivity. Qed.

Lemma keeps_throw {A X} (f : State -> X) e : keeps f (@throw A e).
Proof. intros s. reflexivity. Qed.

Lemma keeps_lift {A X} (f : State -> X) (r : Thrown + A) : keeps f (lift r).
Proof. intros s. reflexivity. Qed.

Lemma keeps_gets {A X} (f : State -> X) (g : State -> A) : keeps f (gets g).
Proof. intros s. reflexivity. Qed.

Lemma keeps_modify {X} (f : State -> X) g :
  (forall s, f (g s) = f s) -> keeps f (modify g).
Proof. intros H s. apply H. Qed.

Lemma keeps_bind {A B X} (f : State -> X) (m : M A) (k : A -> M B) :
  keeps f m -> (forall x, keeps f (k x)) -> keeps f (bind m k).
Proof.
  intros Hm Hk s. unfold bind. specialize (Hm s).
  destruct (m s) as [[e|x] s']; simpl in *; [assumption|].
  rewrite Hk. assumption.
Qed.

Lemma keeps_try_catch {A X} (f : State -> X) (m : M A) h :
  keeps f m -> (forall e, keeps f (h e)) -> keeps f (try_catch m h).
Proof.
  intros Hm Hh s. unfold try_catch. specialize (Hm s).
  destruct (m s) as [[e|x] s']; simpl in *; [|assumption].
  rewrite Hh. assumption.
Qed.

Lemma keeps_bind_or {A B X} (f : State -> X) (m : M A) h (k : A -> M B) :
  keeps f m -> (forall e, keeps f (h e)) -> (forall x, keeps f (k x)) ->
  keeps f (bind_or m h k).
Proof.
  intros Hm Hh Hk s. unfold bind_or. specialize (Hm s).
  destruct (m s) as [[e|x] s']; simpl in *.
  - rewrite Hh. assumption.
  - rewrite Hk. assumption.
Qed.

Lemma keeps_now {X} (f : State -> X) :
  (forall s n, f (with_clock s n) = f s) -> keeps f now.
Proof. intros H s. apply H. Qed.

Lemma keeps_getClient {X} (f : State -> X) name :
  (forall s c, f (with_clients s c) = f s) -> keeps f (factory_getClient name).
Proof.
  intros H s. unfold factory_getClient.
  destruct (getClient _ _ _) as [r c]. apply H.
Qed.

Lemma keeps_generate {X} (f : State -> X) cl p o :
  (forall s c, f (with_calls s c) = f s) ->
  keeps f (client_generateResponse cl p o).
Proof. intros H s. apply H. Qed.

End Keeps.

Ltac keeps_tac :=
  repeat first
    [ apply keeps_ret | apply keeps_throw | apply keeps_lift | apply keeps_gets
    | apply keeps_bind | apply keeps_try_catch | apply keeps_bind_or
    | (apply keeps_now; reflexivity) | (apply keeps_getClient; reflexivity)
    | (apply keeps_generate; reflexivity) | (apply keeps_modify; reflexivity)
    | lazymatch goal with
      | |- keeps _ _ => fail
      | |- forall _, _ => intro
      end
    | match goal with
      | |- keeps _ (if ?b then _ else _) => destruct b
      | |- keeps _ (match ?x with _ => _ end) => destruct x
      end ].

(* ===================================================================== *)
(** ** The hybrid classifier *)
(* ===================================================================== *)

Section Hybrid.
Context {R : JSRuntime} {W : World}.

Lemma model_classify_store p : keeps store (model_classify p).
Proof. unfold model_classify. keeps_tac. Qed.

Lemma model_classify_logs p : keeps requestLogs (model_classify p).
Proof. unfold model_classify. keeps_tac. Qed.

Lemma classify_store p : keeps store (classify p).
Proof.
  unfold classify, getConfidenceThreshold.
  keeps_tac; apply model_classify_store.
Qed.

Lemma classify_logs p : keeps requestLogs (classify p).
Proof.
  unfold classify, getConfidenceThreshold.
  keeps_tac; apply model_classify_logs.
Qed.

(** reading the threshold changes nothing; it fails exactly on a server
    whose environment does not parse *)
Lemma getConfidenceThreshold_cases s :
  (exists thr, getConfidenceThreshold s = (inr thr, s)
               /\ (isServer = false \/ exists env, processEnv = inr env))
  \/ (exists e, getConfidenceThreshold s = (inl e, s)
                /\ isServer = true /\ processEnv = inl e).
Proof.
  unfold getConfidenceThreshold, getServerEnv.
  destruct isServer eqn:E.
  - destruct processEnv as [e|env] eqn:Henv.
    + right. exists e. auto.
    + left. eexists. split; [reflexivity|]. right. exists env. reflexivity.
  - left. eexists. split; [reflexivity|]. left. reflexivity.
Qed.

(** what [classify] returns, for the heuristic result [h] *)
Lemma classify_cases (prompt : string) (s : State)
      (h : HeuristicClassificationResult) :
  h = heuristic_classify prompt ->
  exists c s',
    classify prompt s = (inr c, s')
    /\ heuristicResult c = h
    /\ (forall e, isServer = true -> processEnv = inl e ->
        promptType c = h_promptType h
        /\ confidence c = Qmax 0.1 (h_confidence h * 0.5)
        /\ method c = heuristic
        /\ finalMethod c = "heuristic_fallback"
        /\ modelResult c = None)
    /\ ((isServer = false \/ exists env, processEnv = inr env) ->
        (0.7 <= h_confidence h ->
         promptType c = h_promptType h /\ confidence c = h_confidence h
         /\ method c = heuristic /\ finalMethod c = "heuristic_only"
         /\ modelResult c = None)
        /\ (h_confidence h < 0.7 ->
            match model_classify prompt (tick s) with
            | (inl _, _) =>
                promptType c = h_promptType h
                /\ confidence c = Qmax 0.1 (h_confidence h * 0.5)
                /\ method c = heuristic
                /\ finalMethod c = "heuristic_fallback"
            | (inr m, _) =>
                modelResult c = Some m
                /\ (h_promptType h = m_promptType m ->
                    promptType c = h_promptType h
                    /\ confidence c = Qmax (h_confidence h) (m_confidence m))
                /\ (h_promptType h <> m_promptType m ->
                    (0 < m_confidence m - h_confidence h ->
                     promptType c = m_promptType m
                     /\ confidence c = m_confidence m /\ method c = model)
                    /\ (m_confidence m - h_confidence h <= 0 ->
                        promptType c = h_promptType h
                        /\ confidence c = h_confidence h
                        /\ method c = heuristic))
            end)).
Proof.
  intros Hh. unfold classify. rewrite <- Hh. clear Hh.
  unfold bind at 1. unfold now at 1. fold (tick s).
  set (s1 := tick s).
  unfold try_catch. unfold bind at 1.
  destruct (getConfidenceThreshold_cases s1)
    as [(thr & -> & Hok)|(e & -> & Hsrv & Henv)].
  2:{ (* the threshold cannot be read *)
    unfold bind, now, ret. do 2 eexists. split; [reflexivity|]. simpl.
    split; [reflexivity|]. split.
    { intros _ _ _. repeat split. }
    intros [Hc|(env & He)]; [congruence|congruence]. }
  assert (Hno : forall e, isServer = true -> processEnv = inl e -> False).
  { intros e Hsrv He. destruct Hok as [Hc|(env & Hp)]; congruence. }
  destruct (shouldUseHeuristic (h_confidence h)) eqn:Hs.
  - (* the heuristic is confident *)
    unfold shouldUseHeuristic, JS.Qgeb in Hs. apply Qle_bool_iff in Hs.
    unfold bind, now, ret. do 2 eexists. split; [reflexivity|]. simpl.
    split; [reflexivity|]. split.
    { intros e H1 H2. destruct (Hno e H1 H2). }
    intros _. split.
    { intros _. repeat split. }
    intros Hlt. exfalso. apply (Qlt_not_le _ _ Hlt Hs).
  - unfold shouldUseHeuristic, JS.Qgeb in Hs.
    assert (Hlt : h_confidence h < 0.7).
    { apply Qnot_le_lt. intros L. apply Qle_bool_iff in L. congruence. }
    unfold bind at 1.
    destruct (model_classify prompt s1) as [[e|m] s2].
    + (* the model classifier throws *)
      unfold bind, now, ret. do 2 eexists. split; [reflexivity|]. simpl.
      split; [reflexivity|]. split.
      { intros e0 H1 H2. destruct (Hno e0 H1 H2). }
      intros _. split.
      { intros Hge; exfalso; apply (Qlt_not_le _ _ Hlt Hge). }
      intros _. repeat split.
    + (* both classifiers answered *)
      unfold bind, now, ret. do 2 eexists. split; [reflexivity|]. simpl.
      split; [reflexivity|]. split.
      { intros e0 H1 H2. destruct (Hno e0 H1 H2). }
      intros _. split.
      { intros Hge; exfalso; apply (Qlt_not_le _ _ Hlt Hge). }
      intros _. split; [reflexivity|].
      unfold combineResults.
      destruct (PromptType_eqb (h_promptType h) (m_promptType m)) eqn:Heq.
      * apply PromptType_eqb_eq in Heq. simpl. split.
        -- intros _. split; reflexivity.
        -- intros Hne. contradiction.
      * apply PromptType_eqb_neq in Heq. split; [intros He; contradiction|].
        intros _.
        destruct (JS.Qgtb (m_confidence m - h_confidence h) 0.2) eqn:H2.
        -- apply Qgtb_true in H2. simpl. split.
           ++ intros _. repeat split.
           ++ intros Hle. exfalso.
              assert (0.2 < 0) by (eapply Qlt_le_trans; eauto).
              discriminate.
        -- destruct (JS.Qgtb (m_confidence m - h_confidence h) 0) eqn:H0.
           ++ apply Qgtb_true in H0. simpl. split.
              ** intros _. repeat split.
              ** intros Hle. exfalso. apply (Qlt_not_le _ _ H0 Hle).
           ++ apply Qgtb_false in H0. simpl. split.
              ** intros Hpos. exfalso. apply (Qlt_not_le _ _ Hpos H0).
              ** intros _. repeat split.
Qed.

Lemma classify_total (prompt : string) (s : State) :
  exists c s', classify prompt s = (inr c, s').
Proof.
  destruct (classify_cases prompt s _ eq_refl) as (c & s' & H & _).
  exists c, s'. exact H.
Qed.

(** C9.  [classify] always returns a result [c]; it records the heuristic
    result [h].  It first reads the confidence threshold, which fails on a
    server whose environment does not parse: then [c] has [h]'s category,
    confidence [max(0.1, 0.5 * h)] and [finalMethod =
    "heuristic_fallback"], whatever [h]'s confidence.  When the threshold
    can be read (in the browser, or on a server whose environment parses):
    if [h]'s confidence is at least [0.7], [c] is [h] unchanged with
    [finalMethod = "heuristic_only"].  Otherwise the model classifier runs
    (in the state after the first clock reading): if it throws, [c] has
    [h]'s category, confidence [max(0.1, 0.5 * h)] and [finalMethod =
    "heuristic_fallback"]; if both agree on the category, [c] has that
    category and the higher confidence; if they disagree, [c] is the
    model's result when [modelConfidence - heuristicConfidence > 0] and the
    heuristic's otherwise (the [> 0.2] test changes nothing in the
    category, the confidence or the method). *)
Theorem C9_hybrid_classify (prompt : string) (s : State) :
  exists c s',
    classify prompt s = (inr c, s')
    /\ heuristicResult c = heuristic_classify prompt
    /\ (forall e, isServer = true -> processEnv = inl e ->
        promptType c = h_promptType (heuristicResult c)
        /\ confidence c = Qmax 0.1 (h_confidence (heuristicResult c) * 0.5)
        /\ method c = heuristic
        /\ finalMethod c = "heuristic_fallback"
        /\ modelResult c = None)
    /\ ((isServer = false \/ exists env, processEnv = inr env) ->
        (0.7 <= h_confidence (heuristicResult c) ->
         promptType c = h_promptType (heuristicResult c)
         /\ confidence c = h_confidence (heuristicResult c)
         /\ method c = heuristic /\ finalMethod c = "heuristic_only"
         /\ modelResult c = None)
        /\ (h_confidence (heuristicResult c) < 0.7 ->
            match model_classify prompt (tick s) with
            | (inl _, _) =>
                promptType c = h_promptType (heuristicResult c)
                /\ confidence c
                   = Qmax 0.1 (h_confidence (heuristicResult c) * 0.5)
                /\ method c = heuristic
                /\ finalMethod c = "heuristic_fallback"
            | (inr m, _) =>
                modelResult c = Some m
                /\ (h_promptType (heuristicResult c) = m_promptType m ->
                    promptType c = m_promptType m
                    /\ confidence c
                       = Qmax (h_confidence (heuristicResult c))
                              (m_confidence m))
                /\ (h_promptType (heuristicResult c) <> m_promptType m ->
                    (0 < m_confidence m - h_confidence (heuristicResult c) ->
                     promptType c = m_promptType m
                     /\ confidence c = m_confidence m /\ method c = model)
                    /\ (m_confidence m - h_confidence (heuristicResult c) <= 0 ->
                        promptType c = h_promptType (heuristicResult c)
                        /\ confidence c = h_confidence (heuristicResult c)
                        /\ method c = heuristic))
            end)).
Proof.
  destruct (classify_cases prompt s _ eq_refl)
    as (c & s' & Hrun & Hh & Henv & Hok).
  exists c, s'. split; [exact Hrun|]. split; [exact Hh|].
  rewrite Hh. split; [exact Henv|].
  intros Hread. destruct (Hok Hread) as [Hhi Hlo]. split; [exact Hhi|].
  intros Hlt. specialize (Hlo Hlt).
  destruct (model_classify prompt (tick s)) as [[e|m] s2].
  - exact Hlo.
  - destruct Hlo as (Hm & Hsame & Hdiff). split; [exact Hm|]. split.
    + intros E. destruct (Hsame E) as [Hp Hc]. split; [congruence|exact Hc].
    + exact Hdiff.
Qed.
End Hybrid.

(** C9 as the claim has it, at the prompt [Write a function to implement
    binary search algorithm in python code] on a server whose environment
    does not validate: the heuristic confidence is [0.9], and the result is
    not the heuristic result with [heuristic_only] but the fallback, with
    confidence [0.45]. *)
Lemma C9_env_failure_falls_back :
  exists c s',
    classify (R := sample_runtime) (W := world_env_invalid) code_prompt
      initial_state = (inr c, s')
    /\ h_promptType (heuristicResult c) = CODE
    /\ h_confidence (heuristicResult c) == 0.9
    /\ 0.7 <= h_confidence (heuristicResult c)
    /\ finalMethod c = "heuristic_fallback"
    /\ finalMethod c <> "heuristic_only"
    /\ confidence c == 0.45
    /\ ~ confidence c == h_confidence (heuristicResult c).
Proof.
  do 2 eexists. split; [vm_compute; reflexivity|].
  cbn [heuristicResult finalMethod confidence h_promptType h_confidence].
  split; [reflexivity|]. split; [reflexivity|]. split; [discriminate|].
  split; [reflexivity|]. split; [discriminate|]. split; [reflexivity|].
  discriminate.
Qed.

(* ===================================================================== *)
(** ** The registry and the candidates *)
(* ===================================================================== *)

(** *** the registry *)
Lemma lookup_assign reg name b k :
  lookup (assign reg name b) k
  = if String.eqb k name then option_map (fun c => set_isAvailable c b) (lookup reg k)
    else lookup reg k.
Proof.
  induction reg as [|[k0 c0] reg IH]; simpl.
  - destruct (String.eqb k name); reflexivity.
  - destruct (String.eqb k0 name) eqn:E0; simpl.
    + apply String.eqb_eq in E0. subst k0.
      destruct (String.eqb name k) eqn:E1.
      * apply String.eqb_eq in E1. subst k. rewrite String.eqb_refl. reflexivity.
      * rewrite String.eqb_sym, E1. reflexivity.
    + destruct (String.eqb k0 k) eqn:E1.
      * apply String.eqb_eq in E1. subst k0. rewrite E0. reflexivity.
      * exact IH.
Qed.

Lemma keys_assign reg name b : keys (assign reg name b) = keys reg.
Proof.
  unfold keys. induction reg as [|[k0 c0] reg IH]; simpl; [reflexivity|].
  destruct (String.eqb k0 name); simpl; congruence.
Qed.

Lemma assign_absent reg name b : lookup reg name = None -> assign reg name b = reg.
Proof.
  induction reg as [|[k0 c0] reg IH]; simpl; [reflexivity|].
  destruct (String.eqb k0 name); [discriminate|].
  intros H. rewrite (IH H). reflexivity.
Qed.

Lemma lookup_In_keys reg k c : lookup reg k = Some c -> In k (keys reg).
Proof.
  unfold keys. induction reg as [|[k0 c0] reg IH]; simpl; [discriminate|].
  destruct (String.eqb k0 k) eqn:E.
  - apply String.eqb_eq in E. auto.
  - intros H. right. apply IH. exact H.
Qed.

Lemma In_keys_lookup reg k : In k (keys reg) -> exists c, lookup reg k = Some c.
Proof.
  unfold keys. induction reg as [|[k0 c0] reg IH]; simpl; [tauto|].
  intros [->|H].
  - rewrite String.eqb_refl. eauto.
  - destruct (String.eqb k0 k); eauto.
Qed.

(** *** candidates *)

Lemma getAvailableModels_fold reg promptType estimatedTokens :
  getAvailableModels reg promptType estimatedTokens
  = fold_left
      (fun models key =>
         match lookup reg key with
         | Some c =>
             if passes promptType estimatedTokens c
             then (models ++ [computeDerivedProperties c])%list else models
         | None => models
         end)
      (keys reg) [].
Proof.
  unfold getAvailableModels.
  assert (G : forall ks acc,
             fold_left
               (fun models key =>
                  match getModelByName reg key with
                  | Some config =>
                      if supports config promptType
                      then if (estimatedTokens <=? contextWindow config)%Z
                           then if mc_isAvailable config
                                then (models ++ [config])%list else models
                           else models
                      else models
                  | None => models
                  end) ks acc
             = fold_left
                 (fun models key =>
                    match lookup reg key with
                    | Some c =>
                        if passes promptType estimatedTokens c
                        then (models ++ [computeDerivedProperties c])%list
                        else models
                    | None => models
                    end) ks acc).
  { induction ks as [|k ks IH]; intros acc; simpl; [reflexivity|].
    rewrite IH. f_equal. unfold getModelByName, passes.
    destruct (lookup reg k) as [c|]; simpl; [|reflexivity].
    destruct (supports (computeDerivedProperties c) promptType); simpl; [|reflexivity].
    destruct (estimatedTokens <=? contextWindowTokens c)%Z; simpl; [|reflexivity].
    destruct (isAvailable c) as [[|]|]; reflexivity. }
  apply G.
Qed.

Lemma fold_candidates_In reg promptType estimatedTokens m ks acc :
  In m (fold_left
          (fun models key =>
             match lookup reg key with
             | Some c =>
                 if passes promptType estimatedTokens c
                 then (models ++ [computeDerivedProperties c])%list else models
             | None => models
             end) ks acc)
  <-> In m acc
      \/ exists key c,
           In key ks /\ lookup reg key = Some c
           /\ passes promptType estimatedTokens c = true
           /\ m = computeDerivedProperties c.
Proof.
  revert acc. induction ks as [|k ks IH]; intros acc; simpl.
  - split; [tauto|]. intros [H|(key & c & [] & _)]. exact H.
  - rewrite IH. clear IH.
    destruct (lookup reg k) as [c|] eqn:Ek.
    + destruct (passes promptType estimatedTokens c) eqn:Ep.
      * rewrite in_app_iff. simpl. split.
        -- intros [[H|[H|[]]]|(key & c' & Hin & Hrest)].
           ++ left. exact H.
           ++ right. exists k, c. auto.
           ++ right. exists key, c'. tauto.
        -- intros [H|(key & c' & [<-|Hin] & Hl & Hp & Hm)].
           ++ left. left. exact H.
           ++ left. right. left. congruence.
           ++ right. exists key, c'. tauto.
      * split.
        -- intros [H|(key & c' & Hin & Hrest)]; [tauto|].
           right. exists key, c'. tauto.
        -- intros [H|(key & c' & [<-|Hin] & Hl & Hp & Hm)]; [tauto| |].
           ++ congruence.
           ++ right. exists key, c'. tauto.
    + split.
      * intros [H|(key & c' & Hin & Hrest)]; [tauto|].
        right. exists key, c'. tauto.
      * intros [H|(key & c' & [<-|Hin] & Hl & Hrest)]; [tauto|congruence|].
        right. exists key, c'. tauto.
Qed.

Lemma getAvailableModels_In reg promptType estimatedTokens m :
  In m (getAvailableModels reg promptType estimatedTokens)
  <-> exists key c,
        lookup reg key = Some c
        /\ passes promptType estimatedTokens c = true
        /\ m = computeDerivedProperties c.
Proof.
  rewrite getAvailableModels_fold, fold_candidates_In. simpl. split.
  - intros [[]|(key & c & _ & H)]. exists key, c. exact H.
  - intros (key & c & Hl & H). right. exists key, c.
    split; [eapply lookup_In_keys; eauto|tauto].
Qed.

Lemma passes_available promptType estimatedTokens c :
  passes promptType estimatedTokens c = true -> isAvailable c <> Some false.
Proof.
  unfold passes. intros H E. rewrite E in H.
  rewrite andb_false_r in H. discriminate.
Qed.

Section Route.
Context {R : JSRuntime}.

Lemma scoreModels_In models preset promptType estimatedTokens sm :
  In sm (scoreModels models preset promptType estimatedTokens) ->
  In (sm_config sm) models
  /\ score sm
     = score_of models (PRIORITY_WEIGHTS preset) promptType estimatedTokens
                (sm_config sm).
Proof.
  unfold scoreModels. rewrite sort_desc_In, in_map_iff.
  intros (m & <- & Hm). split; [exact Hm|reflexivity].
Qed.

(** what a successful [routeRequest] returns *)
Lemma routeRequest_inr req s d s' :
  routeRequest req s = (inr d, s') ->
  exists promptType key c,
    rq_promptType req = Some promptType
    /\ s' = with_metrics s (updateMetrics promptType (metrics s))
    /\ lookup (entries (store s)) key = Some c
    /\ passes promptType (JS.ceil_div4 (String.length (rq_prompt req))) c = true
    /\ selectedModel d = modelName c
    /\ rd_promptType d = promptType
    /\ priorityWeights d = PRIORITY_WEIGHTS (rq_priorityPreset req)
    /\ rd_score d
       = JS.or_num
           (score_of
              (getAvailableModels (entries (store s)) promptType
                 (JS.ceil_div4 (String.length (rq_prompt req))))
              (PRIORITY_WEIGHTS (rq_priorityPreset req)) promptType
              (JS.ceil_div4 (String.length (rq_prompt req)))
              (computeDerivedProperties c)) 0.
Proof.
  unfold routeRequest.
  destruct (rq_promptType req) as [promptType|]; [|discriminate].
  unfold bind, modify, gets. cbn [store with_metrics].
  destruct (getAvailableModels _ _ _) as [|m0 ms] eqn:Ea; [discriminate|].
  rewrite <- Ea.
  destruct (scoreModels _ _ _ _) as [|sel rest] eqn:Es; [discriminate|].
  unfold ret. intros H. inversion H; subst d s'; clear H.
  destruct (scoreModels_In _ _ _ _ sel ltac:(rewrite Es; left; reflexivity))
    as [Hin Hscore].
  apply getAvailableModels_In in Hin as (key & c & Hl & Hp & Hm).
  exists promptType, key, c. repeat split; try assumption.
  - cbn [decide selectedModel]. unfold name_of. rewrite Hm. reflexivity.
  - cbn [decide rd_score]. rewrite Hscore, Hm. reflexivity.
Qed.
End Route.

(* ===================================================================== *)
(** ** Priority weights *)
(* ===================================================================== *)




(* ===================================================================== *)
(** ** Truncation *)
(* ===================================================================== *)

(** *** [lastIndexOf] *)

Lemma lastIndexOf_aux_spec s c pos : forall i acc,
  let r := JS.lastIndexOf_aux s c pos i acc in
  (r = acc /\ forall j, (i + j <= pos)%nat -> String.get j s <> Some c)
  \/ (exists j,
        r = Z.of_nat (i + j) /\ (i + j <= pos)%nat /\ String.get j s = Some c
        /\ forall j', (j < j')%nat -> (i + j' <= pos)%nat ->
                      String.get j' s <> Some c).
Proof.
  induction s as [|d s IH]; intros i acc; simpl.
  - left. split; [reflexivity|]. intros j _. destruct j; discriminate.
  - destruct (Nat.ltb_spec pos i) as [Hlt|Hle].
    + left. split; [reflexivity|]. intros j Hj. lia.
    + specialize (IH (S i) (if Ascii.eqb d c then Z.of_nat i else acc)).
      cbv zeta in IH. destruct IH as [[Hr Hnone]|(j & Hr & Hj & Hget & Hlast)].
      * destruct (Ascii.eqb_spec d c) as [->|Hne].
        -- right. exists 0%nat. rewrite Nat.add_0_r. repeat split; auto.
           intros [|j'] Hj' Hle'; [lia|]. simpl. apply Hnone. lia.
        -- left. split; [exact Hr|]. intros [|j] Hj; simpl.
           ++ congruence.
           ++ apply Hnone. lia.
      * right. exists (S j). replace (i + S j)%nat with (S i + j)%nat by lia.
        repeat split; auto.
        intros [|j'] Hj' Hle'; [lia|]. simpl. apply Hlast; lia.
Qed.

(** [lastIndexOf s c pos] is [-1] when no index up to [pos] holds [c], and
    otherwise the greatest such index. *)
Lemma lastIndexOf_spec s c pos :
  (JS.lastIndexOf s c pos = (-1)%Z
   /\ forall j, (j <= pos)%nat -> String.get j s <> Some c)
  \/ (exists j,
        JS.lastIndexOf s c pos = Z.of_nat j /\ (j <= pos)%nat
        /\ String.get j s = Some c
        /\ forall j', (j < j')%nat -> (j' <= pos)%nat -> String.get j' s <> Some c).
Proof.
  unfold JS.lastIndexOf.
  destruct (lastIndexOf_aux_spec s c pos 0 (-1)%Z) as [[Hr Hn]|(j & Hr & Hj & Hg & Hl)].
  - left. split; [exact Hr|]. intros j Hj. apply Hn. simpl. exact Hj.
  - right. exists j. simpl in *. auto.
Qed.

Lemma cut_threshold (cut : Z) :
  JS.Qgtb (inject_Z cut) (inject_Z (Z.of_nat maxResponseLength) * 0.8)
  = (2400 <? cut)%Z.
Proof.
  unfold JS.Qgtb, Qle_bool, maxResponseLength. simpl.
  destruct (Z.leb_spec (cut * 10) 24000); destruct (Z.ltb_spec 2400 cut);
    simpl; try reflexivity; lia.
Qed.

(** the truncation of the code is the truncation of the specification with
    three full stops appended *)
Lemma truncateResponse_spec (text : string) :
  truncateResponse text = truncate_spec "..." text.
Proof.
  unfold truncateResponse, truncate_spec.
  rewrite cut_threshold.
  change maxResponseLength with 3000%nat.
  generalize (JS.lastIndexOf text "." 3000), (JS.lastIndexOf text JS.LF 3000).
  intros a b.
  replace (if (b <? a)%Z then a else b) with (Z.max a b)
    by (destruct (Z.ltb_spec b a); lia).
  generalize 3000%nat. intros n.
  destruct (Nat.ltb_spec n (String.length text));
    destruct (Nat.leb_spec (String.length text) n); try lia; reflexivity.
Qed.

Lemma truncateResponse_short (text : string) :
  (String.length text <= 3000)%nat -> truncateResponse text = (text, false).
Proof.
  intros H. rewrite truncateResponse_spec. unfold truncate_spec.
  apply Nat.leb_le in H. rewrite H. reflexivity.
Qed.

(* ===================================================================== *)
(** ** Runs of the router service *)
(* ===================================================================== *)

(** *** running the monad *)

Lemma bind_inr {A B} (m : M A) (k : A -> M B) s x s' :
  m s = (inr x, s') -> bind m k s = k x s'.
Proof. intros H. unfold bind. rewrite H. reflexivity. Qed.

Lemma bind_inl {A B} (m : M A) (k : A -> M B) s e s' :
  m s = (inl e, s') -> bind m k s = (inl e, s').
Proof. intros H. unfold bind. rewrite H. reflexivity. Qed.

Lemma try_catch_inr {A} (m : M A) h s x s' :
  m s = (inr x, s') -> try_catch m h s = (inr x, s').
Proof. intros H. unfold try_catch. rewrite H. reflexivity. Qed.

Lemma try_catch_inl {A} (m : M A) h s e s' :
  m s = (inl e, s') -> try_catch m h s = h e s'.
Proof. intros H. unfold try_catch. rewrite H. reflexivity. Qed.

Section ServiceRuns.
Context {R : JSRuntime} {W : World}.

Lemma factory_getClient_run name s :
  exists r c, factory_getClient name s = (r, with_clients s c).
Proof.
  unfold factory_getClient. destruct (getClient _ _ _) as [r c].
  exists r, c. reflexivity.
Qed.

Lemma getRequestTimeout_run s :
  getRequestTimeout s = (inr requestTimeout, s).
Proof.
  unfold getRequestTimeout, requestTimeout.
  destruct getServerEnv; reflexivity.
Qed.

Lemma routeRequest_state req promptType s :
  rq_promptType req = Some promptType ->
  snd (routeRequest req s)
  = with_metrics s (updateMetrics promptType (metrics s)).
Proof.
  intros H. unfold routeRequest. rewrite H.
  unfold bind, modify, gets. cbn [store with_metrics].
  destruct (getAvailableModels _ _ _); [reflexivity|].
  destruct (scoreModels _ _ _ _); reflexivity.
Qed.

Lemma handleRoutingError_cases p pr err st u sid t conf s :
  let pt := match t with Some t => t | None => UNKNOWN end in
  exists rcl cc,
    factory_getClient "gpt-4o-mini" s = (rcl, with_clients s cc)
    /\ match rcl with
       | inl _ =>
           handleRoutingError p pr err st u sid t conf s
           = (inl (routingFailed err), with_clients s cc)
       | inr cl =>
           let s2 :=
             with_calls (with_clients s cc)
               (calls s ++ [invocation cl p (fallbackOptions pt)]) in
           match generateResponse (length (calls s)) cl p (fallbackOptions pt) with
           | inl _ =>
               handleRoutingError p pr err st u sid t conf s
               = (inl (routingFailed err), s2)
           | inr resp =>
               exists r e s',
                 handleRoutingError p pr err st u sid t conf s = (inr r, s')
                 /\ store s' = store s
                 /\ calls s' = calls s2
                 /\ requestLogs s' = pushLog (requestLogs s) e
                 /\ log_prompt e = p
                 /\ log_selectedModel e = "gpt-4o-mini"
                 /\ log_costUsd e = 0.00015
                 /\ log_error e = Some (errorMessage err)
                 /\ (response r, wasTruncated r)
                    = truncateResponse (content resp)
                 /\ modelUsed r = "gpt-4o-mini (fallback)"
                 /\ actualCost r = 0.00015
                 /\ costSavings r = 0
                 /\ selectedModel (routingDecision r) = "gpt-4o-mini"
                 /\ rr_promptType r = pt
           end
       end.
Proof.
  intros pt.
  destruct (factory_getClient_run "gpt-4o-mini" s) as (rcl & cc & Hcl).
  exists rcl, cc. split; [exact Hcl|].
  unfold handleRoutingError. fold pt.
  destruct rcl as [e0|cl].
  - erewrite try_catch_inl; [reflexivity|].
    erewrite bind_inl; [reflexivity|exact Hcl].
  - assert (Hgen : client_generateResponse cl p (fallbackOptions pt)
                     (with_clients s cc)
                   = (generateResponse (length (calls s)) cl p (fallbackOptions pt),
                      with_calls (with_clients s cc)
                        (calls s ++ [invocation cl p (fallbackOptions pt)])))
      by reflexivity.
    destruct (generateResponse (length (calls s)) cl p (fallbackOptions pt))
      as [e1|resp].
    + erewrite try_catch_inl; [reflexivity|].
      erewrite bind_inr by exact Hcl.
      erewrite bind_inl; [reflexivity|exact Hgen].
    + do 3 eexists. split.
      { erewrite try_catch_inr; [reflexivity|].
        erewrite bind_inr by exact Hcl.
        erewrite bind_inr by exact Hgen.
        unfold generateRequestId, logRequest, bind, now, gets, modify, ret.
        reflexivity. }
      cbn [store calls requestLogs response wasTruncated modelUsed actualCost
           costSavings routingDecision selectedModel rr_promptType
           log_prompt log_selectedModel log_costUsd log_error
           with_calls with_clients with_clock with_requestLogs].
      repeat split; try reflexivity.
      destruct (truncateResponse (content resp)); reflexivity.
Qed.

Lemma routeClassified_cases p pr st u sid c s :
  let pt := promptType c in
  let s1 := with_metrics s (updateMetrics pt (metrics s)) in
  match fst (routeRequest (classifiedRequest p pr u sid pt) s) with
  | inl e => routeClassified p pr st u sid c s = (inl e, s1)
  | inr d =>
      exists rcl cc,
        factory_getClient (selectedModel d) s1 = (rcl, with_clients s1 cc)
        /\ match rcl with
           | inl e =>
               routeClassified p pr st u sid c s = (inl e, with_clients s1 cc)
           | inr cl =>
               let options := primaryOptions pt requestTimeout in
               let s2 :=
                 with_calls (with_clients s1 cc)
                   (calls s ++ [invocation cl p options]) in
               match generateResponse (length (calls s)) cl p options with
               | inl e =>
                   routeClassified p pr st u sid c s
                   = (inl e,
                      with_store s2
                        (updateModelAvailability (selectedModel d) false
                           (store s)))
               | inr resp =>
                   exists r e s',
                     routeClassified p pr st u sid c s = (inr r, s')
                     /\ store s' = store s
                     /\ calls s' = calls s2
                     /\ requestLogs s' = pushLog (requestLogs s) e
                     /\ log_prompt e = p
                     /\ log_selectedModel e = selectedModel d
                     /\ log_error e = None
                     /\ (response r, wasTruncated r)
                        = truncateResponse
                            (JS.or_str (content resp) "No response generated")
                     /\ modelUsed r = selectedModel d
                     /\ routingDecision r = d
                     /\ rr_promptType r = pt
                     /\ actualCost r
                        = calculateActualCost (entries (store s))
                            (selectedModel d) (String.length p)
                            (String.length (content resp))
                     /\ costSavings r
                        = calculateCostSavings (entries (store s))
                            (actualCost r) pt
               end
           end
  end.
Proof.
  intros pt s1.
  pose proof (routeRequest_state (classifiedRequest p pr u sid pt) pt s eq_refl)
    as Hst. fold s1 in Hst.
  unfold routeClassified. fold pt. fold (classifiedRequest p pr u sid pt).
  destruct (routeRequest (classifiedRequest p pr u sid pt) s) as [[e|d] s1'] eqn:Hrr.
  all: cbn [fst snd] in *; subst s1'.
  - erewrite bind_inl; [reflexivity|exact Hrr].
  - destruct (factory_getClient_run (selectedModel d) s1) as (rcl & cc & Hcl).
    exists rcl, cc. split; [exact Hcl|].
    destruct rcl as [e0|cl].
    + erewrite bind_inr by exact Hrr.
      erewrite bind_inl; [reflexivity|exact Hcl].
    + assert (Hgen : client_generateResponse cl p (primaryOptions pt requestTimeout)
                       (with_clients s1 cc)
                     = (generateResponse (length (calls s)) cl p
                          (primaryOptions pt requestTimeout),
                        with_calls (with_clients s1 cc)
                          (calls s ++ [invocation cl p (primaryOptions pt requestTimeout)])))
        by reflexivity.
      destruct (generateResponse (length (calls s)) cl p
                  (primaryOptions pt requestTimeout)) as [e1|resp].
      * erewrite bind_inr by exact Hrr.
        erewrite bind_inr by exact Hcl.
        erewrite bind_inl; [reflexivity|].
        erewrite try_catch_inl.
        2:{ erewrite bind_inr by apply getRequestTimeout_run. exact Hgen. }
        reflexivity.
      * do 3 eexists. split.
        { erewrite bind_inr by exact Hrr.
          erewrite bind_inr by exact Hcl.
          erewrite bind_inr.
          2:{ erewrite try_catch_inr; [reflexivity|].
              erewrite bind_inr by apply getRequestTimeout_run. exact Hgen. }
          unfold generateRequestId, logRequest, bind, now, gets, modify, ret.
          reflexivity. }
        cbn [store calls requestLogs response wasTruncated modelUsed actualCost
             costSavings routingDecision selectedModel rr_promptType
             log_prompt log_selectedModel log_costUsd log_error
             with_calls with_clients with_clock with_requestLogs with_metrics].
        subst s1. cbn [store calls requestLogs with_metrics].
        repeat split; try reflexivity.
        destruct (truncateResponse _); reflexivity.
Qed.

Lemma routePrompt_cases p pr u sid s :
  exists c s1,
    classify p (tick s) = (inr c, s1)
    /\ store s1 = store s
    /\ requestLogs s1 = requestLogs s
    /\ routePrompt p pr u sid s
       = match routeClassified p pr (Date_now (clock s)) u sid c s1 with
         | (inl e, s2) =>
             handleRoutingError p pr e (Date_now (clock s)) u sid
               (Some (promptType c)) (Some (confidence c)) s2
         | (inr r, s2) => (inr r, s2)
         end.
Proof.
  destruct (classify_total p (tick s)) as (c & s1 & Hc).
  exists c, s1. split; [exact Hc|].
  split. { pose proof (classify_store p (tick s)) as H. rewrite Hc in H. exact H. }
  split. { pose proof (classify_logs p (tick s)) as H. rewrite Hc in H. exact H. }
  unfold routePrompt.
  erewrite bind_inr by reflexivity.
  unfold bind_or. fold (tick s). rewrite Hc.
  unfold try_catch. reflexivity.
Qed.
End ServiceRuns.


Section Summary.
Context {R : JSRuntime} {W : World}.

Lemma routePrompt_summary p pr u sid s :
  marked p pr u sid s (store (snd (routePrompt p pr u sid s)))
  /\ match routePrompt p pr u sid s with
     | (inr r, s') =>
         exists e,
           requestLogs s' = pushLog (requestLogs s) e
           /\ log_prompt e = p
           /\ log_selectedModel e = selectedModel (routingDecision r)
           /\ answered p pr u sid (entries (store s)) e r
     | (inl err, s') =>
         requestLogs s' = requestLogs s
         /\ exists e0, err = routingFailed e0
     end.
Proof.
  destruct (routePrompt_cases p pr u sid s) as (c & s1 & Hc & Hst1 & Hlg1 & ->).
  pose proof (routeClassified_cases p pr (Date_now (clock s)) u sid c s1) as Hrc.
  cbv zeta in Hrc.
  set (req := classifiedRequest p pr u sid (promptType c)) in *.
  destruct (routeRequest req s1) as [[e|d] s2] eqn:Hrr; cbn [fst] in Hrc.
  - (* the engine throws *)
    rewrite Hrc.
    pose proof (handleRoutingError_cases p pr e (Date_now (clock s)) u sid
                  (Some (promptType c)) (Some (confidence c))
                  (with_metrics s1 (updateMetrics (promptType c) (metrics s1))))
      as Hh.
    cbv zeta in Hh. destruct Hh as (rcl & cc & _ & Hh).
    destruct rcl as [e0|cl].
    + rewrite Hh. cbn [snd store with_clients with_metrics requestLogs].
      split; [left; exact Hst1|]. split; [exact Hlg1|eauto].
    + cbn [calls with_metrics] in Hh.
      destruct (generateResponse _ cl p _) as [e1|resp] eqn:Hg.
      * rewrite Hh. cbn [snd store with_calls with_clients with_metrics requestLogs].
        split; [left; exact Hst1|]. split; [exact Hlg1|eauto].
      * destruct Hh as (r & lg & s' & -> & Hs & _ & Hl & Hp & Hm & Hcost & _
                        & Htr & Hmu & Hac & Hcs & Hsel & _).
        cbn [snd store with_metrics requestLogs] in *.
        split; [left; congruence|].
        exists lg. rewrite Hl, Hlg1. repeat split; try congruence.
        do 4 eexists. split; [exact Hg|]. right. auto 10.
  - destruct Hrc as (rcl & cc & _ & Hrc).
    destruct rcl as [e0|cl].
    + (* no client for the selected model *)
      rewrite Hrc.
      pose proof (handleRoutingError_cases p pr e0 (Date_now (clock s)) u sid
                    (Some (promptType c)) (Some (confidence c))
                    (with_clients
                       (with_metrics s1 (updateMetrics (promptType c) (metrics s1)))
                       cc))
        as Hh.
      cbv zeta in Hh. destruct Hh as (rcl & cc' & _ & Hh).
      destruct rcl as [e1|cl].
      * rewrite Hh. cbn [snd store with_clients with_metrics requestLogs].
        split; [left; exact Hst1|]. split; [exact Hlg1|eauto].
      * cbn [calls with_metrics with_clients] in Hh.
        destruct (generateResponse _ cl p _) as [e2|resp] eqn:Hg.
        -- rewrite Hh.
           cbn [snd store with_calls with_clients with_metrics requestLogs].
           split; [left; exact Hst1|]. split; [exact Hlg1|eauto].
        -- destruct Hh as (r & lg & s' & -> & Hs & _ & Hl & Hp & Hm & Hcost & _
                           & Htr & Hmu & Hac & Hcs & Hsel & _).
           cbn [snd store with_metrics with_clients requestLogs] in *.
           split; [left; congruence|].
           exists lg. rewrite Hl, Hlg1. repeat split; try congruence.
           do 4 eexists. split; [exact Hg|]. right. auto 10.
    + destruct (generateResponse (length (calls s1)) cl p
                  (primaryOptions (promptType c) requestTimeout))
        as [e1|resp] eqn:Hg.
      * (* the selected backend throws *)
        rewrite Hrc.
        match goal with
        | |- context [handleRoutingError _ _ _ _ _ _ _ _ ?st] =>
            pose proof (handleRoutingError_cases p pr e1 (Date_now (clock s)) u sid
                          (Some (promptType c)) (Some (confidence c)) st) as Hh
        end.
        cbv zeta in Hh. destruct Hh as (rcl & cc' & _ & Hh).
        assert (Hmark : marked p pr u sid s
                          (updateModelAvailability (selectedModel d) false (store s))).
        { right. exists c, s1, d, s2. auto. }
        destruct rcl as [e2|cl'].
        -- rewrite Hh.
           cbn [snd store with_store with_calls with_clients with_metrics requestLogs].
           rewrite Hst1. split; [exact Hmark|]. split; [exact Hlg1|eauto].
        -- cbn [calls with_store with_calls with_metrics with_clients] in Hh.
           destruct (generateResponse _ cl' p _) as [e3|resp] eqn:Hg'.
           ++ rewrite Hh.
              cbn [snd store with_store with_calls with_clients with_metrics
                   requestLogs].
              rewrite Hst1. split; [exact Hmark|]. split; [exact Hlg1|eauto].
           ++ destruct Hh as (r & lg & s' & -> & Hs & _ & Hl & Hp & Hm & Hcost & _
                              & Htr & Hmu & Hac & Hcs & Hsel & _).
              cbn [snd store with_store with_calls with_metrics with_clients
                   requestLogs] in *.
              rewrite Hs, Hst1. split; [exact Hmark|].
              exists lg. rewrite Hl, Hlg1. repeat split; try congruence.
              do 4 eexists. split; [exact Hg'|]. right. auto 10.
      * (* the selected backend answers *)
        destruct Hrc as (r & lg & s' & -> & Hs & _ & Hl & Hp & Hm & Herr
                         & Htr & Hmu & Hd & Hpt & Hac & Hcs).
        cbn [snd].
        split; [left; congruence|].
        exists lg. rewrite Hl, Hlg1. repeat split; try congruence.
        do 4 eexists. split; [exact Hg|]. left.
        rewrite Hd, Hpt, <- Hst1.
        repeat (split; [solve [auto]|]).
        exists c, s1, s2. split; [reflexivity|exact Hrr].
Qed.
End Summary.

(* ===================================================================== *)
(** ** Logging and truncation of responses *)
(* ===================================================================== *)

(** C5. The outcomes that reach the analytics buffer are the successes: a
    run of [routePrompt] that returns a response, from the selected backend
    or from the fallback backend, appends exactly one entry, for this prompt
    and for the model of the returned decision; a run that ends in an error
    (the final failure, which is always the [Routing failed] error of
    [handleRoutingError]) leaves the buffer as it was. *)
Theorem C5_outcomes_logged {R : JSRuntime} {W : World}
        (p : string) (pr : PriorityPreset) (u sid : option string) (s : State) :
  match routePrompt p pr u sid s with
  | (inr r, s') =>
      exists e,
        requestLogs s' = pushLog (requestLogs s) e
        /\ log_prompt e = p
        /\ log_selectedModel e = selectedModel (routingDecision r)
  | (inl err, s') =>
      requestLogs s' = requestLogs s
      /\ exists e0, err = routingFailed e0
  end.
Proof.
  destruct (routePrompt_summary p pr u sid s) as [_ H].
  destruct (routePrompt p pr u sid s) as [[err|r] s'].
  - exact H.
  - destruct H as (e & H1 & H2 & H3 & _). exists e. auto.
Qed.

(** C5, the final failure: with every backend down the classifier, the
    selected backend and the fallback backend are each invoked once, the
    run ends in the [Routing failed] error, and the buffer is still empty. *)
Lemma C5_final_failure_not_logged :
  exists err s',
    routePrompt (R := sample_runtime) (W := world_all_down)
      summarize_prompt COST None None initial_state = (inl err, s')
    /\ err = ErrorObj "Routing failed: backend down"
    /\ map (fun c => cl_modelName (call_client c)) (calls s')
       = ["gpt-4o-mini"; "openai/gpt-oss-20b:fireworks-ai"; "gpt-4o-mini"]
    /\ requestLogs initial_state = []
    /\ requestLogs s' = [].
Proof.
  destruct (routePrompt (R := sample_runtime) (W := world_all_down)
              summarize_prompt COST None None initial_state)
    as [[err|r] s'] eqn:E; vm_compute in E.
  - exists err, s'. split; [reflexivity|].
    injection E as <- <-. repeat split.
  - discriminate E.
Qed.

(** C6. The buffer after any sequence of appends holds at most 1000
    entries, namely the last 1000 appended, in insertion order; after 1001
    appends the first entry is gone and the other 1000 remain; [logRequest]
    is one such append, and [routePrompt] keeps the bound. *)
Theorem C6_log_buffer :
  (forall es : list RequestLog,
      let buffer := fold_left pushLog es [] in
      (length buffer <= 1000)%nat
      /\ buffer = skipn (length es - 1000) es)
  /\ (forall (first : RequestLog) (rest : list RequestLog),
         length rest = 1000%nat -> fold_left pushLog (first :: rest) [] = rest)
  /\ (forall (log : RequestLog) (s : State),
         requestLogs (snd (logRequest log s)) = pushLog (requestLogs s) log
         /\ (length (requestLogs (snd (logRequest log s))) <= 1000)%nat)
  /\ (forall (R : JSRuntime) (W : World) p pr u sid (s : State),
         (length (requestLogs s) <= 1000)%nat ->
         (length (requestLogs (snd (routePrompt p pr u sid s))) <= 1000)%nat).
Proof.
  split; [|split; [|split]].
  - intros es. cbv zeta. rewrite fold_pushLog. unfold JS.slice_last, maxLogs.
    split; [|reflexivity]. rewrite length_skipn. lia.
  - intros first rest Hlen. rewrite fold_pushLog. unfold JS.slice_last, maxLogs.
    simpl length. rewrite Hlen.
    replace (1001 - 1000)%nat with 1%nat by lia. reflexivity.
  - intros log s. rewrite logRequest_run. cbn [snd requestLogs with_requestLogs].
    split; [reflexivity|]. apply (pushLog_length (requestLogs s) log).
  - intros R W p pr u sid s Hs.
    pose proof (C := routePrompt_summary p pr u sid s). destruct C as [_ H].
    destruct (routePrompt p pr u sid s) as [[err|r] s']; cbn [snd].
    + destruct H as [-> _]. exact Hs.
    + destruct H as (e & -> & _). apply (pushLog_length (requestLogs s) e).
Qed.

(** C7. The truncation block is the rule of the specification with the
    three characters [...] appended after the cut; the response of a
    successful [routePrompt] is that rule applied to the reply of the
    selected backend, an empty reply being replaced by [No response
    generated] first, or to the reply of the fallback backend as it is. *)
Theorem C7_truncation :
  (forall text : string, truncateResponse text = truncate_spec "..." text)
  /\ (forall (R : JSRuntime) (W : World) p pr u sid (s : State),
         match routePrompt p pr u sid s with
         | (inr r, _) =>
             exists n cl o resp,
               generateResponse n cl p o = inr resp
               /\ ((modelUsed r = selectedModel (routingDecision r)
                    /\ (response r, wasTruncated r)
                       = truncate_spec "..."
                           (if String.eqb (content resp) ""
                            then "No response generated" else content resp))
                   \/ (modelUsed r = "gpt-4o-mini (fallback)"
                       /\ (response r, wasTruncated r)
                          = truncate_spec "..." (content resp)))
         | (inl _, _) => True
         end).
Proof.
  split; [exact truncateResponse_spec|].
  intros R W p pr u sid s.
  destruct (routePrompt_summary p pr u sid s) as [_ H].
  destruct (routePrompt p pr u sid s) as [[err|r] s']; [exact I|].
  destruct H as (e & _ & _ & _ & n & cl & o & resp & Hg & H).
  exists n, cl, o, resp. split; [exact Hg|].
  destruct H as [(Hm & Ht & _)|(Hm & _ & Ht & _)]; [left|right];
    (split; [exact Hm|]); rewrite Ht, truncateResponse_spec;
    [destruct (content resp)|]; reflexivity.
Qed.

Lemma length_append (a b : string) :
  String.length (a ++ b) = (String.length a + String.length b)%nat.
Proof. induction a as [|c a IH]; simpl; [reflexivity|]. rewrite IH. reflexivity. Qed.

(** C7, the suffix and the empty reply: a reply of 2500 letters, a full
    stop and 600 letters is cut after the full stop and three full stops
    are appended, so the response is 2504 characters long and is not the
    prefix followed by any single character; an empty reply of the selected
    backend is answered by [No response generated]. *)
Lemma C7_suffix_is_three_dots :
  (exists r s',
      routePrompt (R := sample_runtime) (W := world_up (long_text 2500 600))
        summarize_prompt COST None None initial_state = (inr r, s')
      /\ String.length (long_text 2500 600) = 3101%nat
      /\ Z.max (JS.lastIndexOf (long_text 2500 600) "." 3000)
               (JS.lastIndexOf (long_text 2500 600) JS.LF 3000) = 2500%Z
      /\ wasTruncated r = true
      /\ response r = JS.substring0 (long_text 2500 600) 2501 ++ "..."
      /\ String.length (response r) = 2504%nat
      /\ forall e : ascii,
           response r <> JS.substring0 (long_text 2500 600) 2501 ++ String e "")
  /\ (exists r s',
         routePrompt (R := sample_runtime) (W := world_up "")
           summarize_prompt COST None None initial_state = (inr r, s')
         /\ modelUsed r = selectedModel (routingDecision r)
         /\ response r = "No response generated"
         /\ wasTruncated r = false).
Proof.
  split.
  - do 2 eexists. split; [vm_compute; reflexivity|].
    split; [vm_compute; reflexivity|].
    split; [vm_compute; reflexivity|].
    split; [vm_compute; reflexivity|].
    cbn [response].
    set (prefix := JS.substring0 (long_text 2500 600) 2501).
    assert (Hp : String.length prefix = 2501%nat) by (vm_compute; reflexivity).
    split; [vm_compute; reflexivity|].
    split; [vm_compute; reflexivity|].
    intros e He. apply (f_equal String.length) in He.
    rewrite length_append, Hp in He. simpl in He.
    revert He. vm_compute. discriminate.
  - do 2 eexists. split; [vm_compute; reflexivity|]. repeat split.
Qed.

(* ===================================================================== *)
(** ** Availability *)
(* ===================================================================== *)

(** *** availability *)

Lemma updateModelAvailability_absent name b st :
  lookup (entries st) name = None -> JS.inherited name = false ->
  updateModelAvailability name b st = st.
Proof. unfold updateModelAvailability. intros -> ->. reflexivity. Qed.

Lemma updateModelAvailability_inherited name b st :
  inherits (entries st) name = true ->
  updateModelAvailability name b st
  = {| entries := entries st;
       availabilityCache := availabilityCache st ++ [(name, b)] |}.
Proof.
  unfold inherits, updateModelAvailability.
  destruct (lookup (entries st) name); [discriminate|].
  intros ->. reflexivity.
Qed.

Lemma entries_updateModelAvailability_absent name b st :
  lookup (entries st) name = None ->
  entries (updateModelAvailability name b st) = entries st.
Proof.
  unfold updateModelAvailability. intros ->.
  destruct (JS.inherited name); reflexivity.
Qed.

Lemma lookup_updateModelAvailability name b st k :
  lookup (entries (updateModelAvailability name b st)) k
  = if String.eqb k name
    then option_map (fun c => set_isAvailable c b) (lookup (entries st) k)
    else lookup (entries st) k.
Proof.
  unfold updateModelAvailability.
  destruct (lookup (entries st) name) as [c|] eqn:E; cbn [entries].
  - apply lookup_assign.
  - destruct (JS.inherited name); cbn [entries];
      (destruct (String.eqb_spec k name) as [->|]; [rewrite E|]; reflexivity).
Qed.

Lemma unavailable_mark name st k :
  unavailable (entries st) k ->
  unavailable (entries (updateModelAvailability name false st)) k.
Proof.
  intros (c & Hl & Ha). unfold unavailable.
  rewrite lookup_updateModelAvailability, Hl.
  destruct (String.eqb k name); cbn [option_map]; eauto.
Qed.

Lemma mark_unavailable k c st :
  lookup (entries st) k = Some c ->
  unavailable (entries (updateModelAvailability k false st)) k.
Proof.
  intros Hl. unfold unavailable.
  rewrite lookup_updateModelAvailability, String.eqb_refl, Hl.
  cbn [option_map]. eauto.
Qed.

Lemma lookup_reset ks : forall reg k c,
  lookup reg k = Some c ->
  exists c',
    lookup (fold_left (fun reg name => assign reg name true) ks reg) k = Some c'
    /\ (c' = c \/ c' = set_isAvailable c true)
    /\ (In k ks -> isAvailable c' = Some true).
Proof.
  induction ks as [|a ks IH]; intros reg k c Hl; cbn [fold_left].
  - exists c. split; [exact Hl|]. split; [auto|]. intros [].
  - pose proof (lookup_assign reg a true k) as Ha. rewrite Hl in Ha.
    destruct (String.eqb_spec k a) as [->|Hne]; cbn [option_map] in Ha.
    + destruct (IH _ _ _ Ha) as (c' & H1 & H2 & H3).
      exists c'. split; [exact H1|]. split.
      * right. destruct H2 as [->| ->]; reflexivity.
      * intros _. destruct H2 as [->| ->]; reflexivity.
    + destruct (IH _ _ _ Ha) as (c' & H1 & H2 & H3).
      exists c'. split; [exact H1|]. split; [exact H2|].
      intros [E|Hin]; [congruence|auto].
Qed.

Lemma lookup_resetAll st k c :
  lookup (entries st) k = Some c ->
  lookup (entries (resetAllModelAvailability st)) k = Some (set_isAvailable c true)
  \/ (lookup (entries (resetAllModelAvailability st)) k = Some c
      /\ isAvailable c = Some true).
Proof.
  intros Hl. unfold resetAllModelAvailability. cbn [entries].
  destruct (lookup_reset (keys (entries st)) _ _ _ Hl) as (c' & H1 & H2 & H3).
  specialize (H3 (lookup_In_keys _ _ _ Hl)).
  destruct H2 as [->| ->]; [right|left]; auto.
Qed.

Lemma keys_reset ks : forall reg,
  keys (fold_left (fun reg name => assign reg name true) ks reg) = keys reg.
Proof.
  induction ks as [|a ks IH]; intros reg; cbn [fold_left]; [reflexivity|].
  rewrite IH. apply keys_assign.
Qed.

Lemma resetAll_available st k c' :
  lookup (entries (resetAllModelAvailability st)) k = Some c' ->
  isAvailable c' = Some true.
Proof.
  intros Hl.
  assert (Hk : In k (keys (entries st))).
  { apply lookup_In_keys in Hl. unfold resetAllModelAvailability in Hl.
    cbn [entries] in Hl. rewrite keys_reset in Hl. exact Hl. }
  destruct (In_keys_lookup _ _ Hk) as (c & Hc).
  destruct (lookup_resetAll _ _ _ Hc) as [H|[H Ha]]; rewrite H in Hl;
    injection Hl as <-; [reflexivity|exact Ha].
Qed.

Lemma passes_set_true promptType estimatedTokens c :
  passes promptType estimatedTokens (set_isAvailable c true)
  = supports (computeDerivedProperties c) promptType
    && (estimatedTokens <=? contextWindowTokens c)%Z.
Proof. unfold passes. cbn. rewrite andb_true_r. reflexivity. Qed.

Section Reach.
Context {R : JSRuntime} {W : World}.

Lemma routePrompt_store p pr u sid s :
  store (snd (routePrompt p pr u sid s)) = store s
  \/ exists name,
       store (snd (routePrompt p pr u sid s))
       = updateModelAvailability name false (store s).
Proof.
  destruct (routePrompt_summary p pr u sid s) as [[H|(c & s1 & d & s2 & _ & _ & _ & H)] _].
  - left. exact H.
  - right. eauto.
Qed.

Lemma routeRequest_store req s : store (snd (routeRequest req s)) = store s.
Proof.
  destruct (rq_promptType req) as [promptType|] eqn:E.
  - rewrite (routeRequest_state req promptType s E). reflexivity.
  - unfold routeRequest. rewrite E. reflexivity.
Qed.

Lemma step_store s s' :
  step s s' ->
  store s' = store s
  \/ exists name, store s' = updateModelAvailability name false (store s).
Proof.
  intros [name s0|req s0|p pr u sid s0|s0].
  - right. exists name. reflexivity.
  - left. apply routeRequest_store.
  - apply routePrompt_store.
  - left. reflexivity.
Qed.

Lemma runs_unavailable k s s' :
  runs s s' ->
  unavailable (entries (store s)) k -> unavailable (entries (store s')) k.
Proof.
  induction 1 as [|s1 s2 s3 _ IH Hst]; intros Hu; [exact Hu|].
  specialize (IH Hu).
  destruct (step_store _ _ Hst) as [->|(name & ->)]; [exact IH|].
  apply unavailable_mark. exact IH.
Qed.
End Reach.

Lemma routeRequest_excludes {R : JSRuntime} k ck s req d s' :
  lookup (entries (store s)) k = Some ck ->
  isAvailable ck = Some false ->
  routeRequest req s = (inr d, s') ->
  (exists k' c',
      k' <> k
      /\ lookup (entries (store s)) k' = Some c'
      /\ isAvailable c' <> Some false
      /\ selectedModel d = modelName c')
  /\ (names_distinct (entries (store s)) -> selectedModel d <> modelName ck).
Proof.
  intros Hk Ha Hr.
  destruct (routeRequest_inr _ _ _ _ Hr)
    as (pt & k' & c' & _ & _ & Hl & Hp & Hsel & _).
  pose proof (passes_available _ _ _ Hp) as Hav.
  assert (Hne : k' <> k) by (intros ->; congruence).
  split.
  - exists k', c'. auto.
  - intros Hd E. apply Hne. apply (Hd k' c' k ck Hl Hk). congruence.
Qed.

(** C2. Take a registry key [k] and any state reached from
    [markModelUnavailable k] by further marks, routing decisions, routed
    prompts and metric resets, without a reset of availability.  There the
    flag of [k] is [false]; every decision of the routing engine, whatever
    the request, selects an entry at another key whose flag is not [false]
    (and, when provider model names are distinct, a name other than that of
    [k]); every response of [routePrompt] comes from the static fallback or
    carries such a decision.  [resetAllModelAvailability] then sets every
    flag to [true], and [k] is again a candidate for every category it
    lists and every prompt that fits its context window. *)
Theorem C2_unavailable_until_reset {R : JSRuntime} {W : World}
        (k : string) (c : BaseModelConfig) (s0 s : State) :
  lookup (entries (store s0)) k = Some c ->
  runs (snd (markModelUnavailable k s0)) s ->
  exists ck,
    lookup (entries (store s)) k = Some ck
    /\ isAvailable ck = Some false
    /\ (forall req d s',
           routeRequest req s = (inr d, s') ->
           (exists k' c',
               k' <> k
               /\ lookup (entries (store s)) k' = Some c'
               /\ isAvailable c' <> Some false
               /\ selectedModel d = modelName c')
           /\ (names_distinct (entries (store s)) ->
               selectedModel d <> modelName ck))
    /\ (forall p pr u sid r s',
           routePrompt p pr u sid s = (inr r, s') ->
           modelUsed r = "gpt-4o-mini (fallback)"
           \/ exists k' c',
                k' <> k
                /\ lookup (entries (store s)) k' = Some c'
                /\ selectedModel (routingDecision r) = modelName c')
    /\ (let st := resetAllModelAvailability (store s) in
        (forall k' c', lookup (entries st) k' = Some c' ->
                       isAvailable c' = Some true)
        /\ exists c',
             lookup (entries st) k = Some c'
             /\ forall promptType estimatedTokens,
                  supports (computeDerivedProperties ck) promptType = true ->
                  (estimatedTokens <= contextWindowTokens ck)%Z ->
                  In (computeDerivedProperties c')
                     (getAvailableModels (entries st) promptType
                        estimatedTokens)).
Proof.
  intros Hc Hruns.
  assert (Hu : unavailable (entries (store s)) k).
  { apply (runs_unavailable k _ _ Hruns).
    cbn [markModelUnavailable modify snd store with_store].
    apply (mark_unavailable k c). exact Hc. }
  destruct Hu as (ck & Hk & Ha).
  exists ck. split; [exact Hk|]. split; [exact Ha|]. split; [|split].
  - intros req d s' Hr. exact (routeRequest_excludes k ck s req d s' Hk Ha Hr).
  - intros p pr u sid r s' Hrun.
    destruct (routePrompt_summary p pr u sid s) as [_ H]. rewrite Hrun in H.
    destruct H as (e & _ & _ & _ & n & cl & o & resp & _ & H).
    destruct H as [(_ & _ & _ & _ & _ & c0 & s1 & s2 & Hreg & Hr)|(Hm & _)];
      [right|left; exact Hm].
    rewrite <- Hreg in Hk.
    destruct (routeRequest_excludes k ck s1 _ _ _ Hk Ha Hr)
      as [(k' & c' & H1 & H2 & _ & H3) _].
    exists k', c'. rewrite <- Hreg. auto.
  - cbv zeta. split; [apply resetAll_available|].
    destruct (lookup_resetAll _ _ _ Hk) as [H|[_ H]]; [|congruence].
    exists (set_isAvailable ck true). split; [exact H|].
    intros pt est Hs Hctx. apply getAvailableModels_In.
    exists k, (set_isAvailable ck true). split; [exact H|]. split; [|reflexivity].
    rewrite passes_set_true, Hs. apply Z.leb_le in Hctx. rewrite Hctx. reflexivity.
Qed.

(** C2 at the key [gpt-5] of the initial registry, after one further
    routing decision. *)
Lemma C2_unavailable_until_reset_witness :
  exists ck,
    lookup
      (entries
         (store
            (snd (routeRequest (R := sample_runtime)
                    (request summarize_prompt SUMMARIZE COST)
                    (snd (markModelUnavailable "gpt-5" initial_state))))))
      "gpt-5" = Some ck
    /\ isAvailable ck = Some false.
Proof.
  assert (H : exists c, lookup (entries (store initial_state)) "gpt-5" = Some c)
    by (eexists; reflexivity).
  destruct H as [c Hc].
  destruct (C2_unavailable_until_reset (R := sample_runtime) (W := world_all_down)
              "gpt-5" c initial_state _ Hc
              (runs_step _ _ _ (runs_refl _)
                 (step_route (R := sample_runtime) (W := world_all_down)
                    (request summarize_prompt SUMMARIZE COST) _)))
    as (ck & H1 & H2 & _).
  exists ck. split; assumption.
Defined.


Lemma lookup_In reg k c : lookup reg k = Some c -> In (k, c) reg.
Proof.
  induction reg as [|[k0 c0] reg IH]; simpl; [discriminate|].
  destruct (String.eqb_spec k0 k) as [->|].
  - intros [= ->]. left. reflexivity.
  - intros H. right. apply IH. exact H.
Qed.

(** C4. [updateModelAvailability] with a name that is not a registry key
    leaves the registry as it was: no entry changes.  The store is returned
    whole unless the name is one that objects inherit from
    [Object.prototype]; for such a name the test of the source succeeds and
    the update is still written to the availability cache.  In
    [MODEL_REGISTRY] the entry at key [gpt-oss-20b] has the provider model
    name [openai/gpt-oss-20b:fireworks-ai], which is neither a key nor an
    inherited name, and no entry has the provider model name
    [gpt-oss-20b].  [routePrompt] marks the provider model name of its
    decision, so a run whose decision carries a name that is not a key
    leaves the registry as it was, whatever the backends do; and an entry
    whose key is no entry's provider model name keeps its flag through
    every run and stays a candidate wherever it was one. *)
Theorem C4_unknown_name_frame :
  (forall name flag st,
      lookup (entries st) name = None ->
      entries (updateModelAvailability name flag st) = entries st
      /\ (JS.inherited name = false ->
          updateModelAvailability name flag st = st)
      /\ (JS.inherited name = true ->
          availabilityCache (updateModelAvailability name flag st)
          = (availabilityCache st ++ [(name, flag)])%list))
  /\ (exists c,
         lookup MODEL_REGISTRY "gpt-oss-20b" = Some c
         /\ modelName c = "openai/gpt-oss-20b:fireworks-ai"
         /\ isAvailable c = Some true
         /\ lookup MODEL_REGISTRY (modelName c) = None
         /\ JS.inherited (modelName c) = false
         /\ forall k' c', lookup MODEL_REGISTRY k' = Some c' ->
                          modelName c' <> "gpt-oss-20b")
  /\ (forall (R : JSRuntime) (W : World) p pr u sid s c s1 d s2,
         classify p (tick s) = (inr c, s1) ->
         routeRequest (classifiedRequest p pr u sid (promptType c)) s1
         = (inr d, s2) ->
         lookup (entries (store s)) (selectedModel d) = None ->
         entries (store (snd (routePrompt p pr u sid s))) = entries (store s)
         /\ (JS.inherited (selectedModel d) = false ->
             store (snd (routePrompt p pr u sid s)) = store s))
  /\ (forall (R : JSRuntime) (W : World) p pr u sid s k ck,
         lookup (entries (store s)) k = Some ck ->
         (forall k' c', lookup (entries (store s)) k' = Some c' ->
                        modelName c' <> k) ->
         lookup (entries (store (snd (routePrompt p pr u sid s)))) k = Some ck
         /\ forall promptType estimatedTokens,
              passes promptType estimatedTokens ck = true ->
              In (computeDerivedProperties ck)
                 (getAvailableModels
                    (entries (store (snd (routePrompt p pr u sid s))))
                    promptType estimatedTokens)).
Proof.
  split; [|split; [|split]].
  - intros name flag st Hn.
    split; [apply entries_updateModelAvailability_absent; exact Hn|]. split.
    + apply updateModelAvailability_absent. exact Hn.
    + intros Hi. rewrite updateModelAvailability_inherited; [reflexivity|].
      unfold inherits. rewrite Hn. exact Hi.
  - eexists. split; [reflexivity|]. repeat (split; [reflexivity|]).
    intros k' c' Hl. apply lookup_In in Hl.
    assert (F : forallb (fun e => negb (String.eqb (modelName (snd e)) "gpt-oss-20b"))
                        MODEL_REGISTRY = true) by (vm_compute; reflexivity).
    rewrite forallb_forall in F. specialize (F _ Hl). cbn [snd] in F.
    intros E. rewrite E in F. discriminate F.
  - intros R W p pr u sid s c s1 d s2 Hc Hr Hn.
    destruct (routePrompt_summary p pr u sid s) as [[H|H] _].
    { rewrite H. split; [reflexivity|intros _; reflexivity]. }
    destruct H as (c' & s1' & d' & s2' & Hc' & _ & Hr' & ->).
    rewrite Hc in Hc'. injection Hc' as <- <-.
    rewrite Hr in Hr'. injection Hr' as <- <-.
    split; [apply entries_updateModelAvailability_absent; exact Hn|].
    apply updateModelAvailability_absent. exact Hn.
  - intros R W p pr u sid s k ck Hk Hnames.
    assert (Hk' : lookup (entries (store (snd (routePrompt p pr u sid s)))) k
                  = Some ck).
    { destruct (routePrompt_summary p pr u sid s) as [[->|H] _]; [exact Hk|].
      destruct H as (c & s1 & d & s2 & _ & Hst & Hr & ->).
      destruct (routeRequest_inr _ _ _ _ Hr)
        as (pt & k' & c' & _ & _ & Hl & _ & Hsel & _).
      rewrite Hst in Hl. rewrite lookup_updateModelAvailability, Hsel.
      destruct (String.eqb_spec k (modelName c')) as [E|_]; [|exact Hk].
      exfalso. apply (Hnames k' c' Hl). congruence. }
    split; [exact Hk'|].
    intros pt est Hp. apply getAvailableModels_In. exists k, ck. auto.
Qed.

(** C3, at the prompt [Summarize the key points of machine learning] with
    the [COST] preset and the Hugging Face backend down.  The classifier,
    the selected backend [openai/gpt-oss-20b:fireworks-ai] and the fallback
    backend [gpt-4o-mini] are each invoked once, the fallback with
    temperature 0.7, a timeout of 30000 ms and 1500 tokens, and its reply is
    returned at the assumed cost 0.00015.  The failed model is not marked:
    the store is the initial one, the entry at [gpt-oss-20b] still has its
    flag [true], and the next decision selects the same model again. *)
Theorem C3_failed_model_not_marked :
  exists r s',
    routePrompt (R := sample_runtime) (W := world_hf_down "ok")
      summarize_prompt COST None None initial_state = (inr r, s')
    /\ map (fun c => (cl_modelName (call_client c), call_options c)) (calls s')
       = [("gpt-4o-mini",
           {| maxTokens := Some 200; temperature := Some 0.1;
              timeoutMs := None;
              systemPrompt :=
                Some "You are a prompt classification expert. Analyze the given prompt and classify it into one of the specified categories." |});
          ("openai/gpt-oss-20b:fireworks-ai",
           {| maxTokens := Some 1500; temperature := Some 0.3;
              timeoutMs := Some 30000; systemPrompt := None |});
          ("gpt-4o-mini",
           {| maxTokens := Some 1500; temperature := Some 0.7;
              timeoutMs := Some 30000; systemPrompt := None |})]
    /\ generateResponse (World := world_hf_down "ok") 1
         {| cl_provider := HUGGINGFACE;
            cl_modelName := "openai/gpt-oss-20b:fireworks-ai" |}
         summarize_prompt (primaryOptions SUMMARIZE 30000)
       = inl (ErrorObj "HF router unavailable")
    /\ modelUsed r = "gpt-4o-mini (fallback)"
    /\ response r = "ok"
    /\ actualCost r = 0.00015
    /\ store s' = store initial_state
    /\ (exists c,
           lookup (entries (store s')) "gpt-oss-20b" = Some c
           /\ modelName c = "openai/gpt-oss-20b:fireworks-ai"
           /\ isAvailable c = Some true)
    /\ exists d s'',
         routeRequest (R := sample_runtime)
           (request summarize_prompt SUMMARIZE COST) s' = (inr d, s'')
         /\ selectedModel d = "openai/gpt-oss-20b:fireworks-ai".
Proof.
  do 2 eexists. split; [vm_compute; reflexivity|].
  split; [vm_compute; reflexivity|].
  split; [reflexivity|].
  split; [reflexivity|].
  split; [reflexivity|].
  split; [reflexivity|].
  split; [reflexivity|].
  split; [eexists; split; [reflexivity|split; reflexivity]|].
  do 2 eexists. split; [vm_compute; reflexivity|]. reflexivity.
Qed.

(* ===================================================================== *)
(** ** Cost savings *)
(* ===================================================================== *)

Lemma or_num_0 x : JS.or_num x 0 == x.
Proof.
  unfold JS.or_num. destruct (Qeq_bool x 0) eqn:E; [|reflexivity].
  apply Qeq_bool_iff in E. symmetry. exact E.
Qed.

Lemma insert_desc_hd {A} (key : A -> Q) a l x r :
  JS.insert_desc key a l = x :: r ->
  match l with
  | [] => x = a
  | y :: _ => (key a < key y /\ x = y) \/ (key y <= key a /\ x = a)
  end.
Proof.
  destruct l as [|y l]; simpl.
  - intros [= <- _]. reflexivity.
  - destruct (JS.Qgtb (key y) (key a)) eqn:E; intros [= <- _].
    + left. split; [apply Qgtb_true; exact E|reflexivity].
    + right. split; [apply Qgtb_false; exact E|reflexivity].
Qed.

Lemma sort_desc_hd {A} (key : A -> Q) l :
  forall x r, JS.sort_desc key l = x :: r ->
              forall y, In y l -> key y <= key x.
Proof.
  induction l as [|a l IH]; intros x r H y Hy; [destruct Hy|].
  simpl in H. apply insert_desc_hd in H.
  destruct (JS.sort_desc key l) as [|z l'] eqn:E.
  - subst x. destruct Hy as [->|Hy]; [apply Qle_refl|].
    apply (sort_desc_In key) in Hy. rewrite E in Hy. destruct Hy.
  - specialize (IH z l' eq_refl).
    destruct H as [[Hlt ->]|[Hle ->]]; destruct Hy as [->|Hy].
    + apply Qlt_le_weak. exact Hlt.
    + apply IH. exact Hy.
    + apply Qle_refl.
    + apply Qle_trans with (key z); [apply IH; exact Hy|exact Hle].
Qed.

Lemma sort_desc_nil {A} (key : A -> Q) l : JS.sort_desc key l = [] -> l = [].
Proof.
  destruct l as [|a l]; [reflexivity|]. intros H.
  assert (Ha : In a (JS.sort_desc key (a :: l))) by (apply sort_desc_In; left; reflexivity).
  rewrite H in Ha. destruct Ha.
Qed.

Lemma max_with_ub l : forall d,
  d <= JS.max_with d l /\ forall y, In y l -> y <= JS.max_with d l.
Proof.
  unfold JS.max_with. induction l as [|a l IH]; intros d; simpl.
  - split; [apply Qle_refl|]. intros y [].
  - destruct (IH (Qmax d a)) as [H1 H2]. split.
    + apply Qle_trans with (Qmax d a); [apply Q.le_max_l|exact H1].
    + intros y [->|Hy]; [|apply H2; exact Hy].
      apply Qle_trans with (Qmax d y); [apply Q.le_max_r|exact H1].
Qed.

Lemma max_with_attained l : forall d,
  JS.max_with d l == d \/ exists y, In y l /\ JS.max_with d l == y.
Proof.
  unfold JS.max_with. induction l as [|a l IH]; intros d; simpl.
  - left. reflexivity.
  - destruct (IH (Qmax d a)) as [H|(y & Hy & H)].
    + destruct (Q.max_spec d a) as [[_ E]|[_ E]].
      * right. exists a. split; [left; reflexivity|]. rewrite H. exact E.
      * left. rewrite H. exact E.
    + right. exists y. split; [right; exact Hy|exact H].
Qed.

Lemma calculateActualCost_nonneg reg name i o :
  well_priced reg -> 0 <= calculateActualCost reg name i o.
Proof.
  intros Hw. unfold calculateActualCost.
  destruct (lookup reg name) as [c|] eqn:E; [|apply Qle_refl].
  apply lookup_In in E.
  assert (Hc : In c (values reg)).
  { unfold values. apply in_map_iff. exists (name, c). auto. }
  destruct (Hw c Hc) as (H1 & H2 & _). cbv zeta.
  assert (Hi : 0 <= inject_Z (JS.ceil_div4 i) / 1000000).
  { apply Qdiv_nonneg; [|discriminate].
    change 0 with (inject_Z 0). rewrite <- Zle_Qle.
    unfold JS.ceil_div4. apply Z.div_pos; lia. }
  assert (Ho : 0 <= inject_Z (JS.ceil_div4 o) / 1000000).
  { apply Qdiv_nonneg; [|discriminate].
    change 0 with (inject_Z 0). rewrite <- Zle_Qle.
    unfold JS.ceil_div4. apply Z.div_pos; lia. }
  pose proof (Qmult_le_0_compat _ _ Hi H1).
  pose proof (Qmult_le_0_compat _ _ Ho H2).
  lra.
Qed.

Lemma expensive_candidates reg t m :
  In m (filter (fun m => supports m t)
          (flat_map (fun baseConfig =>
                       match getModelByName reg (modelName baseConfig) with
                       | Some m => [m]
                       | None => []
                       end)
                    (values reg)))
  <-> exists c c',
        In c (values reg)
        /\ lookup reg (modelName c) = Some c'
        /\ m = computeDerivedProperties c'
        /\ supports (computeDerivedProperties c') t = true.
Proof.
  rewrite filter_In, in_flat_map. unfold getModelByName. split.
  - intros [(c & Hc & Hm) Hs].
    destruct (lookup reg (modelName c)) as [c'|] eqn:E; cbn [option_map] in Hm;
      [|destruct Hm].
    destruct Hm as [<-|[]]. exists c, c'. auto.
  - intros (c & c' & Hc & Hl & -> & Hs). split; [|exact Hs].
    exists c. split; [exact Hc|]. rewrite Hl. left. reflexivity.
Qed.

Lemma maxCost_cases reg t :
  maxCost reg t == 0
  \/ exists c,
       In c (values reg)
       /\ supports (computeDerivedProperties c) t = true
       /\ maxCost reg t == priceInputPerMillion c / 1000.
Proof.
  unfold maxCost.
  destruct (max_with_attained
              (map (fun c => priceInputPerMillion c / 1000)
                   (filter (fun c => existsb (PromptType_eqb t)
                                             (map fst (qualityPriorByType c)))
                           (values reg))) 0) as [H|(y & Hy & H)].
  - left. exact H.
  - right. apply in_map_iff in Hy. destruct Hy as (c & <- & Hc).
    apply filter_In in Hc. destruct Hc as [Hc Hs]. exists c. auto.
Qed.

Lemma maxCost_ub reg t c :
  In c (values reg) ->
  supports (computeDerivedProperties c) t = true ->
  priceInputPerMillion c / 1000 <= maxCost reg t.
Proof.
  intros Hc Hs. unfold maxCost. apply max_with_ub.
  apply in_map_iff. exists c. split; [reflexivity|].
  apply filter_In. split; [exact Hc|exact Hs].
Qed.

Lemma calculateCostSavings_spec reg actualCost t :
  well_priced reg -> 0 <= actualCost ->
  calculateCostSavings reg actualCost t == Qmax 0 (maxCost reg t - actualCost).
Proof.
  intros Hw Ha. unfold calculateCostSavings, mostExpensiveModel.
  set (key := fun m : ModelConfig => JS.or_num (inputCostPer1kTokens m) 0).
  set (L := filter _ _).
  assert (HL : forall m, In m L <->
                 exists c c', In c (values reg)
                   /\ lookup reg (modelName c) = Some c'
                   /\ m = computeDerivedProperties c'
                   /\ supports (computeDerivedProperties c') t = true)
    by (intros m; apply expensive_candidates).
  clearbody L.
  (* a candidate of the code is a candidate of the specification *)
  assert (A : forall m, In m L ->
                inputCostPer1kTokens m <= maxCost reg t
                /\ 0 <= inputCostPer1kTokens m).
  { intros m Hm. apply HL in Hm. destruct Hm as (c & c' & Hc & Hl & -> & Hs).
    destruct (Hw c Hc) as (Hp & _ & Hres). rewrite Hl in Hres.
    destruct Hres as [Hprice Hprior].
    cbn [inputCostPer1kTokens computeDerivedProperties]. rewrite Hprice. split.
    - apply maxCost_ub; [exact Hc|].
      unfold supports in *. cbn [capabilities computeDerivedProperties] in *.
      rewrite <- Hprior. exact Hs.
    - apply Qdiv_nonneg; [exact Hp|discriminate]. }
  (* a candidate of the specification is one of the code, or costs nothing *)
  assert (B : forall c, In c (values reg) ->
                supports (computeDerivedProperties c) t = true ->
                priceInputPerMillion c == 0
                \/ exists m, In m L
                     /\ inputCostPer1kTokens m == priceInputPerMillion c / 1000).
  { intros c Hc Hs. destruct (Hw c Hc) as (_ & _ & Hres).
    destruct (lookup reg (modelName c)) as [c'|] eqn:Hl; [right|left; exact Hres].
    destruct Hres as [Hprice Hprior].
    exists (computeDerivedProperties c'). split.
    - apply HL. exists c, c'. repeat split; try assumption.
      unfold supports in *. cbn [capabilities computeDerivedProperties] in *.
      rewrite Hprior. exact Hs.
    - cbn [inputCostPer1kTokens computeDerivedProperties]. rewrite Hprice.
      reflexivity. }
  destruct (JS.sort_desc key L) as [|x r] eqn:E; cbn [hd_error].
  - apply sort_desc_nil in E. subst L.
    assert (Hz : maxCost reg t == 0).
    { destruct (maxCost_cases reg t) as [H|(c & Hc & Hs & H)]; [exact H|].
      destruct (B c Hc Hs) as [Hp|(m & [] & _)]. rewrite H, Hp. reflexivity. }
    rewrite Hz. symmetry. apply Q.max_l. lra.
  - assert (Hx : In x L) by (apply (sort_desc_In key); rewrite E; left; reflexivity).
    pose proof (sort_desc_hd key L x r E) as Hmax.
    destruct (A x Hx) as [Hle Hpos].
    assert (Hge : maxCost reg t <= inputCostPer1kTokens x).
    { destruct (maxCost_cases reg t) as [H|(c & Hc & Hs & H)]; [rewrite H; exact Hpos|].
      rewrite H. destruct (B c Hc Hs) as [Hp|(m & Hm & Hcost)].
      - rewrite Hp. setoid_replace (0 / 1000) with 0 by reflexivity. exact Hpos.
      - rewrite <- Hcost. specialize (Hmax m Hm). unfold key in Hmax.
        rewrite !or_num_0 in Hmax. exact Hmax. }
    cbv zeta.
    assert (Heq : 1000 / 1000 * inputCostPer1kTokens x - actualCost
                  == maxCost reg t - actualCost).
    { assert (E1 : inputCostPer1kTokens x == maxCost reg t)
        by (apply Qle_antisym; assumption).
      rewrite E1. field. }
    rewrite Heq. reflexivity.
Qed.

Lemma well_priced_initial : well_priced MODEL_REGISTRY.
Proof.
  intros c Hc. unfold values in Hc. cbn [MODEL_REGISTRY map snd] in Hc.
  repeat (destruct Hc as [<-|Hc];
          [vm_compute; repeat split; discriminate|]).
  destruct Hc.
Qed.

(** C10. On a registry with well-formed prices a response of the selected
    backend carries [costSavings = max(0, maxCost - actualCost)], where
    [maxCost] is a thousandth of the highest [priceInputPerMillion] among
    the models whose quality-prior table contains the category; a response
    of the fallback backend carries [costSavings = 0] and the assumed
    [actualCost = 0.00015]. *)
Theorem C10_cost_savings {R : JSRuntime} {W : World}
        (p : string) (pr : PriorityPreset) (u sid : option string) (s : State) :
  well_priced (entries (store s)) ->
  match routePrompt p pr u sid s with
  | (inr r, _) =>
      (modelUsed r = selectedModel (routingDecision r)
       /\ costSavings r
          == Qmax 0 (maxCost (entries (store s)) (rr_promptType r)
                     - actualCost r))
      \/ (modelUsed r = "gpt-4o-mini (fallback)"
          /\ costSavings r == 0
          /\ actualCost r == 0.00015)
  | (inl _, _) => True
  end.
Proof.
  intros Hw.
  destruct (routePrompt_summary p pr u sid s) as [_ H].
  destruct (routePrompt p pr u sid s) as [[err|r] s']; [exact I|].
  destruct H as (e & _ & _ & _ & n & cl & o & resp & _ & H).
  destruct H as [(Hm & _ & Hac & Hcs & _)|(Hm & _ & _ & Hac & Hcs & _)].
  - left. split; [exact Hm|]. rewrite Hcs.
    apply calculateCostSavings_spec; [exact Hw|].
    rewrite Hac. apply calculateActualCost_nonneg. exact Hw.
  - right. rewrite Hac, Hcs. split; [exact Hm|]. split; reflexivity.
Qed.

(** C10 on the initial registry, every backend answering. *)
Lemma C10_cost_savings_witness :
  well_priced (entries (store initial_state))
  /\ match routePrompt (R := sample_runtime) (W := world_up "ok")
             summarize_prompt COST None None initial_state with
     | (inr r, _) =>
         (modelUsed r = selectedModel (routingDecision r)
          /\ costSavings r
             == Qmax 0 (maxCost (entries (store initial_state)) (rr_promptType r)
                        - actualCost r))
         \/ (modelUsed r = "gpt-4o-mini (fallback)"
             /\ costSavings r == 0
             /\ actualCost r == 0.00015)
     | (inl _, _) => True
     end.
Proof.
  split; [exact well_priced_initial|].
  apply (C10_cost_savings (R := sample_runtime) (W := world_up "ok")).
  exact well_priced_initial.
Defined.

(** C10, a fallback success: the Hugging Face backend is down, the fallback
    backend answers, and the response carries [costSavings = 0] although
    [max(0, maxCost - actualCost)] is [0.00285]. *)
Lemma C10_fallback_reports_no_savings :
  exists r s',
    routePrompt (R := sample_runtime) (W := world_hf_down "ok")
      summarize_prompt COST None None initial_state = (inr r, s')
    /\ modelUsed r = "gpt-4o-mini (fallback)"
    /\ rr_promptType r = SUMMARIZE
    /\ costSavings r == 0
    /\ actualCost r == 0.00015
    /\ maxCost (entries (store initial_state)) (rr_promptType r) == 0.003
    /\ Qmax 0 (maxCost (entries (store initial_state)) (rr_promptType r)
               - actualCost r) == 0.00285
    /\ ~ costSavings r
         == Qmax 0 (maxCost (entries (store initial_state)) (rr_promptType r)
                    - actualCost r).
Proof.
  do 2 eexists. split; [vm_compute; reflexivity|].
  cbn [modelUsed rr_promptType costSavings actualCost].
  repeat (split; [vm_compute; reflexivity|]).
  vm_compute. discriminate.
Qed.


Lemma values_assign reg name b c' :
  In c' (values (assign reg name b)) ->
  exists c, In c (values reg) /\ (c' = c \/ c' = set_isAvailable c b).
Proof.
  unfold values. induction reg as [|[k0 c0] reg IH]; simpl; [tauto|].
  destruct (String.eqb k0 name); simpl.
  - intros [<-|H]; eauto.
  - intros [<-|H]; [eauto|].
    destruct (IH H) as (c & Hc & E). eauto.
Qed.

Lemma well_priced_assign reg name b :
  well_priced reg -> well_priced (assign reg name b).
Proof.
  intros Hw c' Hc'. apply values_assign in Hc'. destruct Hc' as (c & Hc & E).
  destruct (Hw c Hc) as (H1 & H2 & H3).
  assert (Hn : modelName c' = modelName c) by (destruct E as [->| ->]; reflexivity).
  assert (Hp : priceInputPerMillion c' = priceInputPerMillion c)
    by (destruct E as [->| ->]; reflexivity).
  assert (Ho : priceOutputPerMillion c' = priceOutputPerMillion c)
    by (destruct E as [->| ->]; reflexivity).
  assert (Hq : qualityPriorByType c' = qualityPriorByType c)
    by (destruct E as [->| ->]; reflexivity).
  rewrite Hn, Hp, Ho, Hq, lookup_assign. split; [exact H1|]. split; [exact H2|].
  destruct (lookup reg (modelName c)) as [c0|];
    destruct (String.eqb (modelName c) name); cbn [option_map]; exact H3.
Qed.

Lemma well_priced_update name b st :
  well_priced (entries st) ->
  well_priced (entries (updateModelAvailability name b st)).
Proof.
  intros Hw. unfold updateModelAvailability.
  destruct (lookup (entries st) name);
    [|destruct (JS.inherited name); exact Hw].
  cbn [entries]. apply well_priced_assign. exact Hw.
Qed.

Lemma well_priced_reset st :
  well_priced (entries st) ->
  well_priced (entries (resetAllModelAvailability st)).
Proof.
  intros Hw. unfold resetAllModelAvailability. cbn [entries].
  generalize (keys (entries st)). intros ks. revert Hw.
  generalize (entries st). induction ks as [|a ks IH]; intros reg Hw; simpl.
  - exact Hw.
  - apply IH. apply well_priced_assign. exact Hw.
Qed.

Lemma well_priced_runs {R : JSRuntime} {W : World} s s' :
  runs s s' -> well_priced (entries (store s)) -> well_priced (entries (store s')).
Proof.
  induction 1 as [|s1 s2 s3 _ IH Hst]; intros Hw; [exact Hw|].
  specialize (IH Hw).
  destruct (step_store _ _ Hst) as [->|(name & ->)]; [exact IH|].
  apply well_priced_update. exact IH.
Qed.

(* ===================================================================== *)
(** ** The routing engine: what a decision is *)
(* ===================================================================== *)

Lemma sort_desc_length {A} (key : A -> Q) l :
  length (JS.sort_desc key l) = length l.
Proof.
  induction l as [|a l IH]; simpl; [reflexivity|].
  rewrite <- IH. generalize (JS.sort_desc key l). intros l'.
  induction l' as [|b l' IH']; simpl; [reflexivity|].
  destruct (JS.Qgtb (key b) (key a)); simpl; [rewrite IH'|]; reflexivity.
Qed.

(** the head of the ranking is the first element of maximal key *)
Lemma insert_desc_split {A} (key : A -> Q) a l x r :
  JS.insert_desc key a l = x :: r ->
  (x = a /\ r = l /\ forall y r', l = y :: r' -> key y <= key a)
  \/ (exists r', l = x :: r' /\ key a < key x
                 /\ r = JS.insert_desc key a r').
Proof.
  destruct l as [|y l]; simpl.
  - intros [= <- <-]. left. repeat split. intros y r' [=].
  - destruct (JS.Qgtb (key y) (key a)) eqn:E; intros [= <- <-].
    + right. exists l. repeat split. apply Qgtb_true. exact E.
    + left. repeat split. intros y' r' [= <- <-]. apply Qgtb_false. exact E.
Qed.

Lemma sort_desc_first {A} (key : A -> Q) l : forall x r,
  JS.sort_desc key l = x :: r ->
  exists l1 l2, l = (l1 ++ x :: l2)%list /\ forall y, In y l1 -> key y < key x.
Proof.
  induction l as [|a l IH]; intros x r H; [discriminate|].
  simpl in H. apply insert_desc_split in H.
  destruct H as [(-> & _ & _)|(r' & Hl & Hlt & _)].
  - exists [], l. split; [reflexivity|]. intros y [].
  - destruct (IH _ _ Hl) as (l1 & l2 & -> & Hb).
    exists (a :: l1), l2. split; [reflexivity|].
    intros y [<-|Hy]; [exact Hlt|apply Hb; exact Hy].
Qed.

Lemma passes_spec promptType estimatedTokens c :
  passes promptType estimatedTokens c = true
  <-> In promptType (map fst (qualityPriorByType c))
      /\ (estimatedTokens <= contextWindowTokens c)%Z
      /\ isAvailable c <> Some false.
Proof.
  unfold passes, supports. cbn [capabilities computeDerivedProperties].
  rewrite !andb_true_iff, Z.leb_le, existsb_exists. split.
  - intros [[(t & Ht & E) Hc] Ha]. apply PromptType_eqb_eq in E. subst t.
    repeat split; try assumption. intros Ea. rewrite Ea in Ha. discriminate.
  - intros (Ht & Hc & Ha). repeat split; try assumption.
    + exists promptType. split; [exact Ht|]. apply PromptType_eqb_eq. reflexivity.
    + destruct (isAvailable c) as [[|]|]; congruence.
Qed.

Lemma candidates_available reg promptType estimatedTokens m :
  In m (getAvailableModels reg promptType estimatedTokens) ->
  mc_isAvailable m = true.
Proof.
  intros H. apply getAvailableModels_In in H as (key & c & _ & Hp & ->).
  apply passes_spec in Hp as (_ & _ & Ha).
  cbn [mc_isAvailable computeDerivedProperties].
  destruct (isAvailable c) as [[|]|]; congruence.
Qed.

Section Decision.
Context {R : JSRuntime}.

Lemma scoreModels_length models preset promptType estimatedTokens :
  length (scoreModels models preset promptType estimatedTokens) = length models.
Proof. unfold scoreModels. rewrite sort_desc_length, length_map. reflexivity. Qed.

(** a run of [routeRequest] on a request with a category *)
Lemma routeRequest_run req promptType s :
  rq_promptType req = Some promptType ->
  let estimatedTokens := JS.ceil_div4 (String.length (rq_prompt req)) in
  let models := getAvailableModels (entries (store s)) promptType
                  estimatedTokens in
  let s1 := with_metrics s (updateMetrics promptType (metrics s)) in
  match models with
  | [] =>
      routeRequest req s
      = (inl (ErrorObj ("No available models for prompt type: "
                          ++ PromptType_str promptType)), s1)
  | _ :: _ =>
      exists sel rest,
        scoreModels models (rq_priorityPreset req) promptType estimatedTokens
        = sel :: rest
        /\ routeRequest req s
           = (inr (decide sel (sel :: rest) promptType (rq_priorityPreset req)
                          estimatedTokens), s1)
  end.
Proof.
  intros Hpt. cbv zeta. unfold routeRequest. rewrite Hpt.
  unfold bind, modify, gets. cbn [store with_metrics].
  destruct (getAvailableModels _ _ _) as [|m0 ms] eqn:Ea; [reflexivity|].
  destruct (scoreModels (m0 :: ms) _ _ _) as [|sel rest] eqn:Es.
  - apply (f_equal (@length _)) in Es. rewrite scoreModels_length in Es.
    discriminate Es.
  - exists sel, rest. split; reflexivity.
Qed.

End Decision.

Section DecisionFacts.
Context {R : JSRuntime}.

Lemma routeRequest_decide req s d s' :
  routeRequest req s = (inr d, s') ->
  exists promptType sel rest,
    rq_promptType req = Some promptType
    /\ scoreModels
         (getAvailableModels (entries (store s)) promptType
            (JS.ceil_div4 (String.length (rq_prompt req))))
         (rq_priorityPreset req) promptType
         (JS.ceil_div4 (String.length (rq_prompt req)))
       = sel :: rest
    /\ d = decide sel (sel :: rest) promptType (rq_priorityPreset req)
             (JS.ceil_div4 (String.length (rq_prompt req)))
    /\ s' = with_metrics s (updateMetrics promptType (metrics s)).
Proof.
  intros H. destruct (rq_promptType req) as [promptType|] eqn:Hpt.
  - pose proof (routeRequest_run req promptType s Hpt) as Hrun. cbv zeta in Hrun.
    destruct (getAvailableModels _ _ _) as [|m0 ms] eqn:Ea.
    + rewrite Hrun in H. discriminate H.
    + destruct Hrun as (sel & rest & Hs & Hr). rewrite Hr in H.
      injection H as <- <-. exists promptType, sel, rest.
      rewrite ?Ea. repeat split; try reflexivity. exact Hs.
  - unfold routeRequest in H. rewrite Hpt in H. discriminate H.
Qed.

(** X1. The model of a routing decision is a registry entry that lists the
    category of the request, whose context window holds the estimated
    [ceil(|prompt| / 4)] tokens, and that is not flagged unavailable; the
    decision carries the entry's provider, its latency in milliseconds and
    the cost estimate for that many input tokens and 30% as many output
    tokens. *)
Theorem X1_decision_fits_request (req : RoutingRequest) (s : State)
        (d : RoutingDecision) (s' : State) :
  routeRequest req s = (inr d, s') ->
  exists promptType key c,
    rq_promptType req = Some promptType
    /\ lookup (entries (store s)) key = Some c
    /\ selectedModel d = modelName c
    /\ rd_provider d = provider c
    /\ rd_promptType d = promptType
    /\ In promptType (map fst (qualityPriorByType c))
    /\ (JS.ceil_div4 (String.length (rq_prompt req))
        <= contextWindowTokens c)%Z
    /\ isAvailable c <> Some false
    /\ estimatedLatency d = latencyP50Seconds c * 1000
    /\ estimatedCost d
       == inject_Z (JS.ceil_div4 (String.length (rq_prompt req))) / 1000
          * (priceInputPerMillion c / 1000)
          + inject_Z (JS.ceil_div4 (String.length (rq_prompt req))) * 0.3 / 1000
            * (priceOutputPerMillion c / 1000).
Proof.
  intros H.
  destruct (routeRequest_decide _ _ _ _ H) as (pt & sel & rest & Hpt & Hs & -> & _).
  destruct (scoreModels_In _ _ _ _ sel ltac:(rewrite Hs; left; reflexivity))
    as [Hin _].
  apply getAvailableModels_In in Hin as (key & c & Hl & Hp & Hm).
  apply passes_spec in Hp as (Hcat & Hctx & Hav).
  exists pt, key, c.
  cbn [decide selectedModel rd_provider rd_promptType estimatedLatency
       estimatedCost].
  unfold name_of, estimateCost. rewrite Hm.
  cbn [base latencyMs inputCostPer1kTokens outputCostPer1kTokens
       computeDerivedProperties].
  split; [assumption|]. split; [assumption|]. split; [reflexivity|].
  split; [reflexivity|]. split; [reflexivity|]. split; [assumption|].
  split; [assumption|]. split; [assumption|]. split; [reflexivity|].
  apply Qeq_refl.
Qed.

End DecisionFacts.

Lemma X1_decision_fits_request_witness :
  exists d s',
    routeRequest (R := sample_runtime) (request summarize_prompt SUMMARIZE COST)
      initial_state = (inr d, s')
    /\ exists key c,
         lookup (entries (store initial_state)) key = Some c
         /\ selectedModel d = modelName c
         /\ isAvailable c <> Some false.
Proof.
  destruct (routeRequest (R := sample_runtime)
              (request summarize_prompt SUMMARIZE COST) initial_state)
    as [[e|d] s'] eqn:E.
  - exfalso. vm_compute in E. discriminate E.
  - exists d, s'. split; [reflexivity|].
    destruct (X1_decision_fits_request (R := sample_runtime) _ _ _ _ E)
      as (pt & key & c & _ & Hl & Hn & _ & _ & _ & _ & Ha & _).
    exists key, c. auto.
Defined.

Lemma In_firstn {A} (x : A) n l : In x (firstn n l) -> In x l.
Proof.
  intros H. rewrite <- (firstn_skipn n l). apply in_or_app. left. exact H.
Qed.

Lemma map_split_at {A B} (f : A -> B) l l1 x l2 :
  map f l = (l1 ++ x :: l2)%list ->
  exists k1 a k2,
    l = (k1 ++ a :: k2)%list /\ map f k1 = l1 /\ f a = x /\ map f k2 = l2.
Proof.
  revert l1. induction l as [|b l IH]; intros l1 H.
  - destruct l1; discriminate H.
  - destruct l1 as [|y l1]; simpl in H.
    + injection H as Hx Hl. exists [], b, l. auto.
    + injection H as Hy Hl. destruct (IH _ Hl) as (k1 & a & k2 & -> & H1 & H2 & H3).
      exists (b :: k1), a, k2. simpl. rewrite H1, Hy. auto.
Qed.

Section Ranking.
Context {R : JSRuntime}.

(** X2. When the scoring of the candidates stays within the finite numbers
    ([scores_defined]), the selected model has the highest score among the
    candidates of the request, and among candidates of that score the one
    that comes first in the order of the registry; the score of the
    decision is that score. *)
Theorem X2_decision_has_best_score (req : RoutingRequest) (s : State)
        (d : RoutingDecision) (s' : State) (promptType : PromptType) :
  rq_promptType req = Some promptType ->
  scores_defined
    (getAvailableModels (entries (store s)) promptType
       (JS.ceil_div4 (String.length (rq_prompt req))))
    (PRIORITY_WEIGHTS (rq_priorityPreset req)) promptType = true ->
  routeRequest req s = (inr d, s') ->
  exists before sel after,
    getAvailableModels (entries (store s)) promptType
      (JS.ceil_div4 (String.length (rq_prompt req)))
    = (before ++ sel :: after)%list
    /\ selectedModel d = name_of sel
    /\ (let score_in m :=
          score_of
            (getAvailableModels (entries (store s)) promptType
               (JS.ceil_div4 (String.length (rq_prompt req))))
            (PRIORITY_WEIGHTS (rq_priorityPreset req)) promptType
            (JS.ceil_div4 (String.length (rq_prompt req))) m in
        rd_score d == score_in sel
        /\ (forall m, In m before -> score_in m < score_in sel)
        /\ (forall m, In m after -> score_in m <= score_in sel)).
Proof.
  intros Hpt0 _ H.
  destruct (routeRequest_decide _ _ _ _ H) as (pt & sel & rest & Hpt & Hs & -> & _).
  rewrite Hpt0 in Hpt. injection Hpt as <-.
  unfold scoreModels in Hs.
  pose proof (sort_desc_first _ _ _ _ Hs) as (l1 & l2 & Hsplit & Hfirst).
  pose proof (sort_desc_hd _ _ _ _ Hs) as Hmax.
  apply map_split_at in Hsplit.
  destruct Hsplit as (before & m & after & Hmodels & H1 & H2 & H3).
  exists before, m, after.
  split; [exact Hmodels|].
  split; [cbn [decide selectedModel]; rewrite <- H2; reflexivity|].
  cbv zeta. split; [|split].
  - cbn [decide rd_score]. rewrite or_num_0, <- H2. apply Qeq_refl.
  - intros m' Hm'. subst l1.
    specialize (Hfirst _ (in_map _ _ _ Hm')). rewrite <- H2 in Hfirst.
    exact Hfirst.
  - intros m' Hm'.
    assert (Hin : In m' (getAvailableModels (entries (store s)) promptType
                           (JS.ceil_div4 (String.length (rq_prompt req))))).
    { rewrite Hmodels. apply in_or_app. right. right. exact Hm'. }
    specialize (Hmax _ (in_map _ _ _ Hin)). rewrite <- H2 in Hmax.
    exact Hmax.
Qed.

(** X3. [routeRequest] throws in two cases only: the request carries no
    category ([Prompt type is required for routing], state untouched), or
    no registry entry is a candidate ([No available models for prompt
    type: ...], the request being counted in the metrics all the same).
    Whenever there is a candidate it returns a decision. *)
Theorem X3_routeRequest_outcomes (req : RoutingRequest) (s : State) :
  match routeRequest req s with
  | (inr d, s') =>
      exists promptType,
        rq_promptType req = Some promptType
        /\ getAvailableModels (entries (store s)) promptType
             (JS.ceil_div4 (String.length (rq_prompt req))) <> []
        /\ s' = with_metrics s (updateMetrics promptType (metrics s))
  | (inl e, s') =>
      (rq_promptType req = None
       /\ e = ErrorObj "Prompt type is required for routing"
       /\ s' = s)
      \/ (exists promptType,
             rq_promptType req = Some promptType
             /\ getAvailableModels (entries (store s)) promptType
                  (JS.ceil_div4 (String.length (rq_prompt req))) = []
             /\ e = ErrorObj ("No available models for prompt type: "
                                ++ PromptType_str promptType)
             /\ s' = with_metrics s (updateMetrics promptType (metrics s))
             /\ totalRequests (metrics s') = S (totalRequests (metrics s)))
  end.
Proof.
  destruct (rq_promptType req) as [promptType|] eqn:Hpt.
  - pose proof (routeRequest_run req promptType s Hpt) as Hrun. cbv zeta in Hrun.
    destruct (getAvailableModels _ _ _) as [|m0 ms] eqn:Ea.
    + rewrite Hrun. right. exists promptType. rewrite Ea. auto 10.
    + destruct Hrun as (sel & rest & _ & ->).
      exists promptType. rewrite Ea. repeat split. discriminate.
  - unfold routeRequest. rewrite Hpt. left. auto.
Qed.

(** X4. A decision lists as alternatives the next models of the ranking, at
    most four: their number is [min(4, candidates - 1)], each is a candidate
    of the request and none scores higher than the selected model.  The
    fallback model of a decision, when there is one, is a candidate with a
    provider model name other than the selected one; there is none only
    when every candidate carries the selected name. *)
Theorem X4_decision_alternatives (req : RoutingRequest) (s : State)
        (d : RoutingDecision) (s' : State) :
  routeRequest req s = (inr d, s') ->
  exists promptType,
    rq_promptType req = Some promptType
    /\ (let models :=
          getAvailableModels (entries (store s)) promptType
            (JS.ceil_div4 (String.length (rq_prompt req))) in
        length (alternatives d) = Nat.min 4 (length models - 1)
        /\ (forall a, In a (alternatives d) ->
              alt_score a <= rd_score d
              /\ exists m, In m models /\ alt_modelName a = name_of m
                           /\ alt_provider a = provider (base m))
        /\ (forall f, fallbackModel d = Some f ->
              f <> selectedModel d
              /\ exists m, In m models /\ f = name_of m)
        /\ (fallbackModel d = None ->
            forall m, In m models -> name_of m = selectedModel d)).
Proof.
  intros H.
  destruct (routeRequest_decide _ _ _ _ H) as (pt & sel & rest & Hpt & Hs & -> & _).
  exists pt. split; [exact Hpt|]. cbv zeta.
  set (models := getAvailableModels _ _ _) in *.
  assert (Hall : forall sm, In sm (sel :: rest) ->
                   In (sm_config sm) models
                   /\ mc_isAvailable (sm_config sm) = true
                   /\ score sm <= score sel).
  { intros sm Hsm. rewrite <- Hs in Hsm.
    destruct (scoreModels_In _ _ _ _ _ Hsm) as [Hin _].
    split; [exact Hin|]. split.
    - apply (candidates_available _ _ _ _ Hin).
    - unfold scoreModels in Hs, Hsm. apply sort_desc_In in Hsm.
      apply (sort_desc_hd _ _ _ _ Hs). exact Hsm. }
  assert (Hfilter : filter (fun m => mc_isAvailable (sm_config m)) rest = rest).
  { apply filter_all_true. intros sm Hsm. apply Hall. right. exact Hsm. }
  cbn [decide alternatives fallbackModel selectedModel rd_score tl].
  rewrite Hfilter. split; [|split; [|split]].
  - rewrite length_map, length_firstn.
    assert (Hlen : length (sel :: rest) = length models)
      by (rewrite <- Hs; apply scoreModels_length).
    simpl in Hlen. rewrite <- Hlen. lia.
  - intros a Ha. apply in_map_iff in Ha. destruct Ha as (sm & <- & Hsm).
    apply In_firstn in Hsm.
    destruct (Hall sm (or_intror Hsm)) as (Hin & _ & Hle).
    cbn [alt_score alt_modelName alt_provider]. split.
    + rewrite !or_num_0. exact Hle.
    + exists (sm_config sm). auto.
  - intros f Hf. unfold JS.find in Hf.
    destruct (find _ (sel :: rest)) as [sm|] eqn:Ef; [|discriminate Hf].
    cbn [option_map] in Hf. injection Hf as <-.
    apply find_some in Ef. destruct Ef as [Hsm Hb].
    apply andb_true_iff in Hb. destruct Hb as [Hne _].
    apply negb_true_iff, String.eqb_neq in Hne.
    split; [exact Hne|]. exists (sm_config sm). split; [|reflexivity].
    apply Hall. exact Hsm.
  - intros Hf m Hm. unfold JS.find in Hf.
    destruct (find _ (sel :: rest)) as [sm|] eqn:Ef; [discriminate Hf|].
    assert (Hsm : exists sm, In sm (sel :: rest) /\ sm_config sm = m).
    { rewrite <- Hs. unfold scoreModels.
      exists {| sm_config := m;
                score := score_of models (getPriorityWeights (rq_priorityPreset req))
                           pt (JS.ceil_div4 (String.length (rq_prompt req))) m |}.
      split; [|reflexivity]. apply sort_desc_In.
      apply in_map_iff. exists m. split; [reflexivity|exact Hm]. }
    destruct Hsm as (sm & Hsm & <-).
    pose proof (find_none _ _ Ef sm Hsm) as Hb. cbn beta in Hb.
    destruct (Hall sm Hsm) as (_ & Hav & _). rewrite Hav, andb_true_r in Hb.
    apply negb_false_iff, String.eqb_eq in Hb. exact Hb.
Qed.

End Ranking.

Lemma X2_decision_has_best_score_witness :
  scores_defined
    (getAvailableModels (entries (store initial_state)) SUMMARIZE
       (JS.ceil_div4 (String.length summarize_prompt)))
    (PRIORITY_WEIGHTS COST) SUMMARIZE = true
  /\ exists d s',
       routeRequest (R := sample_runtime)
         (request summarize_prompt SUMMARIZE COST) initial_state = (inr d, s')
       /\ exists before sel after,
            getAvailableModels (entries (store initial_state)) SUMMARIZE
              (JS.ceil_div4 (String.length summarize_prompt))
            = (before ++ sel :: after)%list
            /\ selectedModel d = name_of sel.
Proof.
  assert (Hd : scores_defined
                 (getAvailableModels (entries (store initial_state)) SUMMARIZE
                    (JS.ceil_div4 (String.length summarize_prompt)))
                 (PRIORITY_WEIGHTS COST) SUMMARIZE = true)
    by (vm_compute; reflexivity).
  split; [exact Hd|].
  destruct (routeRequest (R := sample_runtime)
              (request summarize_prompt SUMMARIZE COST) initial_state)
    as [[e|d] s'] eqn:E.
  - exfalso. vm_compute in E. discriminate E.
  - exists d, s'. split; [reflexivity|].
    destruct (X2_decision_has_best_score (R := sample_runtime)
                (request summarize_prompt SUMMARIZE COST) initial_state d s'
                SUMMARIZE eq_refl Hd E)
      as (before & sel & after & Hm & Hn & _).
    exists before, sel, after. split; assumption.
Defined.

Lemma X4_decision_alternatives_witness :
  exists d s',
    routeRequest (R := sample_runtime) (request summarize_prompt SUMMARIZE COST)
      initial_state = (inr d, s')
    /\ length (alternatives d)
       = Nat.min 4
           (length (getAvailableModels (entries (store initial_state)) SUMMARIZE
                      (JS.ceil_div4 (String.length summarize_prompt))) - 1).
Proof.
  destruct (routeRequest (R := sample_runtime)
              (request summarize_prompt SUMMARIZE COST) initial_state)
    as [[e|d] s'] eqn:E.
  - exfalso. vm_compute in E. discriminate E.
  - exists d, s'. split; [reflexivity|].
    destruct (X4_decision_alternatives (R := sample_runtime) _ _ _ _ E)
      as (pt & Hpt & Hlen & _).
    injection Hpt as <-. exact Hlen.
Defined.

(* ===================================================================== *)
(** ** The routing metrics *)
(* ===================================================================== *)

Lemma keeps_snd {A X} (f : State -> X) (m : M A) s : keeps f m -> f (snd (m s)) = f s.
Proof. intros H. apply H. Qed.

Section Metrics.
Context {R : JSRuntime} {W : World}.

Lemma classify_metrics p : keeps metrics (classify p).
Proof.
  unfold classify, getConfidenceThreshold, model_classify. keeps_tac.
Qed.

Lemma handleRoutingError_metrics p pr err st u sid t conf :
  keeps metrics (handleRoutingError p pr err st u sid t conf).
Proof.
  unfold handleRoutingError, generateRequestId, logRequest. keeps_tac.
Qed.

Lemma routeClassified_metrics p pr st u sid c s :
  metrics (snd (routeClassified p pr st u sid c s))
  = updateMetrics (promptType c) (metrics s).
Proof.
  unfold routeClassified.
  set (req := {| rq_prompt := p; rq_promptType := Some (promptType c);
                 rq_priorityPreset := pr; rq_userId := u;
                 rq_sessionId := sid |}).
  pose proof (routeRequest_state req (promptType c) s eq_refl) as Hs.
  unfold bind at 1.
  destruct (routeRequest req s) as [[e|d] s1]; cbn [snd] in Hs; subst s1.
  - reflexivity.
  - match goal with
    | |- metrics (snd (?m ?s0)) = _ =>
        change (metrics (snd (m s0))) with ((fun x => metrics (snd (m x))) s0);
        assert (K : keeps metrics m)
    end.
    { unfold getRequestTimeout, markModelUnavailable, generateRequestId,
        logRequest.
      keeps_tac. }
    cbn beta. rewrite (K _). reflexivity.
Qed.

Lemma routePrompt_metrics p pr u sid s :
  exists c s1,
    classify p (tick s) = (inr c, s1)
    /\ metrics (snd (routePrompt p pr u sid s))
       = updateMetrics (promptType c) (metrics s).
Proof.
  destruct (routePrompt_cases p pr u sid s) as (c & s1 & Hc & _ & _ & ->).
  exists c, s1. split; [exact Hc|].
  assert (H1 : metrics s1 = metrics s).
  { pose proof (classify_metrics p (tick s)) as H. rewrite Hc in H. exact H. }
  pose proof (routeClassified_metrics p pr (Date_now (clock s)) u sid c s1) as H2.
  destruct (routeClassified p pr (Date_now (clock s)) u sid c s1) as [[e|r] s2];
    cbn [snd] in *.
  - rewrite (handleRoutingError_metrics _ _ _ _ _ _ _ _ s2), H2, H1. reflexivity.
  - rewrite H2, H1. reflexivity.
Qed.

End Metrics.

Lemma updateMetrics_sum promptType m :
  list_sum (map (promptTypeDistribution (updateMetrics promptType m))
                all_PromptType)
  = S (list_sum (map (promptTypeDistribution m) all_PromptType)).
Proof. destruct promptType; cbn; lia. Qed.

(** X5. Every run of [routePrompt] is counted once in the metrics of the
    engine, under the category the classifier returned, whether the run
    answers, falls back or fails: [totalRequests] and the count of that
    category grow by one and the other counts stay. *)
Theorem X5_routePrompt_counted_once {R : JSRuntime} {W : World}
        (p : string) (pr : PriorityPreset) (u sid : option string) (s : State) :
  exists c s1,
    classify p (tick s) = (inr c, s1)
    /\ totalRequests (metrics (snd (routePrompt p pr u sid s)))
       = S (totalRequests (metrics s))
    /\ forall t,
         promptTypeDistribution (metrics (snd (routePrompt p pr u sid s))) t
         = if PromptType_eqb t (promptType c)
           then S (promptTypeDistribution (metrics s) t)
           else promptTypeDistribution (metrics s) t.
Proof.
  destruct (routePrompt_metrics p pr u sid s) as (c & s1 & Hc & ->).
  exists c, s1. split; [exact Hc|]. split; [reflexivity|].
  intros t. reflexivity.
Qed.

(** X6. In every state a fresh service reaches by marking models, routing
    requests, routing prompts and resetting its metrics, [totalRequests] is
    the sum of the per-category counts. *)
Theorem X6_metrics_total_is_sum {R : JSRuntime} {W : World} (s : State) :
  runs initial_state s ->
  totalRequests (metrics s)
  = list_sum (map (promptTypeDistribution (metrics s)) all_PromptType).
Proof.
  remember initial_state as s0 eqn:E0.
  induction 1 as [s0|s1 s2 s3 _ IH Hst]; [subst s0; reflexivity|].
  specialize (IH E0).
  destruct Hst as [name s2|req s2|p pr u sid s2|s2].
  - exact IH.
  - destruct (rq_promptType req) as [promptType|] eqn:Hpt.
    + rewrite (routeRequest_state req promptType s2 Hpt). cbn [metrics with_metrics].
      rewrite updateMetrics_sum, <- IH. reflexivity.
    + unfold routeRequest. rewrite Hpt. exact IH.
  - destruct (routePrompt_metrics p pr u sid s2) as (c & s' & _ & ->).
    rewrite updateMetrics_sum, <- IH. reflexivity.
  - reflexivity.
Qed.

Lemma X6_metrics_total_is_sum_witness :
  totalRequests
    (metrics (snd (routePrompt (R := sample_runtime) (W := world_all_down)
                     summarize_prompt COST None None initial_state)))
  = list_sum
      (map (promptTypeDistribution
              (metrics (snd (routePrompt (R := sample_runtime)
                               (W := world_all_down)
                               summarize_prompt COST None None initial_state))))
           all_PromptType).
Proof.
  apply (X6_metrics_total_is_sum (R := sample_runtime) (W := world_all_down)).
  eapply runs_step; [apply runs_refl|]. apply step_prompt.
Defined.

(* ===================================================================== *)
(** ** The classifiers: ranges of their results *)
(* ===================================================================== *)

Lemma mapCategoryToPromptType_range category :
  In (mapCategoryToPromptType category) [CODE; SUMMARIZE; QA; CREATIVE; UNKNOWN].
Proof.
  unfold mapCategoryToPromptType.
  repeat match goal with
         | |- context [if ?b then _ else _] => destruct b
         end; simpl; tauto.
Qed.

Lemma clamp_01 x : 0 <= Qmax 0 (Qmin 1 x) /\ Qmax 0 (Qmin 1 x) <= 1.
Proof.
  split; [apply Q.le_max_l|].
  apply Q.max_lub; [discriminate|apply Q.le_min_l].
Qed.

Section Parse.
Context {R : JSRuntime}.

Lemma parse_range (response : string) :
  0 <= snd (fst (parseClassificationResponse response)) <= 1
  /\ In (fst (fst (parseClassificationResponse response)))
        [CODE; SUMMARIZE; QA; CREATIVE; UNKNOWN].
Proof.
  unfold parseClassificationResponse.
  destruct (JSON_fields response) as [msg|[[category confidence] reasoning]].
  - cbn [fst snd]. split; [split; discriminate|simpl; tauto].
  - destruct (is_empty category || Qeq_bool confidence 0 || is_empty reasoning);
      cbn [fst snd].
    + split; [split; discriminate|simpl; tauto].
    + split; [apply clamp_01|apply mapCategoryToPromptType_range].
Qed.

(** X7. [parseClassificationResponse] never throws (the fields of a reply
    being read as a string, a number and a string, see [JSON_fields]): a
    reply that holds no readable JSON object, or one with an empty
    category, a zero confidence or an empty reasoning, yields [UNKNOWN]
    with confidence [0.1] and a reasoning that starts [Failed to parse
    response: ]; any other reply yields its confidence clamped to [[0, 1]]
    and one of the categories [CODE], [SUMMARIZE], [QA], [CREATIVE] or
    [UNKNOWN], never [MATH_REASONING]. *)
Theorem X7_parse_never_throws (response : string) :
  let result := parseClassificationResponse response in
  0 <= snd (fst result) <= 1
  /\ In (fst (fst result)) [CODE; SUMMARIZE; QA; CREATIVE; UNKNOWN]
  /\ (forall msg, JSON_fields response = inl msg ->
        result = (UNKNOWN, 0.1, "Failed to parse response: " ++ msg))
  /\ (forall category confidence reasoning,
        JSON_fields response = inr (category, confidence, reasoning) ->
        (category = "" \/ confidence == 0 \/ reasoning = "") ->
        result = (UNKNOWN, 0.1,
                  "Failed to parse response: Invalid response format"))
  /\ (forall category confidence reasoning,
        JSON_fields response = inr (category, confidence, reasoning) ->
        category <> "" -> ~ confidence == 0 -> reasoning <> "" ->
        result = (mapCategoryToPromptType category,
                  Qmax 0 (Qmin 1 confidence), reasoning)).
Proof.
  cbv zeta. unfold parseClassificationResponse.
  destruct (JSON_fields response) as [msg|[[category confidence] reasoning]].
  - cbn [fst snd]. split; [split; discriminate|]. split; [simpl; tauto|].
    split; [intros msg' [= <-]; reflexivity|]. split; intros; discriminate.
  - destruct (is_empty category || Qeq_bool confidence 0 || is_empty reasoning)
      eqn:E; cbn [fst snd].
    + split; [split; discriminate|]. split; [simpl; tauto|].
      split; [intros; discriminate|]. split; [reflexivity|].
      intros c q r [= <- <- <-] Hc Hq Hr. exfalso.
      apply orb_true_iff in E. destruct E as [E|E].
      * apply orb_true_iff in E. destruct E as [E|E].
        -- destruct category; [congruence|discriminate E].
        -- apply Qeq_bool_iff in E. contradiction.
      * destruct reasoning; [congruence|discriminate E].
    + split; [apply clamp_01|]. split; [apply mapCategoryToPromptType_range|].
      split; [intros; discriminate|]. split.
      * intros c q r [= <- <- <-] H. exfalso.
        apply orb_false_iff in E. destruct E as [E E3].
        apply orb_false_iff in E. destruct E as [E1 E2].
        destruct H as [->|[H| ->]]; try discriminate.
        apply Qeq_bool_iff in H. congruence.
      * intros c q r [= <- <- <-] _ _ _. reflexivity.
Qed.

Context {W : World}.

Lemma model_classify_inr prompt s m s' :
  model_classify prompt s = (inr m, s') ->
  0 <= m_confidence m <= 1
  /\ In (m_promptType m) [CODE; SUMMARIZE; QA; CREATIVE; UNKNOWN].
Proof.
  unfold model_classify, try_catch, bind, now, ret, throw.
  destruct (factory_getClient classificationModel _) as [[e|cl] s1];
    [discriminate|].
  destruct (client_generateResponse cl _ _ s1) as [[e|resp] s2];
    [discriminate|].
  intros [= <- _]. cbn [m_confidence m_promptType].
  apply parse_range.
Qed.

End Parse.

Lemma rawScore_pos_lower prompt t :
  0 < rawScore prompt t -> 0.1 <= rawScore prompt t.
Proof.
  unfold rawScore. destruct (totalKeywords t) as [|n]; [intros H; discriminate H|].
  destruct (matched prompt t) as [|k].
  - intros H. exfalso. revert H. unfold Qnat. cbn. discriminate.
  - intros _. apply Q.min_glb; [discriminate|].
    pose proof (Qdiv_nonneg _ _ (Qnat_nonneg (S k)) (Qnat_nonneg (S n))) as Hd.
    assert (Hk : 1 <= Qnat (S k)).
    { unfold Qnat. change 1 with (inject_Z 1). rewrite <- Zle_Qle. lia. }
    generalize dependent (Qnat (S k) / Qnat (S n)).
    generalize dependent (Qnat (S k)). intros. lra.
Qed.

Lemma bonus_nonneg gap : 0 <= bonus gap.
Proof.
  unfold bonus. destruct (Qlt_le_dec 0.3 gap), (Qlt_le_dec 0.5 gap); discriminate.
Qed.

Section HeuristicRange.
Context {R : JSRuntime}.

Lemma heuristic_confidence_range prompt :
  0.1 <= h_confidence (heuristic_classify prompt) <= 0.9.
Proof.
  destruct (heuristic_classify_eq prompt)
    as (sc & bm & kc & tk & rs & Hsc & Hbm & ->).
  cbn [h_confidence]. rewrite compute_scores_eq in Hsc. subst sc.
  split.
  2:{ unfold Classification.calculateConfidence.
      destruct (Qeq_bool (bm_score bm) 0); [discriminate|]. apply Q.le_min_l. }
  assert (D : (forall u, In u categories -> rawScore prompt u == 0)
              \/ (exists u, In u categories /\ 0 < rawScore prompt u)).
  { assert (P : forall u, rawScore prompt u == 0 \/ 0 < rawScore prompt u).
    { intros u. pose proof (rawScore_nonneg prompt u) as H.
      destruct (Qlt_le_dec 0 (rawScore prompt u)) as [L|L]; [right; exact L|].
      left. apply Qle_antisym; assumption. }
    destruct (P CODE) as [H1|H1]; [|right; exists CODE; simpl; tauto].
    destruct (P SUMMARIZE) as [H2|H2]; [|right; exists SUMMARIZE; simpl; tauto].
    destruct (P QA) as [H3|H3]; [|right; exists QA; simpl; tauto].
    destruct (P CREATIVE) as [H4|H4]; [|right; exists CREATIVE; simpl; tauto].
    destruct (P MATH_REASONING) as [H5|H5];
      [|right; exists MATH_REASONING; simpl; tauto].
    left. intros u Hu. simpl in Hu.
    destruct Hu as [<-|[<-|[<-|[<-|[<-|[]]]]]]; assumption. }
  destruct D as [Hz|Hsome].
  - rewrite (findBestMatch_zero _ _ (entry_rawScore prompt) Hz) in Hbm.
    subst bm. discriminate.
  - destruct (findBestMatch_best _ _ (entry_rawScore prompt) Hsome)
      as (t & Hbest & Hfb).
    rewrite Hfb in Hbm. subst bm.
    assert (Hpos : 0 < rawScore prompt t).
    { destruct Hsome as (u & Hu & Hpu). destruct Hbest as (_ & Hmax & _).
      eapply Qlt_le_trans; [exact Hpu|apply Hmax; exact Hu]. }
    destruct (confidence_of_best _ _ (entry_rawScore prompt)
                (rawScore_nonneg prompt) t Hbest Hpos) as (ru & _ & ->).
    apply Q.min_glb; [discriminate|].
    pose proof (rawScore_pos_lower _ _ Hpos).
    pose proof (bonus_nonneg (rawScore prompt t - ru)).
    generalize dependent (bonus (rawScore prompt t - ru)).
    generalize dependent (rawScore prompt t). intros. lra.
Qed.

End HeuristicRange.

Section HybridRange.
Context {R : JSRuntime} {W : World}.

Lemma hybrid_range (h : HeuristicClassificationResult) prompt s
      (c : HybridClassificationResult) :
  0.1 <= h_confidence h <= 0.9 ->
  (0.7 <= h_confidence h ->
   promptType c = h_promptType h /\ confidence c = h_confidence h
   /\ method c = heuristic /\ finalMethod c = "heuristic_only"
   /\ modelResult c = None) ->
  (h_confidence h < 0.7 ->
   match model_classify prompt (tick s) with
   | (inl _, _) =>
       promptType c = h_promptType h
       /\ confidence c = Qmax 0.1 (h_confidence h * 0.5)
       /\ method c = heuristic
       /\ finalMethod c = "heuristic_fallback"
   | (inr m, _) =>
       modelResult c = Some m
       /\ (h_promptType h = m_promptType m ->
           promptType c = h_promptType h
           /\ confidence c = Qmax (h_confidence h) (m_confidence m))
       /\ (h_promptType h <> m_promptType m ->
           (0 < m_confidence m - h_confidence h ->
            promptType c = m_promptType m
            /\ confidence c = m_confidence m /\ method c = model)
           /\ (m_confidence m - h_confidence h <= 0 ->
               promptType c = h_promptType h
               /\ confidence c = h_confidence h /\ method c = heuristic))
   end) ->
  0.1 <= confidence c <= 1
  /\ (promptType c = MATH_REASONING -> h_promptType h = MATH_REASONING).
Proof.
  intros [Hlo Hhi] Hconf Hmodel.
  destruct (Qlt_le_dec (h_confidence h) 0.7) as [Hlt|Hge].
  - specialize (Hmodel Hlt).
    destruct (model_classify prompt (tick s)) as [[e|m] s2] eqn:Em.
    + destruct Hmodel as (-> & -> & _). split; [|tauto]. split.
      * apply Q.le_max_l.
      * apply Q.max_lub; [discriminate|]. lra.
    + destruct (model_classify_inr _ _ _ _ Em) as [[Hm0 Hm1] Hcat].
      destruct Hmodel as (_ & Hsame & Hdiff).
      assert (Hnm : m_promptType m <> MATH_REASONING).
      { intros E. rewrite E in Hcat. simpl in Hcat.
        intuition discriminate. }
      destruct (PromptType_eqb (h_promptType h) (m_promptType m)) eqn:E.
      * apply PromptType_eqb_eq in E. destruct (Hsame E) as [-> ->].
        split; [|tauto]. split.
        -- eapply Qle_trans; [exact Hlo|apply Q.le_max_l].
        -- apply Q.max_lub; lra.
      * apply PromptType_eqb_neq in E. destruct (Hdiff E) as [Hm Hh].
        destruct (Qlt_le_dec 0 (m_confidence m - h_confidence h)) as [L|L].
        -- destruct (Hm L) as (-> & -> & _). split; [split; lra|].
           intros E'. contradiction.
        -- destruct (Hh L) as (-> & -> & _). split; [split; lra|tauto].
  - destruct (Hconf Hge) as (-> & -> & _). split; [split; lra|tauto].
Qed.

(** X8. The heuristic confidence of every prompt lies in [[0.1, 0.9]] and
    the confidence of the hybrid classification in [[0.1, 1]] (a reply of
    the classification backend being read as a string, a number and a
    string); the hybrid category is [MATH_REASONING] only when the keyword
    heuristic returned [MATH_REASONING], the model classifier never does. *)
Theorem X8_classification_ranges (prompt : string) (s : State) :
  exists c s',
    classify prompt s = (inr c, s')
    /\ 0.1 <= h_confidence (heuristicResult c) <= 0.9
    /\ 0.1 <= confidence c <= 1
    /\ (promptType c = MATH_REASONING ->
        h_promptType (heuristicResult c) = MATH_REASONING)
    /\ (forall s0 m s2,
          model_classify prompt s0 = (inr m, s2) ->
          m_promptType m <> MATH_REASONING /\ 0 <= m_confidence m <= 1).
Proof.
  pose proof (heuristic_confidence_range prompt) as Hr.
  destruct (classify_cases prompt s (heuristic_classify prompt) eq_refl)
    as (c & s' & Hrun & Hh & Henv & Hok).
  revert Hr Hh Henv Hok. generalize (heuristic_classify prompt) as h.
  intros h Hr Hh Henv Hok.
  exists c, s'. split; [exact Hrun|]. rewrite Hh. split; [exact Hr|].
  assert (Hcm : 0.1 <= confidence c <= 1
                /\ (promptType c = MATH_REASONING ->
                    h_promptType h = MATH_REASONING)).
  { destruct isServer eqn:Esrv; [destruct processEnv as [e|env] eqn:Eenv|].
    - (* the threshold cannot be read *)
      destruct (Henv e eq_refl eq_refl) as (-> & -> & _).
      destruct Hr as [Hr0 Hr1]. split; [|tauto]. split.
      + apply Q.le_max_l.
      + apply Q.max_lub; [discriminate|]. lra.
    - destruct (Hok (or_intror (ex_intro _ env eq_refl))) as [Hhi Hlo].
      exact (hybrid_range h prompt s c Hr Hhi Hlo).
    - destruct (Hok (or_introl eq_refl)) as [Hhi Hlo].
      exact (hybrid_range h prompt s c Hr Hhi Hlo). }
  destruct Hcm as [Hc Hm].
  split; [exact Hc|]. split; [exact Hm|].
  intros s0 m s2 Em.
  destruct (model_classify_inr _ _ _ _ Em) as [Hrange Hcat].
  split; [|exact Hrange].
  intros E. rewrite E in Hcat. simpl in Hcat. intuition discriminate.
Qed.

End HybridRange.

Section ClassifierCalls.
Context {R : JSRuntime} {W : World}.


Lemma model_classify_calls prompt s :
  calls (snd (model_classify prompt s)) = calls s
  \/ exists cl,
       calls (snd (model_classify prompt s))
       = (calls s ++ [invocation cl (createClassificationPrompt prompt)
                        classificationOptions])%list.
Proof.
  unfold model_classify, try_catch, bind, now, ret, throw.
  destruct (factory_getClient classificationModel _) as [[e|cl] s1] eqn:Ec.
  - left. pose proof (keeps_getClient calls classificationModel
                        (fun _ _ => eq_refl) (with_clock s (S (clock s)))) as K.
    rewrite Ec in K. exact K.
  - right. exists cl.
    pose proof (keeps_getClient calls classificationModel
                  (fun _ _ => eq_refl) (with_clock s (S (clock s)))) as K.
    rewrite Ec in K. cbn [snd] in K. cbn [calls with_clock] in K.
    unfold client_generateResponse.
    destruct (generateResponse _ cl _ _); cbn [snd calls with_clock with_calls];
      rewrite K; reflexivity.
Qed.

Lemma classify_calls (prompt : string) (s : State)
      (h : HeuristicClassificationResult) :
  h = heuristic_classify prompt ->
  (0.7 <= h_confidence h ->
   calls (snd (classify prompt s)) = calls s
   /\ clients (snd (classify prompt s)) = clients s)
  /\ (calls (snd (classify prompt s)) = calls s
      \/ exists cl,
           calls (snd (classify prompt s))
           = (calls s ++ [invocation cl (createClassificationPrompt prompt)
                            classificationOptions])%list).
Proof.
  intros Hh. remember (classify prompt s) as r eqn:Er.
  unfold classify in Er. rewrite <- Hh in Er. clear Hh.
  unfold bind at 1 in Er. unfold now at 1 in Er. fold (tick s) in Er.
  set (s1 := tick s) in *.
  unfold try_catch in Er. unfold bind at 1 in Er.
  destruct (getConfidenceThreshold_cases s1)
    as [(thr & Ht & _)|(e & Ht & _)]; rewrite Ht in Er.
  2:{ unfold bind, now, ret in Er. subst r. cbn [snd calls clients with_clock].
      split; [intros _; split; reflexivity|left; reflexivity]. }
  destruct (shouldUseHeuristic (h_confidence h)) eqn:Hs.
  - unfold bind, now, ret in Er. subst r. cbn [snd calls clients with_clock].
    split; [intros _; split; reflexivity|left; reflexivity].
  - unfold shouldUseHeuristic, JS.Qgeb in Hs.
    assert (Hlt : h_confidence h < 0.7).
    { apply Qnot_le_lt. intros L. apply Qle_bool_iff in L. congruence. }
    split; [intros Hge; exfalso; apply (Qlt_not_le _ _ Hlt Hge)|].
    unfold bind at 1 in Er.
    pose proof (model_classify_calls prompt s1) as Hm.
    destruct (model_classify prompt s1) as [[e|m] s2]; cbn [snd] in Hm;
      unfold bind, now, ret in Er; subst r; cbn [snd calls with_clock];
      exact Hm.
Qed.

(** X9. [classify] leaves the registry, the analytics buffer and the
    metrics alone.  When the heuristic confidence is at least [0.7] it
    invokes no backend and creates no client; otherwise it invokes a
    backend at most once, with the classification prompt, at most 200
    tokens, temperature 0.1 and the classification system prompt. *)
Theorem X9_classify_backend_use (prompt : string) (s : State) :
  store (snd (classify prompt s)) = store s
  /\ requestLogs (snd (classify prompt s)) = requestLogs s
  /\ metrics (snd (classify prompt s)) = metrics s
  /\ (0.7 <= h_confidence (heuristic_classify prompt) ->
      calls (snd (classify prompt s)) = calls s
      /\ clients (snd (classify prompt s)) = clients s)
  /\ (calls (snd (classify prompt s)) = calls s
      \/ exists cl,
           calls (snd (classify prompt s))
           = (calls s
                ++ [{| call_client := cl;
                       call_prompt := createClassificationPrompt prompt;
                       call_options :=
                         {| maxTokens := Some 200;
                            temperature := Some 0.1;
                            timeoutMs := None;
                            systemPrompt := Some "You are a prompt classification expert. Analyze the given prompt and classify it into one of the specified categories." |} |}])%list).
Proof.
  split; [apply classify_store|]. split; [apply classify_logs|].
  split; [apply classify_metrics|].
  exact (classify_calls prompt s _ eq_refl).
Qed.

End ClassifierCalls.

Section Threshold.
Context {R : JSRuntime}.




End Threshold.


(* ===================================================================== *)
(** ** The registry helpers *)
(* ===================================================================== *)

Lemma Qltb_true x y : JS.Qltb x y = true <-> x < y.
Proof.
  unfold JS.Qltb. rewrite negb_true_iff. split; intros H.
  - apply Qnot_le_lt. intros L. apply Qle_bool_iff in L. congruence.
  - destruct (Qle_bool y x) eqn:E; [|reflexivity].
    apply Qle_bool_iff in E. exfalso. eapply Qlt_not_le; eauto.
Qed.

Lemma Qltb_false x y : JS.Qltb x y = false <-> y <= x.
Proof. unfold JS.Qltb. rewrite negb_false_iff. apply Qle_bool_iff. Qed.

Section SortFacts.
Context {A : Type} (key : A -> Q).

Lemma insert_asc_perm x l : Permutation (insert_asc key x l) (x :: l).
Proof.
  induction l as [|y l IH]; simpl; [reflexivity|].
  destruct (JS.Qltb (key y) (key x)); [|reflexivity].
  rewrite IH. apply perm_swap.
Qed.

Lemma sort_asc_perm l : Permutation (sort_asc key l) l.
Proof.
  induction l as [|a l IH]; simpl; [reflexivity|].
  rewrite insert_asc_perm. apply perm_skip. exact IH.
Qed.

Lemma insert_asc_sorted x l :
  Sorted (fun a b => key a <= key b) l ->
  Sorted (fun a b => key a <= key b) (insert_asc key x l).
Proof.
  induction 1 as [|y l Hs IH Hd]; simpl; [repeat constructor|].
  destruct (JS.Qltb (key y) (key x)) eqn:E.
  - constructor; [exact IH|].
    apply Qltb_true in E.
    destruct l as [|z l]; simpl.
    + constructor. apply Qlt_le_weak. exact E.
    + destruct (JS.Qltb (key z) (key x)).
      * constructor. inversion Hd; subst. assumption.
      * constructor. apply Qlt_le_weak. exact E.
  - apply Qltb_false in E. constructor; [constructor; assumption|].
    constructor. exact E.
Qed.

Lemma sort_asc_sorted l : Sorted (fun a b => key a <= key b) (sort_asc key l).
Proof.
  induction l as [|a l IH]; simpl; [constructor|].
  apply insert_asc_sorted. exact IH.
Qed.

Lemma sort_asc_strongly l :
  StronglySorted (fun a b => key a <= key b) (sort_asc key l).
Proof.
  apply Sorted_StronglySorted; [|apply sort_asc_sorted].
  intros a b c. apply Qle_trans.
Qed.

Lemma insert_desc_perm x l : Permutation (JS.insert_desc key x l) (x :: l).
Proof.
  induction l as [|y l IH]; simpl; [reflexivity|].
  destruct (JS.Qgtb (key y) (key x)); [|reflexivity].
  rewrite IH. apply perm_swap.
Qed.

Lemma sort_desc_perm l : Permutation (JS.sort_desc key l) l.
Proof.
  induction l as [|a l IH]; simpl; [reflexivity|].
  rewrite insert_desc_perm. apply perm_skip. exact IH.
Qed.

Lemma insert_desc_sorted x l :
  Sorted (fun a b => key b <= key a) l ->
  Sorted (fun a b => key b <= key a) (JS.insert_desc key x l).
Proof.
  induction 1 as [|y l Hs IH Hd]; simpl; [repeat constructor|].
  destruct (JS.Qgtb (key y) (key x)) eqn:E.
  - constructor; [exact IH|].
    apply Qgtb_true in E.
    destruct l as [|z l]; simpl.
    + constructor. apply Qlt_le_weak. exact E.
    + destruct (JS.Qgtb (key z) (key x)).
      * constructor. inversion Hd; subst. assumption.
      * constructor. apply Qlt_le_weak. exact E.
  - apply Qgtb_false in E. constructor; [constructor; assumption|].
    constructor. exact E.
Qed.

Lemma sort_desc_strongly l :
  StronglySorted (fun a b => key b <= key a) (JS.sort_desc key l).
Proof.
  apply Sorted_StronglySorted.
  - intros a b c H1 H2. eapply Qle_trans; eauto.
  - induction l as [|a l IH]; simpl; [constructor|].
    apply insert_desc_sorted. exact IH.
Qed.

End SortFacts.

Lemma lists_type_spec c t :
  lists_type c t = true <-> In t (map fst (qualityPriorByType c)).
Proof.
  unfold lists_type. induction (qualityPriorByType c) as [|[u q] l IH]; simpl.
  - split; [discriminate|tauto].
  - destruct (PromptType_eqb u t) eqn:E.
    + apply PromptType_eqb_eq in E. split; auto.
    + apply PromptType_eqb_neq in E. rewrite IH. split; [auto|].
      intros [H|H]; [contradiction|exact H].
Qed.

Lemma In_lookup_NoDup reg k c :
  NoDup (keys reg) -> In (k, c) reg -> lookup reg k = Some c.
Proof.
  unfold keys. induction reg as [|[k0 c0] reg IH]; simpl; [tauto|].
  intros Hnd [H|H].
  - injection H as -> ->. rewrite String.eqb_refl. reflexivity.
  - inversion Hnd as [|? ? Hn Hnd']; subst.
    destruct (String.eqb_spec k0 k) as [->|_].
    + exfalso. apply Hn. apply in_map_iff. exists (k, c). auto.
    + apply IH; assumption.
Qed.

Lemma StronglySorted_impl {A} (P Q : A -> A -> Prop) l :
  (forall a b, P a b -> Q a b) -> StronglySorted P l -> StronglySorted Q l.
Proof.
  intros H. induction 1 as [|a l Hs IH Hf]; constructor; [exact IH|].
  eapply Forall_impl; [|exact Hf]. intros b. apply H.
Qed.

(** X11. The three rankings of the registry return the keys of exactly the
    entries that list the category, each once: [rankModelsByCost] by
    non-decreasing sum of input and output price, [rankModelsByLatency] by
    non-decreasing latency, and [rankModelsByQuality] by non-increasing
    quality prior for the category. *)
Theorem X11_registry_rankings (reg : Registry) (t : PromptType) :
  let listed := filter (fun e => lists_type (snd e) t) reg in
  (exists es,
      rankModelsByCost reg t = map fst es
      /\ Permutation es listed
      /\ StronglySorted
           (fun a b =>
              priceInputPerMillion (snd a) + priceOutputPerMillion (snd a)
              <= priceInputPerMillion (snd b) + priceOutputPerMillion (snd b))
           es)
  /\ (exists es,
         rankModelsByLatency reg t = map fst es
         /\ Permutation es listed
         /\ StronglySorted
              (fun a b => latencyP50Seconds (snd a) <= latencyP50Seconds (snd b))
              es)
  /\ (exists es,
         rankModelsByQuality reg t = map fst es
         /\ Permutation es listed
         /\ StronglySorted
              (fun a b =>
                 JS.or_opt (prior (qualityPriorByType (snd b)) t) 0
                 <= JS.or_opt (prior (qualityPriorByType (snd a)) t) 0)
              es)
  /\ (forall k c,
        In (k, c) listed
        <-> In (k, c) reg /\ In t (map fst (qualityPriorByType c))).
Proof.
  cbv zeta. split; [|split; [|split]].
  - eexists. split; [reflexivity|]. split; [apply sort_asc_perm|].
    apply (sort_asc_strongly
             (fun e : string * BaseModelConfig =>
                priceInputPerMillion (snd e) + priceOutputPerMillion (snd e))).
  - eexists. split; [reflexivity|]. split; [apply sort_asc_perm|].
    apply (sort_asc_strongly
             (fun e : string * BaseModelConfig => latencyP50Seconds (snd e))).
  - eexists. split; [reflexivity|]. split; [apply sort_desc_perm|].
    apply (sort_desc_strongly
             (fun e : string * BaseModelConfig =>
                JS.or_opt (prior (qualityPriorByType (snd e)) t) 0)).
  - intros k c. rewrite filter_In. cbn [snd]. rewrite lists_type_spec. tauto.
Qed.

(** X12. [getModelsByContextSize] returns the keys of exactly the entries
    whose context window holds the required tokens, each once, smallest
    window first; the list is empty exactly when no entry has a large
    enough window. *)
Theorem X12_models_by_context_size (reg : Registry) (requiredTokens : Z) :
  (exists es,
      getModelsByContextSize reg requiredTokens = map fst es
      /\ Permutation es
           (filter (fun e => (requiredTokens <=? contextWindowTokens (snd e))%Z)
                   reg)
      /\ StronglySorted
           (fun a b =>
              (contextWindowTokens (snd a) <= contextWindowTokens (snd b))%Z)
           es
      /\ forall k c,
           In (k, c) es
           <-> In (k, c) reg /\ (requiredTokens <= contextWindowTokens c)%Z)
  /\ (getModelsByContextSize reg requiredTokens = []
      <-> forall k c, In (k, c) reg ->
                      (contextWindowTokens c < requiredTokens)%Z).
Proof.
  set (fits := fun e : string * BaseModelConfig =>
                 (requiredTokens <=? contextWindowTokens (snd e))%Z).
  set (key := fun e : string * BaseModelConfig =>
                inject_Z (contextWindowTokens (snd e))).
  assert (Hp : Permutation (sort_asc key (filter fits reg)) (filter fits reg))
    by apply sort_asc_perm.
  split.
  - exists (sort_asc key (filter fits reg)).
    split; [reflexivity|]. split; [exact Hp|]. split.
    + eapply StronglySorted_impl; [|apply (sort_asc_strongly key)].
      intros a b H. unfold key in H. rewrite <- Zle_Qle in H. exact H.
    + intros k c. split.
      * intros H. apply (Permutation_in _ Hp) in H.
        apply filter_In in H. destruct H as [H1 H2]. unfold fits in H2.
        cbn [snd] in H2. apply Z.leb_le in H2. auto.
      * intros [H1 H2]. apply (Permutation_in _ (Permutation_sym Hp)).
        apply filter_In. split; [exact H1|]. unfold fits. cbn [snd].
        apply Z.leb_le. exact H2.
  - unfold getModelsByContextSize. fold fits key. split.
    + intros H k c Hin.
      destruct (Z.ltb_spec (contextWindowTokens c) requiredTokens) as [L|L];
        [exact L|exfalso].
      assert (Hf : In (k, c) (sort_asc key (filter fits reg))).
      { apply (Permutation_in _ (Permutation_sym Hp)). apply filter_In.
        split; [exact Hin|]. unfold fits. cbn [snd]. apply Z.leb_le. exact L. }
      apply (in_map fst) in Hf. rewrite H in Hf. exact Hf.
    + intros H.
      assert (Hn : filter fits reg = []).
      { destruct (filter fits reg) as [|[k c] l] eqn:E; [reflexivity|exfalso].
        assert (Hin : In (k, c) (filter fits reg)) by (rewrite E; left; reflexivity).
        apply filter_In in Hin. destruct Hin as [H1 H2]. unfold fits in H2.
        cbn [snd] in H2. apply Z.leb_le in H2. specialize (H _ _ H1). lia. }
      rewrite Hn. reflexivity.
Qed.

Lemma getFreeModels_In reg k :
  In k (getFreeModels reg)
  <-> exists c, In (k, c) reg
                /\ priceInputPerMillion c == 0 /\ priceOutputPerMillion c == 0.
Proof.
  unfold getFreeModels. rewrite in_map_iff. split.
  - intros ([k' c] & <- & H). apply filter_In in H. destruct H as [H1 H2].
    cbn [snd] in H2. apply andb_true_iff in H2. destruct H2 as [H2 H3].
    apply Qeq_bool_iff in H2, H3. exists c. auto.
  - intros (c & H1 & H2 & H3). exists (k, c). split; [reflexivity|].
    apply filter_In. split; [exact H1|]. cbn [snd].
    apply andb_true_iff. split; apply Qeq_bool_iff; assumption.
Qed.

(** X13. With distinct registry keys, a model that [getFreeModels] lists is
    charged nothing: [estimateTokenCost] is a number equal to [0] for every
    token count, and so is the cost the router service computes from
    character counts.  For a name that is no registry key
    [estimateTokenCost] is [0], unless objects inherit the name from
    [Object.prototype]: then it is [NaN].  For every other name the
    service's cost is [estimateTokenCost] at [ceil(chars / 4)] tokens. *)
Theorem X13_free_models_cost_nothing (reg : Registry) (k : string) :
  NoDup (keys reg) ->
  (In k (getFreeModels reg) ->
   forall inputTokens outputTokens inputChars outputChars,
     (exists q, estimateTokenCost reg k inputTokens outputTokens = JS.Finite q
                /\ q == 0)
     /\ calculateActualCost reg k inputChars outputChars == 0)
  /\ (lookup reg k = None ->
      forall inputTokens outputTokens,
        estimateTokenCost reg k inputTokens outputTokens
        = if JS.inherited k then JS.NaN else JS.Finite 0)
  /\ (inherits reg k = false ->
      forall inputChars outputChars,
        estimateTokenCost reg k (inject_Z (JS.ceil_div4 inputChars))
          (inject_Z (JS.ceil_div4 outputChars))
        = JS.Finite (calculateActualCost reg k inputChars outputChars)).
Proof.
  intros Hnd. split; [|split].
  - intros Hk i o ic oc. apply getFreeModels_In in Hk.
    destruct Hk as (c & Hin & Hi & Ho).
    pose proof (In_lookup_NoDup _ _ _ Hnd Hin) as Hl.
    unfold estimateTokenCost, calculateActualCost. rewrite Hl. cbv zeta.
    split.
    + eexists. split; [reflexivity|]. rewrite Hi, Ho. ring.
    + rewrite Hi, Ho. ring.
  - intros Hl i o. unfold estimateTokenCost. rewrite Hl. reflexivity.
  - intros Hi ic oc. unfold inherits in Hi.
    unfold estimateTokenCost, calculateActualCost.
    destruct (lookup reg k); [reflexivity|]. rewrite Hi. reflexivity.
Qed.

Lemma X13_free_models_cost_nothing_witness :
  NoDup (keys MODEL_REGISTRY)
  /\ In "gpt-oss-20b" (getFreeModels MODEL_REGISTRY)
  /\ exists q,
       estimateTokenCost MODEL_REGISTRY "gpt-oss-20b" 1000 1000 = JS.Finite q
       /\ q == 0.
Proof.
  assert (Hnd : NoDup (keys MODEL_REGISTRY)).
  { unfold keys. cbn [map fst MODEL_REGISTRY].
    repeat (constructor; [simpl; intuition discriminate|]). constructor. }
  assert (Hin : In "gpt-oss-20b" (getFreeModels MODEL_REGISTRY))
    by (vm_compute; tauto).
  split; [exact Hnd|]. split; [exact Hin|].
  apply (proj1 (X13_free_models_cost_nothing MODEL_REGISTRY "gpt-oss-20b" Hnd)
           Hin 1000 1000 0%nat 0%nat).
Defined.

(* ===================================================================== *)
(** ** Availability updates *)
(* ===================================================================== *)

Lemma assign_cons_other k c r n b :
  k <> n -> assign ((k, c) :: r) n b = (k, c) :: assign r n b.
Proof.
  intros H. simpl. destruct (String.eqb_spec k n); [contradiction|reflexivity].
Qed.

Lemma reset_fold_cons k c r ks :
  ~ In k ks ->
  fold_left (fun reg name => assign reg name true) ks ((k, c) :: r)
  = (k, c) :: fold_left (fun reg name => assign reg name true) ks r.
Proof.
  revert r. induction ks as [|n ks IH]; intros r Hn; [reflexivity|].
  cbn [fold_left]. rewrite assign_cons_other.
  - apply IH. intros H. apply Hn. right. exact H.
  - intros ->. apply Hn. left. reflexivity.
Qed.

Lemma reset_map reg :
  NoDup (keys reg) ->
  fold_left (fun reg name => assign reg name true) (keys reg) reg
  = map (fun e => (fst e, set_isAvailable (snd e) true)) reg.
Proof.
  unfold keys. induction reg as [|[k c] r IH]; intros Hnd; [reflexivity|].
  inversion Hnd as [|? ? Hn Hnd']; subst.
  cbn [map fst snd fold_left assign]. rewrite String.eqb_refl.
  rewrite reset_fold_cons by exact Hn. rewrite IH by exact Hnd'. reflexivity.
Qed.

Lemma map_true_assign reg name b :
  map (fun e => (fst e, set_isAvailable (snd e) true)) (assign reg name b)
  = map (fun e => (fst e, set_isAvailable (snd e) true)) reg.
Proof.
  induction reg as [|[k c] r IH]; [reflexivity|]. simpl.
  destruct (String.eqb k name); simpl; [reflexivity|]. rewrite IH. reflexivity.
Qed.

Lemma map_true_update name b st :
  map (fun e => (fst e, set_isAvailable (snd e) true))
      (entries (updateModelAvailability name b st))
  = map (fun e => (fst e, set_isAvailable (snd e) true)) (entries st).
Proof.
  unfold updateModelAvailability. destruct (lookup (entries st) name);
    [apply map_true_assign|destruct (JS.inherited name); reflexivity].
Qed.

Lemma keys_update name b st :
  keys (entries (updateModelAvailability name b st)) = keys (entries st).
Proof.
  unfold updateModelAvailability. destruct (lookup (entries st) name);
    [apply keys_assign|destruct (JS.inherited name); reflexivity].
Qed.

(** X14. [updateModelAvailability] on a registry key sets the flag of that
    entry and nothing else: the other fields of the entry, every other
    entry and the order of the keys stay, and the update is recorded in the
    availability cache.  A second update overrides the first. *)
Theorem X14_update_sets_one_flag (st : Store) (k : string)
        (c : BaseModelConfig) (b : bool) :
  lookup (entries st) k = Some c ->
  let st' := updateModelAvailability k b st in
  lookup (entries st') k = Some (set_isAvailable c b)
  /\ isAvailable (set_isAvailable c b) = Some b
  /\ modelName (set_isAvailable c b) = modelName c
  /\ provider (set_isAvailable c b) = provider c
  /\ contextWindowTokens (set_isAvailable c b) = contextWindowTokens c
  /\ priceInputPerMillion (set_isAvailable c b) = priceInputPerMillion c
  /\ priceOutputPerMillion (set_isAvailable c b) = priceOutputPerMillion c
  /\ qualityPriorByType (set_isAvailable c b) = qualityPriorByType c
  /\ (forall k', k' <> k ->
        lookup (entries st') k' = lookup (entries st) k')
  /\ keys (entries st') = keys (entries st)
  /\ availabilityCache st' = (availabilityCache st ++ [(k, b)])%list
  /\ (forall b',
        lookup (entries (updateModelAvailability k b' st')) k
        = Some (set_isAvailable c b')).
Proof.
  intros Hl. cbv zeta.
  split.
  { rewrite lookup_updateModelAvailability, String.eqb_refl, Hl. reflexivity. }
  do 7 (split; [reflexivity|]).
  split.
  { intros k' Hne. rewrite lookup_updateModelAvailability.
    destruct (String.eqb_spec k' k); [contradiction|reflexivity]. }
  split; [apply keys_update|].
  split.
  { unfold updateModelAvailability. rewrite Hl. reflexivity. }
  intros b'. rewrite !lookup_updateModelAvailability, String.eqb_refl, Hl.
  reflexivity.
Qed.

Lemma X14_update_sets_one_flag_witness :
  exists c,
    lookup (entries initial_store) "gpt-5" = Some c
    /\ lookup (entries (updateModelAvailability "gpt-5" false initial_store))
         "gpt-5"
       = Some (set_isAvailable c false).
Proof.
  assert (H : exists c, lookup (entries initial_store) "gpt-5" = Some c)
    by (eexists; reflexivity).
  destruct H as [c Hc]. exists c. split; [exact Hc|].
  exact (proj1 (X14_update_sets_one_flag initial_store "gpt-5" c false Hc)).
Defined.

Section ResetRestores.
Context {R : JSRuntime} {W : World}.

Lemma runs_map_true s0 s :
  runs s0 s ->
  map (fun e => (fst e, set_isAvailable (snd e) true)) (entries (store s))
  = map (fun e => (fst e, set_isAvailable (snd e) true)) (entries (store s0))
  /\ keys (entries (store s)) = keys (entries (store s0)).
Proof.
  induction 1 as [|s1 s2 s3 _ IH Hst]; [split; reflexivity|].
  destruct IH as [IH1 IH2].
  destruct (step_store _ _ Hst) as [->|(name & ->)]; [split; assumption|].
  rewrite map_true_update, keys_update. split; assumption.
Qed.

(** X15. Whatever models were marked unavailable since, by direct marks or
    by failed invocations of routed prompts, [resetAllModelAvailability]
    yields the registry the run started from with every flag set to
    [true]: the same keys in the same order, and entries that differ from
    the initial ones in the flag only. *)
Theorem X15_reset_restores_registry (s0 s : State) :
  NoDup (keys (entries (store s0))) ->
  runs s0 s ->
  entries (resetAllModelAvailability (store s))
  = map (fun e => (fst e, set_isAvailable (snd e) true)) (entries (store s0)).
Proof.
  intros Hnd Hruns. destruct (runs_map_true _ _ Hruns) as [Hm Hk].
  unfold resetAllModelAvailability. cbn [entries].
  rewrite reset_map by (rewrite Hk; exact Hnd). exact Hm.
Qed.

End ResetRestores.

Lemma X15_reset_restores_registry_witness :
  entries
    (resetAllModelAvailability
       (store (snd (markModelUnavailable "gpt-5" initial_state))))
  = map (fun e => (fst e, set_isAvailable (snd e) true))
        (entries (store initial_state)).
Proof.
  apply (X15_reset_restores_registry (R := sample_runtime) (W := world_all_down)).
  - unfold keys. cbn [map fst MODEL_REGISTRY entries store initial_state
                        initial_store].
    repeat (constructor; [simpl; intuition discriminate|]). constructor.
  - eapply runs_step; [apply runs_refl|]. apply step_mark.
Defined.

(* ===================================================================== *)
(** ** The client factory *)
(* ===================================================================== *)

Lemma cache_get_set c k v k' :
  cache_get (cache_set c k v) k'
  = if String.eqb k k' then Some v else cache_get c k'.
Proof.
  induction c as [|[k0 w] c IH]; simpl.
  - destruct (String.eqb k k'); reflexivity.
  - destruct (String.eqb_spec k0 k) as [->|Hne]; simpl.
    + destruct (String.eqb k k'); reflexivity.
    + destruct (String.eqb_spec k0 k') as [->|Hne'].
      * destruct (String.eqb_spec k k'); [congruence|reflexivity].
      * exact IH.
Qed.

Lemma createClient_modelName cfg cl :
  createClient cfg = inr cl -> cl_modelName cl = modelName cfg.
Proof.
  unfold createClient.
  destruct (JS.includes (modelName cfg) ":" && JS.includes (modelName cfg) "fireworks-ai").
  - intros [= <-]. reflexivity.
  - destruct (provider cfg); intros [= <-]; reflexivity.
Qed.

Lemma find_name_spec (reg : Registry) name kc :
  JS.find (fun kc => String.eqb (modelName (snd kc)) name) reg = Some kc ->
  In kc reg /\ modelName (snd kc) = name.
Proof.
  unfold JS.find. intros H. apply find_some in H. destruct H as [H1 H2].
  apply String.eqb_eq in H2. auto.
Qed.

Lemma resolve_spec reg name key cfg :
  resolve reg name = Some (key, cfg) ->
  (key = name /\ lookup reg name = Some cfg)
  \/ (lookup reg name = None /\ In (key, cfg) reg /\ modelName cfg = name).
Proof.
  unfold resolve. destruct (lookup reg name) as [c|] eqn:E.
  - intros [= <- <-]. left. auto.
  - intros H. apply find_name_spec in H. right. cbn [snd] in H. tauto.
Qed.

(** X16. A client that [getClient] returns is cached under the requested
    name, so the next request for that name returns the same client and
    changes nothing, whatever the registry has become.  A client that had
    to be created carries the provider model name of the entry the name
    resolves to, by key or else by provider model name, and is cached under
    both the key and the provider model name. *)
Theorem X16_getClient_caches (reg : Registry) (name : string) (c : Cache)
        (cl : Client) (c' : Cache) :
  getClient reg name c = (inr cl, c') ->
  cache_get c' name = Some cl
  /\ (forall reg', getClient reg' name c' = (inr cl, c'))
  /\ (cache_get c name = Some cl /\ c' = c
      \/ cache_get c name = None
         /\ exists key cfg,
              resolve reg name = Some (key, cfg)
              /\ createClient cfg = inr cl
              /\ cl_modelName cl = modelName cfg
              /\ cache_get c' key = Some cl
              /\ cache_get c' (modelName cfg) = Some cl
              /\ forall n, n <> key -> n <> modelName cfg ->
                           cache_get c' n = cache_get c n).
Proof.
  unfold getClient. destruct (cache_get c name) as [cl0|] eqn:Eg.
  - intros [= <- <-]. split; [exact Eg|]. split.
    + intros reg'. unfold getClient. rewrite Eg. reflexivity.
    + left. auto.
  - destruct (inherits reg name); [discriminate|].
    destruct (resolve reg name) as [[key cfg]|] eqn:Er; [|discriminate].
    destruct key as [|a key]; [discriminate|].
    destruct (createClient cfg) as [e|cl0] eqn:Ec; [discriminate|].
    intros [= <- <-].
    assert (Hk : cache_get (cache_set (cache_set c (String a key) cl0)
                              (modelName cfg) cl0) (String a key) = Some cl0).
    { rewrite !cache_get_set, String.eqb_refl.
      destruct (String.eqb (modelName cfg) (String a key)); reflexivity. }
    assert (Hm : cache_get (cache_set (cache_set c (String a key) cl0)
                              (modelName cfg) cl0) (modelName cfg) = Some cl0).
    { rewrite cache_get_set, String.eqb_refl. reflexivity. }
    assert (Hn : cache_get (cache_set (cache_set c (String a key) cl0)
                              (modelName cfg) cl0) name = Some cl0).
    { destruct (resolve_spec _ _ _ _ Er) as [[<- _]|(_ & _ & <-)]; assumption. }
    split; [exact Hn|]. split.
    + intros reg'. unfold getClient. rewrite Hn. reflexivity.
    + right. split; [reflexivity|]. exists (String a key), cfg.
      split; [reflexivity|]. split; [exact Ec|].
      split; [apply createClient_modelName; exact Ec|].
      split; [exact Hk|]. split; [exact Hm|].
      intros n H1 H2. rewrite !cache_get_set.
      destruct (String.eqb_spec (modelName cfg) n); [congruence|].
      destruct (String.eqb_spec (String a key) n); [congruence|reflexivity].
Qed.

(** X17. A failing [getClient] leaves the cache as it was.  It fails only
    for a name that is not cached: with the [TypeError] of reading
    [includes] of [undefined] when the name is no registry key but one that
    objects inherit from [Object.prototype]; otherwise with [Unknown model:
    name] when the name is neither a registry key nor a provider model name
    of the registry (or resolves to the empty key), and with [Unknown
    provider: huggingface] when the entry has the Hugging Face provider but
    a provider model name without [:] or [fireworks-ai]. *)
Theorem X17_getClient_failure (reg : Registry) (name : string) (c : Cache)
        (e : Thrown) (c' : Cache) :
  getClient reg name c = (inl e, c') ->
  c' = c
  /\ cache_get c name = None
  /\ ((inherits reg name = true
       /\ e = ErrorObj "Cannot read properties of undefined (reading 'includes')")
      \/ (inherits reg name = false
          /\ e = ErrorObj ("Unknown model: " ++ name)
          /\ (resolve reg name = None
              \/ exists cfg, resolve reg name = Some ("", cfg)))
      \/ (inherits reg name = false
          /\ e = ErrorObj "Unknown provider: huggingface"
          /\ exists key cfg,
               resolve reg name = Some (key, cfg)
               /\ provider cfg = HUGGINGFACE
               /\ (JS.includes (modelName cfg) ":"
                   && JS.includes (modelName cfg) "fireworks-ai") = false)).
Proof.
  unfold getClient. destruct (cache_get c name) as [cl0|] eqn:Eg; [discriminate|].
  destruct (inherits reg name) eqn:Einh.
  { intros [= <- <-]. split; [reflexivity|]. split; [reflexivity|].
    left. split; reflexivity. }
  destruct (resolve reg name) as [[key cfg]|] eqn:Er.
  - destruct key as [|a key].
    + intros [= <- <-]. split; [reflexivity|]. split; [reflexivity|].
      right. left. split; [reflexivity|]. split; [reflexivity|].
      right. exists cfg. reflexivity.
    + destruct (createClient cfg) as [e0|cl0] eqn:Ec; [|discriminate].
      intros [= <- <-]. split; [reflexivity|]. split; [reflexivity|].
      right. right. unfold createClient in Ec.
      destruct (JS.includes (modelName cfg) ":"
                && JS.includes (modelName cfg) "fireworks-ai") eqn:Ei;
        [discriminate|].
      destruct (provider cfg) eqn:Ep; try discriminate.
      injection Ec as <-. split; [reflexivity|]. split; [reflexivity|].
      exists (String a key), cfg. auto.
  - intros [= <- <-]. split; [reflexivity|]. split; [reflexivity|].
    right. left. split; [reflexivity|]. split; [reflexivity|].
    left. reflexivity.
Qed.

Lemma X16_getClient_caches_witness :
  exists cl c',
    getClient MODEL_REGISTRY "openai/gpt-oss-20b:fireworks-ai" [] = (inr cl, c')
    /\ cache_get c' "openai/gpt-oss-20b:fireworks-ai" = Some cl
    /\ getClient MODEL_REGISTRY "openai/gpt-oss-20b:fireworks-ai" c'
       = (inr cl, c').
Proof.
  destruct (getClient MODEL_REGISTRY "openai/gpt-oss-20b:fireworks-ai" [])
    as [[e|cl] c'] eqn:E.
  - exfalso. vm_compute in E. discriminate E.
  - exists cl, c'. split; [reflexivity|].
    destruct (X16_getClient_caches _ _ _ _ _ E) as (H1 & H2 & _).
    split; [exact H1|apply H2].
Defined.

Lemma X17_getClient_failure_witness :
  exists e c',
    getClient MODEL_REGISTRY "gpt-oss" [] = (inl e, c')
    /\ c' = [] /\ e = ErrorObj "Unknown model: gpt-oss".
Proof.
  destruct (getClient MODEL_REGISTRY "gpt-oss" []) as [[e|cl] c'] eqn:E.
  - exists e, c'. split; [reflexivity|].
    destruct (X17_getClient_failure _ _ _ _ _ E) as (H1 & _ & H3).
    split; [exact H1|].
    destruct H3 as [[Hi _]|[(_ & -> & _)|(_ & _ & key & cfg & Hr & _)]].
    + exfalso. vm_compute in Hi. discriminate Hi.
    + reflexivity.
    + exfalso. vm_compute in Hr. discriminate Hr.
  - exfalso. vm_compute in E. discriminate E.
Defined.

(* ===================================================================== *)
(** ** The analytics views *)
(* ===================================================================== *)

(** X18. [getRecentLogs] reads the buffer and changes nothing.  For a limit
    [n >= 1] it returns the [n] newest entries, newest first (all of them
    when there are fewer), and the default limit is 50.  For the limit [0]
    it returns the whole buffer, newest first; for a limit [-n < 0] it
    returns all but the [n] oldest entries. *)
Theorem X18_recent_logs (limit : option Z) (s : State) :
  exists logs,
    getRecentLogs limit s = (inr logs, s)
    /\ (forall n, limit = Some n -> (1 <= n)%Z ->
          logs = firstn (Z.to_nat n) (rev (requestLogs s))
          /\ (length logs <= Z.to_nat n)%nat)
    /\ (limit = None -> logs = firstn 50 (rev (requestLogs s)))
    /\ (limit = Some 0%Z -> logs = rev (requestLogs s))
    /\ (forall n, limit = Some (- n)%Z -> (1 <= n)%Z ->
          logs = rev (skipn (Z.to_nat n) (requestLogs s))).
Proof.
  eexists. split; [reflexivity|].
  assert (Hpos : forall n, (1 <= n)%Z ->
            rev (slice_from (- n) (requestLogs s))
            = firstn (Z.to_nat n) (rev (requestLogs s))).
  { intros n Hn. unfold slice_from. cbv zeta.
    destruct (Z.ltb_spec (- n) 0) as [_|L]; [|lia].
    rewrite firstn_rev. do 2 f_equal. lia. }
  split; [|split; [|split]].
  - intros n -> Hn. rewrite Hpos by exact Hn. split; [reflexivity|].
    apply firstn_le_length.
  - intros ->. apply (Hpos 50%Z). lia.
  - intros ->. unfold slice_from. cbv zeta. change (- 0)%Z with 0%Z.
    change (0 <? 0)%Z with false. cbv iota.
    rewrite Z.min_l by lia. reflexivity.
  - intros n -> Hn. unfold slice_from. cbv zeta. rewrite Z.opp_involutive.
    destruct (Z.ltb_spec n 0) as [L|_]; [lia|].
    destruct (Z.le_ge_cases n (Z.of_nat (length (requestLogs s)))) as [L|L].
    + rewrite Z.min_l by exact L. reflexivity.
    + rewrite Z.min_r by lia. rewrite Nat2Z.id.
      rewrite !skipn_all2; [reflexivity|lia|lia].
Qed.

Lemma pushLog_length_S logs log :
  (length (pushLog logs log) <= S (length logs))%nat.
Proof.
  rewrite pushLog_slice. unfold JS.slice_last.
  rewrite length_skipn, length_app. simpl. lia.
Qed.

Lemma ratio_range (c t : nat) :
  (c <= t)%nat -> (0 < t)%nat -> 0 <= Qnat c / Qnat t <= 1.
Proof.
  intros Hc Ht.
  assert (Hpos : 0 < Qnat t).
  { unfold Qnat. change 0 with (inject_Z 0). rewrite <- Zlt_Qlt. lia. }
  split.
  - apply Qdiv_nonneg; [apply Qnat_nonneg|apply Qlt_le_weak; exact Hpos].
  - apply Qle_shift_div_r; [exact Hpos|]. rewrite Qmult_1_l.
    unfold Qnat. rewrite <- Zle_Qle. lia.
Qed.

Lemma savings_fold (logs : list RequestLog) : forall a,
  fold_left (fun sum log => sum + log_costUsd log * 0.2) logs a
  == a + 0.2 * fold_right Qplus 0 (map log_costUsd logs).
Proof.
  induction logs as [|l logs IH]; intros a; simpl.
  - ring.
  - rewrite IH. ring.
Qed.

Section Views.
Context {R : JSRuntime} {W : World}.

Lemma runs_logs_counted s :
  runs initial_state s ->
  (length (requestLogs s) <= totalRequests (metrics s))%nat
  /\ (length (requestLogs s) <= 1000)%nat.
Proof.
  remember initial_state as s0 eqn:E0.
  induction 1 as [s0|s1 s2 s3 _ IH Hst]; [subst s0; simpl; lia|].
  specialize (IH E0). destruct IH as [IH1 IH2].
  destruct Hst as [name s2|req s2|p pr u sid s2|s2].
  - split; assumption.
  - destruct (rq_promptType req) as [promptType|] eqn:Hpt.
    + rewrite (routeRequest_state req promptType s2 Hpt).
      cbn [metrics with_metrics requestLogs updateMetrics totalRequests].
      split; [lia|exact IH2].
    + unfold routeRequest. rewrite Hpt. split; assumption.
  - destruct (routePrompt_metrics p pr u sid s2) as (c & s' & _ & Hm).
    rewrite Hm. cbn [updateMetrics totalRequests].
    destruct (routePrompt_summary p pr u sid s2) as [_ Hl].
    destruct (routePrompt p pr u sid s2) as [[e|r] s3]; cbn [snd].
    + destruct Hl as [-> _]. split; [lia|exact IH2].
    + destruct Hl as (e & -> & _).
      pose proof (pushLog_length_S (requestLogs s2) e).
      pose proof (pushLog_length (requestLogs s2) e) as H1.
      unfold maxLogs in H1. split; lia.
  - simpl. split; lia.
Qed.

(** X19. In every state a fresh service reaches, [getMetrics] reports as
    [totalRequests] the number of entries in the analytics buffer, which is
    at most 1000 and at most the number of requests the engine counted; the
    classification accuracy is the share of buffered entries with a
    confidence above [0.6], a number in [[0, 1]] that is [0] for an empty
    buffer; and the total cost savings are a fifth of the summed cost of
    the buffered entries.  Reading the metrics changes nothing. *)
Theorem X19_service_metrics (s : State) :
  runs initial_state s ->
  exists m,
    getMetrics s = (inr m, s)
    /\ rm_totalRequests m = length (requestLogs s)
    /\ (rm_totalRequests m <= 1000)%nat
    /\ (rm_totalRequests m <= totalRequests (metrics s))%nat
    /\ 0 <= rm_classificationAccuracy m <= 1
    /\ (requestLogs s = [] -> rm_classificationAccuracy m = 0)
    /\ (requestLogs s <> [] ->
        rm_classificationAccuracy m
        = Qnat (length (filter (fun log =>
                                  JS.Qgtb (log_classificationConfidence log) 0.6)
                               (requestLogs s)))
          / Qnat (length (requestLogs s)))
    /\ rm_totalCostSavings m
       == 0.2 * fold_right Qplus 0 (map log_costUsd (requestLogs s)).
Proof.
  intros Hruns. destruct (runs_logs_counted s Hruns) as [H1 H2].
  eexists. split; [reflexivity|].
  cbn [rm_totalRequests rm_classificationAccuracy rm_totalCostSavings].
  split; [reflexivity|]. split; [exact H2|]. split; [exact H1|].
  split; [|split; [|split]].
  - destruct (Nat.ltb_spec 0 (length (requestLogs s))) as [L|L].
    + apply ratio_range; [apply filter_length_le|exact L].
    + split; discriminate.
  - intros ->. reflexivity.
  - intros Hne. destruct (requestLogs s); [contradiction|reflexivity].
  - rewrite savings_fold. ring.
Qed.

End Views.

Lemma X19_service_metrics_witness :
  exists m s',
    getMetrics
      (snd (routePrompt (R := sample_runtime) (W := world_up "ok")
              summarize_prompt COST None None initial_state))
    = (inr m, s')
    /\ (rm_totalRequests m <= 1000)%nat.
Proof.
  destruct (X19_service_metrics (R := sample_runtime) (W := world_up "ok")
              (snd (routePrompt (R := sample_runtime) (W := world_up "ok")
                      summarize_prompt COST None None initial_state)))
    as (m & Hm & _ & H & _).
  - eapply runs_step; [apply runs_refl|]. apply step_prompt.
  - exists m. eexists. split; [exact Hm|exact H].
Defined.

(* ===================================================================== *)
(** ** Generation options *)
(* ===================================================================== *)

Lemma truthy_and_false (x : option Q) (test : Q -> bool) :
  truthy_and x test = false
  <-> match x with
      | Some v => v == 0 \/ test v = false
      | None => True
      end.
Proof.
  unfold truthy_and. destruct x as [v|]; [|tauto].
  rewrite andb_false_iff, negb_false_iff, Qeq_bool_iff. tauto.
Qed.

Lemma in_range_false v lo hi :
  JS.Qltb v lo || JS.Qgtb v hi = false <-> lo <= v <= hi.
Proof.
  rewrite orb_false_iff. unfold JS.Qltb, JS.Qgtb.
  rewrite !negb_false_iff, !Qle_bool_iff. tauto.
Qed.

(** X20. [validateOptions] accepts exactly the options whose [maxTokens] is
    absent, zero or at least [1], whose [temperature] is absent or in
    [[0, 2]], and whose [topP] is absent or in [[0, 1]]; in particular
    [maxTokens = 0] is accepted.  The first failing test, in the order
    [maxTokens], [temperature], [topP], gives the message of the error. *)
Theorem X20_validateOptions_accepts (options : ClientOptions) :
  let tokens_ok :=
    match o_maxTokens options with
    | Some v => v == 0 \/ 1 <= v
    | None => True
    end in
  let temperature_ok :=
    match o_temperature options with
    | Some v => 0 <= v <= 2
    | None => True
    end in
  let topP_ok :=
    match o_topP options with
    | Some v => 0 <= v <= 1
    | None => True
    end in
  (validateOptions options = inr tt
   <-> tokens_ok /\ temperature_ok /\ topP_ok)
  /\ (validateOptions options
      = inl (ErrorObj "maxTokens must be at least 1")
      <-> ~ tokens_ok)
  /\ (validateOptions options
      = inl (ErrorObj "temperature must be between 0 and 2")
      <-> tokens_ok /\ ~ temperature_ok)
  /\ (validateOptions options
      = inl (ErrorObj "topP must be between 0 and 1")
      <-> tokens_ok /\ temperature_ok /\ ~ topP_ok).
Proof.
  cbv zeta. unfold validateOptions.
  assert (T : truthy_and (o_maxTokens options) (fun v => JS.Qltb v 1) = false
              <-> match o_maxTokens options with
                  | Some v => v == 0 \/ 1 <= v
                  | None => True
                  end).
  { rewrite truthy_and_false. destruct (o_maxTokens options) as [v|]; [|tauto].
    unfold JS.Qltb. rewrite negb_false_iff, Qle_bool_iff. tauto. }
  assert (P : truthy_and (o_temperature options)
                (fun v => JS.Qltb v 0 || JS.Qgtb v 2) = false
              <-> match o_temperature options with
                  | Some v => 0 <= v <= 2
                  | None => True
                  end).
  { rewrite truthy_and_false. destruct (o_temperature options) as [v|]; [|tauto].
    rewrite in_range_false. split; [|tauto].
    intros [H|H]; [|exact H]. rewrite H. split; discriminate. }
  assert (Q : truthy_and (o_topP options)
                (fun v => JS.Qltb v 0 || JS.Qgtb v 1) = false
              <-> match o_topP options with
                  | Some v => 0 <= v <= 1
                  | None => True
                  end).
  { rewrite truthy_and_false. destruct (o_topP options) as [v|]; [|tauto].
    rewrite in_range_false. split; [|tauto].
    intros [H|H]; [|exact H]. rewrite H. split; discriminate. }
  destruct (truthy_and (o_maxTokens options) _) eqn:E1.
  { assert (N1 : ~ match o_maxTokens options with
                   | Some v => v == 0 \/ 1 <= v
                   | None => True
                   end) by (intros H; apply T in H; discriminate).
    repeat split; try discriminate; try tauto; intros; exfalso; tauto. }
  pose proof (proj1 T eq_refl) as Y1. clear T.
  destruct (truthy_and (o_temperature options) _) eqn:E2.
  { assert (N2 : ~ match o_temperature options with
                   | Some v => 0 <= v <= 2
                   | None => True
                   end) by (intros H; apply P in H; discriminate).
    repeat split; try discriminate; try tauto; intros; exfalso; tauto. }
  pose proof (proj1 P eq_refl) as Y2. clear P.
  destruct (truthy_and (o_topP options) _) eqn:E3.
  { assert (N3 : ~ match o_topP options with
                   | Some v => 0 <= v <= 1
                   | None => True
                   end) by (intros H; apply Q in H; discriminate).
    repeat split; try discriminate; try tauto; intros; exfalso; tauto. }
  pose proof (proj1 Q eq_refl) as Y3. clear Q.
  repeat split; try discriminate; try tauto; intros; exfalso; tauto.
Qed.

(** X21. The options the router sends pass the validation of the OpenAI,
    Anthropic and Google clients for every category and every timeout: the
    options of the first invocation, of the fallback invocation and of the
    classification call.  The merged options carry the router's token
    limit, temperature and timeout, and the defaults [topP = 1],
    [frequencyPenalty = 0] and [presencePenalty = 0]; the classification
    call, which gives no timeout, gets the default [30000]. *)
Theorem X21_router_options_are_valid (t : PromptType) (timeout : Q) :
  (exists merged,
      prepareOptions (Some (of_generation (primaryOptions t timeout)))
      = inr merged
      /\ o_maxTokens merged = Some (getMaxOutputTokens t)
      /\ o_temperature merged = Some (getTemperatureForPromptType t)
      /\ o_timeoutMs merged = Some timeout
      /\ o_topP merged = Some 1.0
      /\ o_frequencyPenalty merged = Some 0.0
      /\ o_presencePenalty merged = Some 0.0
      /\ o_systemPrompt merged = None)
  /\ (exists merged,
         prepareOptions (Some (of_generation (fallbackOptions t)))
         = inr merged
         /\ o_maxTokens merged = Some (getMaxOutputTokens t)
         /\ o_temperature merged = Some 0.7
         /\ o_timeoutMs merged = Some 30000)
  /\ (exists merged,
         prepareOptions (Some (of_generation classificationOptions))
         = inr merged
         /\ o_maxTokens merged = Some 200
         /\ o_temperature merged = Some 0.1
         /\ o_timeoutMs merged = Some 30000
         /\ o_systemPrompt merged = systemPrompt classificationOptions)
  /\ 1500 <= getMaxOutputTokens t <= 3000
  /\ 0.1 <= getTemperatureForPromptType t <= 0.8.
Proof.
  split; [|split; [|split; [|split]]].
  - destruct t; eexists; (split; [reflexivity|]); repeat split.
  - destruct t; eexists; (split; [reflexivity|]); repeat split.
  - eexists; (split; [reflexivity|]); repeat split.
  - destruct t; split; discriminate.
  - destruct t; split; discriminate.
Qed.

(* ===================================================================== *)
(** ** The HTTP handlers *)
(* ===================================================================== *)

Section Handlers.
Context {R : JSRuntime} {W : World}.

(** X22. [POST] answers 400 and touches nothing when the body carries no
    non-empty string as prompt.  Otherwise it routes the prompt on a new
    service: on a response it
    answers 200 and the buffer of that service holds exactly the entry of
    this request; on a failure it answers 500 with the error [Routing
    failed] and the message of the routing error as details, and the
    buffer is empty.  Either way the engine of that service has counted one
    request, and the registry is the one before the request, possibly with
    the selected model marked unavailable.  A body that cannot be read
    gives 500 and touches nothing. *)
Theorem X22_POST_outcomes (body : Thrown + PostBody) (s : State) :
  match POST body s with
  | (BadRequest400 error, s') =>
      s' = s
      /\ error = "Prompt is required and must be a string"
      /\ exists b, body = inr b
                   /\ (b_prompt b = JString "" \/ b_prompt b = JTruthyOther
                       \/ b_prompt b = JFalsy)
  | (Ok200 result, s') =>
      exists b prompt log,
        body = inr b
        /\ b_prompt b = JString prompt /\ prompt <> ""
        /\ requestLogs s' = [log]
        /\ log_prompt log = prompt
        /\ totalRequests (metrics s') = 1%nat
        /\ (store s' = store s
            \/ exists name,
                 store s' = updateModelAvailability name false (store s))
  | (ServerError500 error details, s') =>
      error = "Routing failed"
      /\ ((exists e, body = inl e /\ s' = s
                     /\ details = message_or e "Unknown error")
          \/ (exists b prompt e0,
                 body = inr b
                 /\ b_prompt b = JString prompt /\ prompt <> ""
                 /\ details
                    = "Routing failed: "
                        ++ JS.or_str (errorMessage e0) "Unknown routing error"
                 /\ requestLogs s' = []
                 /\ totalRequests (metrics s') = 1%nat
                 /\ (store s' = store s
                     \/ exists name,
                          store s'
                          = updateModelAvailability name false (store s))))
  end.
Proof.
  unfold POST. destruct body as [e|b].
  { split; [reflexivity|]. left. exists e. auto. }
  destruct (b_prompt b) as [[|a r]| |] eqn:Ep;
    try (split; [reflexivity|]; split; [reflexivity|]; exists b;
         split; [reflexivity|]; tauto).
  set (pr := match b_priorityPreset b with Some p => p | None => BALANCED end).
  set (s0 := newRouterService s).
  pose proof (routePrompt_store (String a r) pr None None s0) as Hst.
  destruct (routePrompt_metrics (String a r) pr None None s0)
    as (c & s1 & _ & Hm).
  destruct (routePrompt_summary (String a r) pr None None s0) as [_ Hl].
  destruct (routePrompt (String a r) pr None None s0) as [[e|result] s'];
    cbn [snd] in *.
  - split; [reflexivity|]. right.
    destruct Hl as [Hlogs (e0 & ->)].
    exists b, (String a r), e0. split; [reflexivity|]. split; [exact Ep|].
    split; [discriminate|]. split; [reflexivity|].
    split; [rewrite Hlogs; reflexivity|].
    split; [rewrite Hm; reflexivity|]. exact Hst.
  - destruct Hl as (log & Hlogs & Hp & _ & Ha).
    exists b, (String a r), log. split; [reflexivity|]. split; [exact Ep|].
    split; [discriminate|]. split; [rewrite Hlogs; reflexivity|].
    split; [exact Hp|]. split; [rewrite Hm; reflexivity|exact Hst].
Qed.

End Handlers.

(** X23. [GET] lists one status per registry key, in the order of the keys,
    with the provider model name of the entry and an availability that is
    [false] only for an entry flagged [false].  [PUT] with the action
    [reset] answers 200 and afterwards [GET] lists the same models, all
    available; with any other action it answers 400 and with an unreadable
    body 500, and neither changes anything. *)
Theorem X23_GET_and_PUT (s : State) :
  NoDup (keys (entries (store s))) ->
  map st_name (GET s) = keys (entries (store s))
  /\ (forall m, In m (GET s) ->
        (st_isAvailable m = false <-> st_isAvailableRaw m = Some false)
        /\ exists c, lookup (entries (store s)) (st_name m) = Some c
                     /\ st_modelName m = modelName c
                     /\ st_isAvailableRaw m = isAvailable c)
  /\ (exists s',
         PUT (inr (Some "reset")) s
         = (Reset200 "All models reset to available", s')
         /\ map st_name (GET s') = map st_name (GET s)
         /\ map st_modelName (GET s') = map st_modelName (GET s)
         /\ forall m, In m (GET s') -> st_isAvailable m = true)
  /\ (forall action, action <> Some "reset" ->
        PUT (inr action) s = (InvalidAction400 "Invalid action", s))
  /\ (forall e, PUT (inl e) s = (ResetFailed500 "Failed to reset models", s)).
Proof.
  intros Hnd. split; [|split; [|split; [|split]]].
  - unfold GET, keys. rewrite map_map. reflexivity.
  - intros m Hm. unfold GET in Hm. apply in_map_iff in Hm.
    destruct Hm as ([k c] & <- & Hin). cbn [st_isAvailable st_isAvailableRaw
      st_name st_modelName fst snd]. split.
    + destruct (isAvailable c) as [[|]|]; split; congruence.
    + exists c. split; [apply In_lookup_NoDup; assumption|]. auto.
  - eexists. split; [reflexivity|].
    unfold GET, resetAllModelAvailability. cbn [store with_store entries].
    rewrite reset_map by exact Hnd. rewrite !map_map. cbn [fst snd].
    split; [reflexivity|]. split; [reflexivity|].
    intros m Hm. apply in_map_iff in Hm. destruct Hm as (e & <- & _).
    reflexivity.
  - intros action Hne. unfold PUT.
    destruct action as [a|]; [|reflexivity].
    destruct (String.eqb_spec a "reset") as [->|Hn]; [congruence|].
    repeat match goal with
           | |- context [match ?x with _ => _ end] =>
               destruct x; try reflexivity; try congruence
           end.
  - intros e. reflexivity.
Qed.

Lemma X23_GET_and_PUT_witness :
  NoDup (keys (entries (store initial_state)))
  /\ map st_name (GET initial_state)
     = ["claude-3-7-sonnet-20250219"; "gpt-5"; "gemini-1.5-flash";
        "gpt-4o-mini"; "gpt-oss-20b"].
Proof.
  assert (Hnd : NoDup (keys (entries (store initial_state)))).
  { unfold keys. cbn [map fst MODEL_REGISTRY entries store initial_state
                        initial_store].
    repeat (constructor; [simpl; intuition discriminate|]). constructor. }
  split; [exact Hnd|].
  rewrite (proj1 (X23_GET_and_PUT initial_state Hnd)). reflexivity.
Defined.

(* ===================================================================== *)
(** ** The best alternative *)
(* ===================================================================== *)

Lemma option_eq_false (o : option bool) : o = Some false \/ o <> Some false.
Proof. destruct o as [[|]|]; [right|left|right]; congruence. Qed.

Lemma option_string_dec (a b : option string) : a = b \/ a <> b.
Proof.
  destruct a as [x|], b as [y|]; try (right; congruence); try (left; reflexivity).
  destruct (string_dec x y) as [->|N]; [left; reflexivity|right; congruence].
Qed.

Lemma alternative_candidates reg t exclude m :
  In m (filter (fun m =>
                  mc_isAvailable m
                  && match exclude with
                     | Some x => negb (String.eqb (name_of m) x)
                     | None => true
                     end
                  && supports m t)
               (flat_map (fun baseConfig =>
                            match getModelByName reg (modelName baseConfig) with
                            | Some m => [m]
                            | None => []
                            end)
                         (values reg)))
  <-> exists c0 c,
        In c0 (values reg)
        /\ lookup reg (modelName c0) = Some c
        /\ m = computeDerivedProperties c
        /\ isAvailable c <> Some false
        /\ In t (map fst (qualityPriorByType c))
        /\ exclude <> Some (modelName c).
Proof.
  rewrite filter_In, in_flat_map. unfold getModelByName. split.
  - intros [(c0 & Hc0 & Hm) Hb].
    destruct (lookup reg (modelName c0)) as [c|] eqn:El;
      cbn [option_map] in Hm; [|destruct Hm].
    destruct Hm as [<-|[]].
    apply andb_true_iff in Hb. destruct Hb as [Hb Hs].
    apply andb_true_iff in Hb. destruct Hb as [Ha Hx].
    exists c0, c. split; [exact Hc0|]. split; [exact El|]. split; [reflexivity|].
    split.
    { cbn [mc_isAvailable computeDerivedProperties] in Ha.
      intros E. rewrite E in Ha. discriminate. }
    split.
    { unfold supports in Hs. cbn [capabilities computeDerivedProperties] in Hs.
      apply existsb_exists in Hs. destruct Hs as (u & Hu & E).
      apply PromptType_eqb_eq in E. subst u. exact Hu. }
    destruct exclude as [x|]; [|discriminate].
    apply negb_true_iff, String.eqb_neq in Hx. unfold name_of in Hx.
    cbn [base computeDerivedProperties] in Hx. congruence.
  - intros (c0 & c & Hc0 & El & -> & Ha & Ht & Hx). split.
    + exists c0. split; [exact Hc0|]. rewrite El. left. reflexivity.
    + apply andb_true_iff. split; [apply andb_true_iff; split|].
      * cbn [mc_isAvailable computeDerivedProperties].
        destruct (isAvailable c) as [[|]|]; congruence.
      * destruct exclude as [x|]; [|reflexivity].
        apply negb_true_iff, String.eqb_neq. unfold name_of.
        cbn [base computeDerivedProperties]. congruence.
      * unfold supports. cbn [capabilities computeDerivedProperties].
        apply existsb_exists. exists t. split; [exact Ht|].
        apply PromptType_eqb_eq. reflexivity.
Qed.

(** X24. [getBestAlternativeForPromptType] looks every entry up again by
    its provider model name.  What it returns is an entry stored under a
    key that is the provider model name of some entry, not flagged
    unavailable, listing the category, and with a provider model name other
    than the excluded one; it returns nothing exactly when no such entry
    exists.  An entry whose key is no entry's provider model name is never
    returned. *)
Theorem X24_best_alternative (reg : Registry) (t : PromptType)
        (exclude : option string) :
  match getBestAlternativeForPromptType reg t exclude with
  | Some best =>
      exists c0 c,
        In c0 (values reg)
        /\ lookup reg (modelName c0) = Some c
        /\ sm_config best = computeDerivedProperties c
        /\ isAvailable c <> Some false
        /\ In t (map fst (qualityPriorByType c))
        /\ exclude <> Some (modelName c)
  | None =>
      forall c0 c,
        In c0 (values reg) -> lookup reg (modelName c0) = Some c ->
        isAvailable c = Some false
        \/ ~ In t (map fst (qualityPriorByType c))
        \/ exclude = Some (modelName c)
  end.
Proof.
  unfold getBestAlternativeForPromptType.
  set (cands := filter _ _).
  assert (Hc : forall m, In m cands <-> _)
    by (intros m; apply alternative_candidates).
  clearbody cands.
  destruct cands as [|m0 ms].
  - intros c0 c Hc0 El.
    destruct (option_eq_false (isAvailable c)) as [Ea|Ea]; [left; exact Ea|].
    right.
    destruct (existsb (PromptType_eqb t) (map fst (qualityPriorByType c)))
      eqn:Et.
    + apply existsb_exists in Et. destruct Et as (u & Hu & E).
      apply PromptType_eqb_eq in E. subst u. right.
      destruct (option_string_dec exclude (Some (modelName c))) as [Ex|Ex];
        [exact Ex|].
      exfalso. apply (proj2 (Hc (computeDerivedProperties c))).
      exists c0, c. split; [exact Hc0|]. split; [exact El|].
      split; [reflexivity|]. split; [exact Ea|]. split; [exact Hu|exact Ex].
    + left. intros Hin. apply not_true_iff_false in Et. apply Et.
      apply existsb_exists. exists t. split; [exact Hin|].
      apply PromptType_eqb_eq. reflexivity.
  - set (l := map _ (m0 :: ms)).
    destruct (hd_error (JS.sort_desc score l)) as [best|] eqn:Eh.
    + assert (Hin : In best l).
      { apply (sort_desc_In score). destruct (JS.sort_desc score l);
          [discriminate|]. cbn [hd_error] in Eh. injection Eh as ->.
        left. reflexivity. }
      subst l. apply in_map_iff in Hin. destruct Hin as (m & <- & Hm).
      cbn [sm_config]. apply Hc. exact Hm.
    + exfalso. subst l. cbn [map] in Eh.
      pose proof (sort_desc_nil score) as Hn.
      destruct (JS.sort_desc score _) eqn:Es; [|discriminate].
      apply Hn in Es. discriminate.
Qed.
